(** * Configinator: precedence resolution of configuration values

    A shallow embedding of [configinator.Behold] (configinator.go) and of
    package [container] (container/container.go), with the parts of the Go
    runtime they call: [strconv], [strings], [os], [flag], [reflect], [time].

    Conventions.
    - A Go function returning [(T, error)] becomes a function into
      [T * error], where [error] is [option string] and [None] is [nil].
    - Code that mutates the process state (the flag set, the struct behind
      the pointer given to [Behold]) or that can panic or exit runs in the
      monad [M].
    - [int] is the 64-bit [int] of the usual platforms, a [Z] within
      [minInt .. maxInt]; [float64] is Rocq's primitive binary64 [float].
    - [strconv.ParseFloat] and [time.Parse] are large library functions; the
      model and every general theorem take them as parameters of Section
      [Configinator].  Executable models of both are in Module [GoLib] and
      are used to run the examples. *)

From Stdlib Require Import ZArith String Ascii List Floats.
From stdpp Require Import base gmap strings list.

Local Open Scope string_scope.
Local Open Scope Z_scope.

(** ** Go values used throughout *)

(** [error]: [None] is [nil]; the text of a non-nil error is kept where the
    source constructs it, and only approximated for library errors. *)
Definition error : Type := option string.

Definition minInt : Z := - 2 ^ 63.
Definition maxInt : Z := 2 ^ 63 - 1.

(** *** package time: the [Time] struct *)

Inductive Location : Type :=
| UTC
| Local
| FixedZone (name : string) (offset : Z).

(** A [time.Time]: seconds since January 1, year 1, 00:00:00 UTC, the
    nanoseconds within the second, and the location. *)
Record Time : Type := mkTime { sec : Z; nsec : Z; loc : Location }.

(** [time.Time{}] *)
Definition Time_zero : Time := mkTime 0 0 UTC.

(** ** package strings / bytes *)

Definition byte_of (c : ascii) : Z := Z.of_N (N_of_ascii c).

Definition isDigit (c : ascii) : bool := (48 <=? byte_of c) && (byte_of c <=? 57).
Definition isUpper (c : ascii) : bool := (65 <=? byte_of c) && (byte_of c <=? 90).

(** [lower(c)] of strconv: [c | ('x' - 'X')] *)
Definition lower (c : ascii) : ascii :=
  ascii_of_N (Z.to_N (Z.lor (byte_of c) 32)).

Definition toLower_byte (c : ascii) : ascii :=
  if isUpper c then ascii_of_N (Z.to_N (byte_of c + 32)) else c.

(** [strings.ToLower], on the ASCII letters; other bytes are kept. *)
Fixpoint strings_ToLower (s : string) : string :=
  match s with
  | EmptyString => EmptyString
  | String c r => String (toLower_byte c) (strings_ToLower r)
  end.

Definition strings_HasPrefix (s p : string) : bool := String.prefix p s.

Fixpoint strings_ContainsByte (s : string) (b : ascii) : bool :=
  match s with
  | EmptyString => false
  | String c r => Ascii.eqb c b || strings_ContainsByte r b
  end.

(** ** package strconv *)

Definition ErrSyntax : error := Some "invalid syntax".
Definition ErrRange : error := Some "value out of range".

(** [strconv.ParseBool] *)
Definition strconv_ParseBool (str : string) : bool * error :=
  if bool_decide (str ∈ ["1"; "t"; "T"; "TRUE"; "true"; "True"]) then (true, None)
  else if bool_decide (str ∈ ["0"; "f"; "F"; "FALSE"; "false"; "False"]) then (false, None)
  else (false, ErrSyntax).

(** The digit value of a byte in [ParseUint]: decimal digits, then letters
    from 10 on; [None] for any other byte. *)
Definition digitVal (c : ascii) : option Z :=
  if isDigit c then Some (byte_of c - 48)
  else if (97 <=? byte_of (lower c)) && (byte_of (lower c) <=? 122)
       then Some (byte_of (lower c) - 97 + 10)
  else None.

(** [underscoreOK]: underscores only between digits, or between the base
    prefix and the first digit.  [saw] is the class of the last byte:
    ["0"] digit, ["_"] underscore, ["!"] other, ["^"] start. *)
Fixpoint underscoreOK_loop (hex : bool) (saw : ascii) (s : string) : bool :=
  match s with
  | EmptyString => negb (Ascii.eqb saw "_")
  | String c r =>
      if isDigit c
         || (hex && (97 <=? byte_of (lower c)) && (byte_of (lower c) <=? 102))
      then underscoreOK_loop hex "0" r
      else if Ascii.eqb c "_"
      then (if Ascii.eqb saw "0" then underscoreOK_loop hex "_" r else false)
      else if Ascii.eqb saw "_" then false
      else underscoreOK_loop hex "!" r
  end.

Definition underscoreOK (s : string) : bool :=
  let s1 := match s with
            | String c r => if Ascii.eqb c "-" || Ascii.eqb c "+" then r else s
            | EmptyString => s
            end in
  match s1 with
  | String "0" (String c r) =>
      if Ascii.eqb (lower c) "b" || Ascii.eqb (lower c) "o" || Ascii.eqb (lower c) "x"
      then underscoreOK_loop (Ascii.eqb (lower c) "x") "0" r
      else underscoreOK_loop false "^" s1
  | _ => underscoreOK_loop false "^" s1
  end.

(** The digit loop of [ParseUint]: [inr] the number, or [inl] the pair
    returned at the first offending byte. *)
Fixpoint ParseUint_loop (base0 : bool) (base maxVal n : Z) (s : string)
  : (Z * error) + (Z * bool) :=
  match s with
  | EmptyString => inr (n, false)
  | String c r =>
      if Ascii.eqb c "_" && base0 then
        match ParseUint_loop base0 base maxVal n r with
        | inr (m, _) => inr (m, true)
        | e => e
        end
      else match digitVal c with
           | None => inl (0, ErrSyntax)
           | Some d =>
               if base <=? d then inl (0, ErrSyntax)
               else if maxVal <? n * base + d then inl (maxVal, ErrRange)
               else ParseUint_loop base0 base maxVal (n * base + d) r
           end
  end.

(** [strconv.ParseUint(s, base, 64)] for [base] 0 or 2..36. *)
Definition strconv_ParseUint (s : string) (base : Z) : Z * error :=
  if String.eqb s "" then (0, ErrSyntax) else
  let '(b, digits) :=
    if base =? 0 then
      match s with
      | String "0" (String c (String _ _ as r)) =>
          if Ascii.eqb (lower c) "b" then (2, r)
          else if Ascii.eqb (lower c) "o" then (8, r)
          else if Ascii.eqb (lower c) "x" then (16, r)
          else (8, String c r)
      | String "0" r => (8, r)
      | _ => (10, s)
      end
    else (base, s) in
  match ParseUint_loop (base =? 0) b (2 ^ 64 - 1) 0 digits with
  | inl e => e
  | inr (n, underscores) =>
      if underscores && negb (underscoreOK s) then (0, ErrSyntax) else (n, None)
  end.

(** [strconv.ParseInt(s, base, 64)] *)
Definition strconv_ParseInt (s : string) (base : Z) : Z * error :=
  match s with
  | EmptyString => (0, ErrSyntax)
  | String c r =>
      let neg := Ascii.eqb c "-" in
      let body := if Ascii.eqb c "+" || neg then r else s in
      match strconv_ParseUint body base with
      | (un, Some e) =>
          if negb (String.eqb e "value out of range") then (0, Some e)
          else if neg then (minInt, ErrRange) else (maxInt, ErrRange)
      | (un, None) =>
          if negb neg && (maxInt <? un) then (maxInt, ErrRange)
          else if neg && (- minInt <? un) then (minInt, ErrRange)
          else (if neg then - un else un, None)
      end
  end.

(** [strconv.Atoi]: [ParseInt(s, 10, 0)]; its fast path for short inputs
    computes the same result. *)
Definition strconv_Atoi (s : string) : Z * error := strconv_ParseInt s 10.

(** ** package reflect: the struct behind the pointer given to [Behold] *)

(** The type of a struct field.  [Type_String] is [reflect.Type.String()];
    a type other than the five the containers set is kept by that string. *)
Inductive GoType : Type :=
| TBool
| TInt
| TFloat64
| TString
| TTime
| TNamed (name : string).

Definition Type_String (t : GoType) : string :=
  match t with
  | TBool => "bool"
  | TInt => "int"
  | TFloat64 => "float64"
  | TString => "string"
  | TTime => "time.Time"
  | TNamed name => name
  end.

(** The value a field holds. *)
Inductive Value : Type :=
| VBool (b : bool)
| VInt (i : Z)
| VFloat64 (f : float)
| VString (s : string)
| VTime (t : Time)
| VOpaque.

(** The zero value of a type, as in a fresh struct. *)
Definition zeroValue (t : GoType) : Value :=
  match t with
  | TBool => VBool false
  | TInt => VInt 0
  | TFloat64 => VFloat64 0%float
  | TString => VString ""
  | TTime => VTime Time_zero
  | TNamed _ => VOpaque
  end.

(** [reflect.StructField]: the struct tag is kept as the list of its
    [key:"value"] pairs; [exported] is [PkgPath == ""]. *)
Record StructField : Type := mkField {
  Name : string;
  Type_ : GoType;
  Tag : list (string * string);
  exported : bool
}.

(** [reflect.Type] of a struct: its fields in order. *)
Abbreviation StructType := (list StructField) (only parsing).

Definition NumField (t : StructType) : nat := length t.

(** [StructTag.Lookup] *)
Fixpoint Tag_Lookup (tag : list (string * string)) (key : string) : string * bool :=
  match tag with
  | [] => ("", false)
  | (k, v) :: rest => if String.eqb k key then (v, true) else Tag_Lookup rest key
  end.

(** [StructTag.Get] *)
Definition Tag_Get (tag : list (string * string)) (key : string) : string :=
  fst (Tag_Lookup tag key).

(** A fresh struct of type [t]: every field at its zero value. *)
Definition zeroStruct (t : StructType) : list Value :=
  map (fun f => zeroValue (Type_ f)) t.

(** ** package flag: data *)

(** A registered flag's cell, by the [flag.Value] implementation behind it. *)
Inductive flag_Value : Type :=
| boolValue (b : bool)
| intValue (i : Z)
| float64Value (f : float)
| stringValue (s : string).

Inductive ErrorHandling : Type := ContinueOnError | ExitOnError | PanicOnError.

(** [flag.FlagSet].  A flag's cell is addressed by the flag's name: a name
    is registered at most once, so the pointer that [flag.Bool] and the like
    return is modelled by that name. *)
Record FlagSet : Type := mkFlagSet {
  parsed : bool;
  formal : gmap string flag_Value;
  actual : gset string;
  errorHandling : ErrorHandling
}.

Abbreviation ptr := string (only parsing).

(** ** package env (the .env file) *)

(** Modelled from the spec: package [env] ([FileExists], [ReadFile]) is not
    among the sources.  The spec treats it as an external collaborator that
    produces a mapping from name to raw string; absence of the file is not an
    error, and a file that exists but cannot be read aborts the pass. *)
Inductive DotEnv : Type :=
| NoFile
| Unreadable (err : string)
| Readable (mapping : gmap string string).

Definition env_FileExists (d : DotEnv) : bool :=
  match d with NoFile => false | _ => true end.

Definition env_ReadFile (d : DotEnv) : gmap string string * error :=
  match d with
  | Readable m => (m, None)
  | Unreadable err => (∅, Some err)
  | NoFile => (∅, Some "open .env: no such file or directory")
  end.

(** ** The process state and the monad of effects *)

Record State : Type := mkState {
  environ : gmap string string;   (* the process environment *)
  os_Args : list string;          (* os.Args *)
  dotenv : DotEnv;                (* the file ".env" *)
  CommandLine : FlagSet;          (* flag.CommandLine *)
  object : list Value             (* the fields of the struct [config] points to *)
}.

Definition with_CommandLine (f : FlagSet) (st : State) : State :=
  mkState (environ st) (os_Args st) (dotenv st) f (object st).

Definition with_object (o : list Value) (st : State) : State :=
  mkState (environ st) (os_Args st) (dotenv st) (CommandLine st) o.

(** How a run ends: normally, by a panic, or by [os.Exit]. *)
Inductive Result (A : Type) : Type :=
| Ok (a : A)
| Panic (msg : string)
| Exit (code : Z).
Arguments Ok {A} a.
Arguments Panic {A} msg.
Arguments Exit {A} code.

Definition M (A : Type) : Type := State -> Result (A * State).

Definition ret {A} (a : A) : M A := fun st => Ok (a, st).

Definition bind {A B} (m : M A) (k : A -> M B) : M B :=
  fun st =>
    match m st with
    | Ok (a, st') => k a st'
    | Panic msg => Panic msg
    | Exit code => Exit code
    end.

Definition panic {A} (msg : string) : M A := fun _ => Panic msg.

Definition gets {A} (f : State -> A) : M A := fun st => Ok (f st, st).

Definition modify (f : State -> State) : M unit := fun st => Ok (tt, f st).

Notation "'let*' x ':=' m 'in' k" := (bind m (fun x => k))
  (at level 10, x name, m at level 100, k at level 200).

(** The value and the state a run ended with ([a], [st] when it did not end
    normally). *)
Definition valueOf {A} (r : Result (A * State)) (a : A) : A :=
  match r with Ok (x, _) => x | _ => a end.

Definition stateOf {A} (r : Result (A * State)) (st : State) : State :=
  match r with Ok (_, st') => st' | _ => st end.

(** [os.Getenv]: the value, or the empty string when the variable is unset. *)
Definition os_Getenv (key : string) (st : State) : string :=
  default "" (environ st !! key).

(** * Executable models of the two library parsers

    The model of [Behold] below does not depend on them: it takes the two
    parsers as parameters.  They serve to run [Behold] on examples. *)

Module GoLib.

(** ** An executable model of [strconv.ParseFloat(s, 64)] *)

(** [commonPrefixLenIgnoreCase(s, prefix)], [prefix] in lower case. *)
Fixpoint commonPrefixLenIgnoreCase (s prefix : string) : nat :=
  match s, prefix with
  | String c r, String p q =>
      if Ascii.eqb (toLower_byte c) p then S (commonPrefixLenIgnoreCase r q) else O
  | _, _ => O
  end.

(** [special]: the value and the number of bytes read, for "inf",
    "infinity" (signed or not) and "nan", in any case. *)
Definition special (s : string) : option (float * nat) :=
  match s with
  | EmptyString => None
  | String c r =>
      let inf (neg : bool) (nsign : nat) (body : string) :=
        let n := commonPrefixLenIgnoreCase body "infinity" in
        let n := if (3 <? n)%nat && (n <? 8)%nat then 3%nat else n in
        if (n =? 3)%nat || (n =? 8)%nat
        then Some (if neg then neg_infinity else infinity, (nsign + n)%nat)
        else None in
      if Ascii.eqb c "+" then inf false 1%nat r
      else if Ascii.eqb c "-" then inf true 1%nat r
      else if Ascii.eqb c "i" || Ascii.eqb c "I" then inf false 0%nat s
      else if Ascii.eqb c "n" || Ascii.eqb c "N" then
        (if (commonPrefixLenIgnoreCase s "nan" =? 3)%nat then Some (nan, 3%nat) else None)
      else None
  end.

(** The state of the digit loop of [readFloat]; the mantissa is kept in
    full ([ParseFloat] rounds the exact value of the literal). *)
Record mantState : Type := mkMant {
  mant : Z; nd : Z; dp : Z; sawdot : bool; sawdigits : bool; underscores : bool
}.

Fixpoint readMantissa (base : Z) (st : mantState) (s : string) : mantState * string :=
  match s with
  | EmptyString => (st, s)
  | String c r =>
      if Ascii.eqb c "_" then
        readMantissa base (mkMant (mant st) (nd st) (dp st) (sawdot st) (sawdigits st) true) r
      else if Ascii.eqb c "." then
        if sawdot st then (st, s)
        else readMantissa base
               (mkMant (mant st) (nd st) (nd st) true (sawdigits st) (underscores st)) r
      else if isDigit c then
        if Ascii.eqb c "0" && (nd st =? 0) then
          readMantissa base
            (mkMant (mant st) (nd st) (dp st - 1) (sawdot st) true (underscores st)) r
        else
          readMantissa base
            (mkMant (mant st * base + (byte_of c - 48)) (nd st + 1) (dp st)
                    (sawdot st) true (underscores st)) r
      else if (base =? 16) && (97 <=? byte_of (lower c)) && (byte_of (lower c) <=? 102) then
        readMantissa base
          (mkMant (mant st * 16 + (byte_of (lower c) - 97 + 10)) (nd st + 1) (dp st)
                  (sawdot st) true (underscores st)) r
      else (st, s)
  end.

(** The digits of the exponent: the value (capped as in the source), whether
    an underscore was seen, and the rest of the input. *)
Fixpoint readExponent (e : Z) (us : bool) (s : string) : Z * bool * string :=
  match s with
  | EmptyString => (e, us, s)
  | String c r =>
      if Ascii.eqb c "_" then readExponent e true r
      else if isDigit c then
        readExponent (if e <? 10000 then e * 10 + (byte_of c - 48) else e) us r
      else (e, us, s)
  end.

(** The first [n] bytes of [s]. *)
Definition takeBytes (n : nat) (s : string) : string := String.substring 0 n s.

(** [readFloat]: sign, mantissa, base and the exponent of the base-10 or
    base-2 scale, with the unread rest; [None] when the input is no number. *)
Definition readFloat (s : string) : option (bool * Z * bool * Z * string) :=
  match s with
  | EmptyString => None
  | String c r =>
      let neg := Ascii.eqb c "-" in
      let s1 := if Ascii.eqb c "+" || neg then r else s in
      let '(hex, s2) :=
        match s1 with
        | String "0" (String x (String _ _ as r2)) =>
            if Ascii.eqb (lower x) "x" then (true, r2) else (false, s1)
        | _ => (false, s1)
        end in
      let '(m, s3) := readMantissa (if hex then 16 else 10)
                        (mkMant 0 0 0 false false false) s2 in
      if negb (sawdigits m) then None else
      let dp0 := if sawdot m then dp m else nd m in
      let dp1 := if hex then dp0 * 4 else dp0 in
      let nd1 := if hex then nd m * 4 else nd m in
      let expChar := (if hex then "p" else "e")%char in
      let finish (dp2 : Z) (us : bool) (rest : string) :=
        let consumed := takeBytes (String.length s - String.length rest) s in
        if us && negb (underscoreOK consumed) then None
        else Some (neg, mant m, hex, dp2 - nd1, rest) in
      match s3 with
      | String e r3 =>
          if Ascii.eqb (lower e) expChar then
            match r3 with
            | EmptyString => None
            | String sg r4 =>
                let esign := if Ascii.eqb sg "-" then -1 else 1 in
                let r5 := if Ascii.eqb sg "+" || Ascii.eqb sg "-" then r4 else r3 in
                match r5 with
                | String d _ =>
                    if isDigit d then
                      let '(ev, us, rest) := readExponent 0 (underscores m) r5 in
                      finish (dp1 + ev * esign) us rest
                    else None
                | EmptyString => None
                end
            end
          else if hex then None else finish dp1 (underscores m) s3
      | EmptyString => if hex then None else finish dp1 (underscores m) s3
      end
  end.

(** The binary64 nearest to [m * 2^e] (ties to even), with the sign [neg]. *)
Definition roundBinary (neg : bool) (m e : Z) : spec_float :=
  binary_normalize 53 1024 (if neg then - m else m) e neg.

(** The binary64 nearest to [m * 10^e]: for a negative [e] the quotient is
    taken with 64 bits or more and a sticky bit for the remainder. *)
Definition roundDecimal (neg : bool) (m e : Z) : spec_float :=
  if m =? 0 then S754_zero neg
  else if 0 <=? e then roundBinary neg (m * 10 ^ e) 0
  else
    let d := 10 ^ (- e) in
    let sh := Z.max 0 (64 + Z.log2 d - Z.log2 m) in
    let q := (m * 2 ^ sh) / d in
    let sticky := if (m * 2 ^ sh) mod d =? 0 then 0 else 1 in
    roundBinary neg (2 * q + sticky) (- sh - 1).

Definition isInfinite (f : spec_float) : bool :=
  match f with S754_infinity _ => true | _ => false end.

Definition strconv_ParseFloat (s : string) : float * error :=
  match special s with
  | Some (f, n) =>
      if (n =? String.length s)%nat then (f, None) else (0%float, ErrSyntax)
  | None =>
      match readFloat s with
      | None => (0%float, ErrSyntax)
      | Some (neg, m, hex, e, rest) =>
          let f := if hex then roundBinary neg m e else roundDecimal neg m e in
          if negb (String.eqb rest "") then (0%float, ErrSyntax)
          else if isInfinite f then (SF2Prim f, ErrRange)
          else (SF2Prim f, None)
      end
  end.

(** ** An executable model of [time.Parse]

    For layouts made of the elements that occur in [timeFormats]: "2006",
    "01", "02", "15", "04", "05", "MST", "-0700", and literal text.  The
    process's local time zone, which [time.Parse] consults for a zone
    abbreviation or a numeric offset, is taken to be UTC. *)

Inductive chunk : Type :=
| literal (c : ascii)
| stdLongYear      (* "2006" *)
| stdZeroMonth     (* "01" *)
| stdZeroDay       (* "02" *)
| stdHour          (* "15" *)
| stdZeroMinute    (* "04" *)
| stdZeroSecond    (* "05" *)
| stdTZ            (* "MST" *)
| stdNumTZ.        (* "-0700" *)

(** [s] without its prefix [p], when it has it. *)
Fixpoint stripPrefix (p s : string) : option string :=
  match p, s with
  | EmptyString, _ => Some s
  | String a p', String b s' => if Ascii.eqb a b then stripPrefix p' s' else None
  | _, EmptyString => None
  end.

Definition stdChunks : list (string * chunk) :=
  [ ("2006", stdLongYear); ("01", stdZeroMonth); ("02", stdZeroDay);
    ("15", stdHour); ("04", stdZeroMinute); ("05", stdZeroSecond);
    ("MST", stdTZ); ("-0700", stdNumTZ) ].

(** The layout element that starts [s], with its length. *)
Fixpoint stdAt (table : list (string * chunk)) (s : string) : option (chunk * nat) :=
  match table with
  | [] => None
  | (p, k) :: rest =>
      if String.prefix p s then Some (k, String.length p) else stdAt rest s
  end.

(** The layout as its elements ([nextStdChunk], repeated); [skip] bytes
    belong to the element found last. *)
Fixpoint layoutChunks (skip : nat) (layout : string) : list chunk :=
  match layout with
  | EmptyString => []
  | String c r =>
      match skip with
      | S k => layoutChunks k r
      | O =>
          match stdAt stdChunks layout with
          | Some (k, n) => k :: layoutChunks (pred n) r
          | None => literal c :: layoutChunks O r
          end
      end
  end.

Fixpoint cutspace (s : string) : string :=
  match s with
  | String " " r => cutspace r
  | _ => s
  end.

(** [getnum(s, fixed)]: one or two digits, two when [fixed]. *)
Definition getnum (s : string) (fixed : bool) : option (Z * string) :=
  match s with
  | String a r =>
      if isDigit a then
        match r with
        | String b r' =>
            if isDigit b then Some ((byte_of a - 48) * 10 + (byte_of b - 48), r')
            else if fixed then None else Some (byte_of a - 48, r)
        | EmptyString => if fixed then None else Some (byte_of a - 48, r)
        end
      else None
  | EmptyString => None
  end.

(** The leading decimal digits of [s]: their number, how many there are, and
    the rest. *)
Fixpoint leadingDigits (acc : Z) (n : nat) (s : string) : Z * nat * string :=
  match s with
  | String c r =>
      if isDigit c then leadingDigits (acc * 10 + (byte_of c - 48)) (S n) r
      else (acc, n, s)
  | EmptyString => (acc, n, s)
  end.

Definition isLeap (year : Z) : bool :=
  (year mod 4 =? 0) && (negb (year mod 100 =? 0) || (year mod 400 =? 0)).

Definition daysIn (month year : Z) : Z :=
  if month =? 2 then (if isLeap year then 29 else 28)
  else if bool_decide (month ∈ [4; 6; 9; 11]) then 30 else 31.

(** Days from January 1 of year 1 to the given day. *)
Definition daysSinceEpoch (year month day : Z) : Z :=
  let y := year - 1 in
  let before := nth (Z.to_nat (month - 1))
                    [0; 31; 59; 90; 120; 151; 181; 212; 243; 273; 304; 334] 0 in
  365 * y + y / 4 - y / 100 + y / 400
  + before + (if (2 <? month) && isLeap year then 1 else 0) + (day - 1).

(** The fields read so far. *)
Record fields : Type := mkFields {
  f_year : Z; f_month : Z; f_day : Z; f_hour : Z; f_min : Z; f_sec : Z; f_nsec : Z;
  f_utc : bool;                 (* z = UTC *)
  f_zoneOffset : option Z;
  f_zoneName : string
}.

(** [parseSignedOffset]: the length of a sign and an hour up to 23, or 0. *)
Definition parseSignedOffset (value : string) : nat :=
  match value with
  | String sg r =>
      if Ascii.eqb sg "-" || Ascii.eqb sg "+" then
        let '(x, n, rest) := leadingDigits 0 O r in
        if (n =? 0)%nat || (23 <? x) then O else S n
      else O
  | EmptyString => O
  end.

Fixpoint countUpper (fuel : nat) (s : string) : nat :=
  match fuel, s with
  | S k, String c r => if isUpper c then S (countUpper k r) else O
  | _, _ => O
  end.

Definition byteAt (n : nat) (s : string) : ascii :=
  default "000"%char (String.get n s).

(** [parseTimeZone]: the length of the zone abbreviation that starts
    [value], if one does. *)
Definition parseTimeZone (value : string) : option nat :=
  if (String.length value <? 3)%nat then None
  else if String.prefix "ChST" value || String.prefix "MeST" value then Some 4%nat
  else if String.prefix "GMT" value then
    Some (3 + parseSignedOffset (String.substring 3 (String.length value - 3) value))%nat
  else if String.prefix "+" value || String.prefix "-" value then
    (if (parseSignedOffset value =? 0)%nat then None else Some (parseSignedOffset value))
  else
    match countUpper 6 value with
    | 5%nat => if Ascii.eqb (byteAt 4 value) "T" then Some 5%nat else None
    | 4%nat => if Ascii.eqb (byteAt 3 value) "T" || String.prefix "WITA" value
               then Some 4%nat else None
    | 3%nat => Some 3%nat
    | _ => None
    end.

Definition dropBytes (n : nat) (s : string) : string :=
  String.substring n (String.length s - n) s.

(** One layout element against the input: the fields and the rest of the
    input, or [None] for a mismatch or a value out of range. *)
Definition parseChunk (k : chunk) (fs : fields) (value : string)
  : option (fields * string) :=
  let set_year v := mkFields v (f_month fs) (f_day fs) (f_hour fs) (f_min fs) (f_sec fs)
                      (f_nsec fs) (f_utc fs) (f_zoneOffset fs) (f_zoneName fs) in
  let set_month v := mkFields (f_year fs) v (f_day fs) (f_hour fs) (f_min fs) (f_sec fs)
                      (f_nsec fs) (f_utc fs) (f_zoneOffset fs) (f_zoneName fs) in
  let set_day v := mkFields (f_year fs) (f_month fs) v (f_hour fs) (f_min fs) (f_sec fs)
                      (f_nsec fs) (f_utc fs) (f_zoneOffset fs) (f_zoneName fs) in
  let set_hour v := mkFields (f_year fs) (f_month fs) (f_day fs) v (f_min fs) (f_sec fs)
                      (f_nsec fs) (f_utc fs) (f_zoneOffset fs) (f_zoneName fs) in
  let set_min v := mkFields (f_year fs) (f_month fs) (f_day fs) (f_hour fs) v (f_sec fs)
                      (f_nsec fs) (f_utc fs) (f_zoneOffset fs) (f_zoneName fs) in
  let set_sec v ns := mkFields (f_year fs) (f_month fs) (f_day fs) (f_hour fs) (f_min fs) v
                      ns (f_utc fs) (f_zoneOffset fs) (f_zoneName fs) in
  let set_zone u off nm := mkFields (f_year fs) (f_month fs) (f_day fs) (f_hour fs)
                      (f_min fs) (f_sec fs) (f_nsec fs) u off nm in
  match k with
  | literal _ => None   (* literals are matched by the caller *)
  | stdLongYear =>
      let '(y, n, _) := leadingDigits 0 O (String.substring 0 4 value) in
      if (4 <=? String.length value)%nat && (n =? 4)%nat
      then Some (set_year y, dropBytes 4 value) else None
  | stdZeroMonth =>
      match getnum value true with
      | Some (m, rest) => if (m <=? 0) || (12 <? m) then None else Some (set_month m, rest)
      | None => None
      end
  | stdZeroDay =>
      match getnum value true with
      | Some (d, rest) => Some (set_day d, rest)
      | None => None
      end
  | stdHour =>
      match getnum value false with
      | Some (h, rest) => if 24 <=? h then None else Some (set_hour h, rest)
      | None => None
      end
  | stdZeroMinute =>
      match getnum value true with
      | Some (m, rest) => if 60 <=? m then None else Some (set_min m, rest)
      | None => None
      end
  | stdZeroSecond =>
      match getnum value true with
      | Some (s, rest) =>
          if 60 <=? s then None else
          (* a fractional second in the input, none in the layout *)
          match rest with
          | String p (String d _ as frac) =>
              if (Ascii.eqb p "." || Ascii.eqb p ",") && isDigit d then
                let '(_, n, rest') := leadingDigits 0 O frac in
                let '(ns, m, _) := leadingDigits 0 O (String.substring 0 9 frac) in
                Some (set_sec s (ns * 10 ^ (9 - Z.of_nat m)), rest')
              else Some (set_sec s (f_nsec fs), rest)
          | _ => Some (set_sec s (f_nsec fs), rest)
          end
      | None => None
      end
  | stdNumTZ =>
      if (String.length value <? 5)%nat then None else
      match getnum (String.substring 1 2 value) true,
            getnum (String.substring 3 2 value) true with
      | Some (hr, _), Some (mm, _) =>
          if (24 <? hr) || (60 <? mm) then None
          else if Ascii.eqb (byteAt 0 value) "+"
          then Some (set_zone (f_utc fs) (Some ((hr * 60 + mm) * 60)) (f_zoneName fs),
                     dropBytes 5 value)
          else if Ascii.eqb (byteAt 0 value) "-"
          then Some (set_zone (f_utc fs) (Some (- ((hr * 60 + mm) * 60))) (f_zoneName fs),
                     dropBytes 5 value)
          else None
      | _, _ => None
      end
  | stdTZ =>
      if String.prefix "UTC" value
      then Some (set_zone true (f_zoneOffset fs) (f_zoneName fs), dropBytes 3 value)
      else match parseTimeZone value with
           | Some n => Some (set_zone (f_utc fs) (f_zoneOffset fs) (String.substring 0 n value),
                             dropBytes n value)
           | None => None
           end
  end.

(** The loop of [parse].  A space of the layout stands for any run of
    spaces of the input ([skip]); [inSpaces] holds while the spaces of one
    run of the layout are passed over. *)
Fixpoint parseChunks (ks : list chunk) (inSpaces : bool) (fs : fields) (value : string)
  : option fields :=
  match ks with
  | [] => if String.eqb value "" then Some fs else None   (* extra text *)
  | literal c :: rest =>
      if Ascii.eqb c " " then
        if inSpaces then parseChunks rest true fs value
        else match value with
             | String v _ =>
                 if Ascii.eqb v " " then parseChunks rest true fs (cutspace value) else None
             | EmptyString => parseChunks rest true fs value
             end
      else match value with
           | String v r => if Ascii.eqb v c then parseChunks rest false fs r else None
           | EmptyString => None
           end
  | k :: rest =>
      match parseChunk k fs value with
      | Some (fs', value') => parseChunks rest false fs' value'
      | None => None
      end
  end.

Definition ErrParse : error := Some "parsing time: cannot parse".

Definition time_Parse (layout value : string) : Time * error :=
  match parseChunks (layoutChunks O layout) false
          (mkFields 0 (-1) (-1) 0 0 0 0 false None "") value with
  | None => (Time_zero, ErrParse)
  | Some fs =>
      let month := if f_month fs <? 0 then 1 else f_month fs in
      let day := if f_day fs <? 0 then 1 else f_day fs in
      if (day <? 1) || (daysIn month (f_year fs) <? day) then (Time_zero, ErrParse)
      else
        let secs := ((daysSinceEpoch (f_year fs) month day * 24 + f_hour fs) * 60
                     + f_min fs) * 60 + f_sec fs in
        if f_utc fs then (mkTime secs (f_nsec fs) UTC, None)
        else match f_zoneOffset fs with
             | Some off =>
                 (* the local zone, UTC, is used when it has this offset *)
                 if off =? 0 then (mkTime secs (f_nsec fs) Local, None)
                 else (mkTime (secs - off) (f_nsec fs) (FixedZone (f_zoneName fs) off), None)
             | None =>
                 if String.eqb (f_zoneName fs) "" then (mkTime secs (f_nsec fs) UTC, None)
                 else
                   (* an abbreviation unknown to the local zone: a fabricated
                      location, with the hours of "GMT+h" for its offset *)
                   let nm := f_zoneName fs in
                   let off := if (3 <? String.length nm)%nat && String.prefix "GMT" nm
                              then fst (strconv_ParseInt (dropBytes 3 nm) 10) * 3600
                              else 0 in
                   (mkTime secs (f_nsec fs) (FixedZone nm off), None)
             end
  end.

End GoLib.

(** * Sample structs and processes, for the examples *)

Module Sample.

Definition tags (flagName envName dflt descr : string) : list (string * string) :=
  [("flag", flagName); ("env", envName); ("default", dflt); ("description", descr)].

(** [TestConfig] of the repository's tests. *)
Definition TestConfig : StructType :=
  [ mkField "Host" TString
      (tags "host" "HOST" "localhost:8080" "Host and port to bind to") true;
    mkField "Port" TInt (tags "port" "PORT" "9000" "Port number") true;
    mkField "Debug" TBool (tags "debug" "DEBUG" "false" "Enable debug mode") true;
    mkField "Timeout" TFloat64 (tags "timeout" "TIMEOUT" "30.5" "Timeout in seconds") true;
    mkField "StartTime" TTime
      (tags "start" "START_TIME" "2023-01-01T00:00:00Z" "Start time") true ].

(** A struct with fields [container.New] builds nothing for: a field
    without a flag name, a [time.Duration], and a private field. *)
Definition Partial : StructType :=
  [ mkField "Host" TString
      (tags "host" "HOST" "localhost:8080" "Host and port to bind to") true;
    mkField "Secret" TInt [("env", "SECRET"); ("default", "7")] true;
    mkField "Duration" (TNamed "time.Duration")
      (tags "d" "DURATION" "34s" "Duration defaults to 34s") true;
    mkField "retries" TInt (tags "retries" "RETRIES" "3" "Retries") false ].

(** A process at its start: no flag registered or parsed, [CommandLine] in
    its default mode, and a fresh struct of type [t]. *)
Definition process (args : list string) (env : list (string * string))
    (file : DotEnv) (t : StructType) : State :=
  mkState (list_to_map env) args file (mkFlagSet false ∅ ∅ ExitOnError) (zeroStruct t).

(** No source set: the command line is the program name alone. *)
Definition bare (t : StructType) : State := process ["test"] [] NoFile t.

(** The three override sources of the tests' precedence scenario. *)
Definition allSources : State :=
  process ["test"; "-host=flag.com:4000"]
          [("HOST", "env.com:2000"); ("PORT", "8080")]
          (Readable (list_to_map [("HOST", "envfile.com:3000")]))
          TestConfig.

(** A date-only flag for the timestamp, the same instant as the default. *)
Definition sameInstant : State :=
  process ["test"; "-start=2023-01-01"] [] NoFile TestConfig.

(** A malformed timestamp in the environment. *)
Definition badTime : State :=
  process ["test"] [("START_TIME", "not-a-time")] NoFile TestConfig.

(** HOST set to the empty value, in the env file and in the environment. *)
Definition emptyHost : State :=
  process ["test"] [("HOST", "")] (Readable (list_to_map [("HOST", "")])) TestConfig.

(** Two fields that declare the same flag name. *)
Definition Duplicate : StructType :=
  [ mkField "Host" TString
      (tags "host" "HOST" "localhost:8080" "Host and port to bind to") true;
    mkField "Alias" TString (tags "host" "ALIAS" "" "Another name of the host") true ].


(** A port that is no number, in the environment and in the env file. *)
Definition badPort : State :=
  process ["test"] [("PORT", "abc")] (Readable (list_to_map [("PORT", "eighty")]))
          TestConfig.

(** The environment and the env file, no flag. *)
Definition noFlag : State :=
  process ["test"]
          [("HOST", "env.com:2000"); ("PORT", "8080")]
          (Readable (list_to_map [("HOST", "envfile.com:3000")]))
          TestConfig.

(** Values a caller may have put into a [TestConfig] before the pass. *)
Definition preset : list Value :=
  [VString "preset"; VInt 1; VBool true; VFloat64 1%float; VTime (mkTime 1 0 UTC)].

(** A flag that no field of [TestConfig] declares. *)
Definition unknownFlag : State :=
  process ["test"; "-verbose"; "-port=4000"] [] NoFile TestConfig.

(** A process in which the flags were parsed before the pass. *)
Definition parsedBefore : State :=
  mkState (list_to_map [("HOST", "env.com:2000"); ("PORT", "8080")])
          ["test"; "-host=flag.com:4000"] NoFile
          (mkFlagSet true ∅ ∅ ExitOnError) (zeroStruct TestConfig).

(** RETRIES set in the environment and in the env file, for [Partial]. *)
Definition retriesSet : State :=
  process ["test"] [("RETRIES", "5")] (Readable (list_to_map [("RETRIES", "6")]))
          Partial.

End Sample.

(** * The model *)

Section Configinator.

(** [strconv.ParseFloat(s, 64)] *)
Variable strconv_ParseFloat : string -> float * error.

(** [time.Parse(layout, value)] *)
Variable time_Parse : string -> string -> Time * error.

(** ** package flag: operations *)

(** [Value.Set]: each implementation stores what the parser returned, also
    when it returns the parser's error. *)
Definition Value_Set (v : flag_Value) (s : string) : flag_Value * error :=
  match v with
  | boolValue _ => let '(b, err) := strconv_ParseBool s in (boolValue b, err)
  | intValue _ => let '(i, err) := strconv_ParseInt s 0 in (intValue i, err)
  | float64Value _ => let '(f, err) := strconv_ParseFloat s in (float64Value f, err)
  | stringValue _ => (stringValue s, None)
  end.

Definition IsBoolFlag (v : flag_Value) : bool :=
  match v with boolValue _ => true | _ => false end.

Definition FlagSet_store (name : string) (v : flag_Value) (f : FlagSet) : FlagSet :=
  mkFlagSet (parsed f) (<[name := v]> (formal f)) (actual f) (errorHandling f).

Definition FlagSet_setActual (name : string) (f : FlagSet) : FlagSet :=
  mkFlagSet (parsed f) (formal f) ({[name]} ∪ actual f) (errorHandling f).

Definition FlagSet_setParsed (f : FlagSet) : FlagSet :=
  mkFlagSet true (formal f) (actual f) (errorHandling f).

(** [FlagSet.Var]: registers a cell under [name]; panics on a name that
    begins with "-", contains "=", or is registered already. *)
Definition FlagSet_Var (value : flag_Value) (name : string) (f : FlagSet)
  : Result FlagSet :=
  if strings_HasPrefix name "-" then Panic ("flag " ++ name ++ " begins with -")
  else if strings_ContainsByte name "=" then Panic ("flag " ++ name ++ " contains =")
  else match formal f !! name with
       | Some _ => Panic ("flag redefined: " ++ name)
       | None => Ok (FlagSet_store name value f)
       end.

(** [flag.Parsed] *)
Definition flag_Parsed (st : State) : bool := parsed (CommandLine st).

(** [flag.Bool], [flag.Int], [flag.Float64], [flag.String]: a new cell holding
    [value], registered on [CommandLine]; the result points to the cell. *)
Definition flag_Var (value : flag_Value) (name : string) : M ptr :=
  fun st =>
    match FlagSet_Var value name (CommandLine st) with
    | Ok f => Ok (name, with_CommandLine f st)
    | Panic msg => Panic msg
    | Exit code => Exit code
    end.

Definition flag_Bool (name : string) (value : bool) (usage : string) : M ptr :=
  flag_Var (boolValue value) name.
Definition flag_Int (name : string) (value : Z) (usage : string) : M ptr :=
  flag_Var (intValue value) name.
Definition flag_Float64 (name : string) (value : float) (usage : string) : M ptr :=
  flag_Var (float64Value value) name.
Definition flag_String (name : string) (value : string) (usage : string) : M ptr :=
  flag_Var (stringValue value) name.

(** Splits [name] at its first "=" past the first byte. *)
Fixpoint cutEquals (s : string) : string * option string :=
  match s with
  | EmptyString => ("", None)
  | String c r =>
      if Ascii.eqb c "=" then ("", Some r)
      else let '(n, v) := cutEquals r in (String c n, v)
  end.

(** How [parseOne] reads an argument: not a flag (or the terminator "--"),
    which ends the parse; bad flag syntax; or a flag name, with the value
    given after "=" if any. *)
Inductive argSyntax : Type :=
| arg_stop
| arg_bad
| arg_flag (name : string) (value : option string).

Definition parseOne_syntax (s : string) : argSyntax :=
  match s with
  | String a (String c r) =>
      (* len(s) < 2 || s[0] != '-' *)
      if negb (Ascii.eqb a "-") then arg_stop
      else if Ascii.eqb c "-" && String.eqb r "" then arg_stop   (* "--" *)
      else
        (* name := s[numMinuses:] *)
        match (if Ascii.eqb c "-" then r else String c r) with
        | EmptyString => arg_bad
        | String c0 r0 =>
            if Ascii.eqb c0 "-" || Ascii.eqb c0 "=" then arg_bad
            else let '(n, value) := cutEquals r0 in arg_flag (String c0 n) value
        end
  | _ => arg_stop
  end.

Inductive parseOne_result : Type :=
| parseOne_seen (f : FlagSet) (usedNext : bool)   (* (true, nil) *)
| parseOne_stop                                   (* (false, nil) *)
| parseOne_failed (f : FlagSet) (err : string) (help : bool).

(** [FlagSet.parseOne] on the argument [s]; [next] is the argument after
    it, if any, taken as the value of a non-boolean flag written without
    "=" ([usedNext]). *)
Definition FlagSet_parseOne (f : FlagSet) (s : string) (next : option string)
  : parseOne_result :=
  match parseOne_syntax s with
  | arg_stop => parseOne_stop
  | arg_bad => parseOne_failed f ("bad flag syntax: " ++ s) false
  | arg_flag name value =>
      match formal f !! name with
      | None =>
          if String.eqb name "help" || String.eqb name "h"
          then parseOne_failed f "flag: help requested" true
          else parseOne_failed f ("flag provided but not defined: -" ++ name) false
      | Some cell =>
          if IsBoolFlag cell then
            match Value_Set cell (default "true" value) with
            | (cell', None) =>
                parseOne_seen (FlagSet_setActual name (FlagSet_store name cell' f)) false
            | (cell', Some e) =>
                parseOne_failed (FlagSet_store name cell' f)
                  ("invalid boolean value for -" ++ name ++ ": " ++ e) false
            end
          else
            match (match value with
                   | Some v => Some (v, false)
                   | None => option_map (fun v => (v, true)) next
                   end) with
            | None => parseOne_failed f ("flag needs an argument: -" ++ name) false
            | Some (v, usedNext) =>
                match Value_Set cell v with
                | (cell', None) =>
                    parseOne_seen (FlagSet_setActual name (FlagSet_store name cell' f))
                                  usedNext
                | (cell', Some e) =>
                    parseOne_failed (FlagSet_store name cell' f)
                      ("invalid value for flag -" ++ name ++ ": " ++ e) false
                end
            end
      end
  end.

(** The loop of [FlagSet.Parse]: the flag set after the last argument
    processed, and the error that stopped the loop, if one did. *)
Fixpoint FlagSet_parseLoop (f : FlagSet) (args : list string)
  : FlagSet * option (string * bool) :=
  match args with
  | [] => (f, None)
  | s :: rest =>
      match FlagSet_parseOne f s (head rest) with
      | parseOne_seen f' false => FlagSet_parseLoop f' rest
      | parseOne_seen f' true =>
          match rest with
          | _ :: rest' => FlagSet_parseLoop f' rest'
          | [] => (f', None)
          end
      | parseOne_stop => (f, None)
      | parseOne_failed f' err help => (f', Some (err, help))
      end
  end.

(** [FlagSet.Parse] *)
Definition FlagSet_Parse (f : FlagSet) (arguments : list string)
  : Result (error * FlagSet) :=
  match FlagSet_parseLoop (FlagSet_setParsed f) arguments with
  | (f', None) => Ok (None, f')
  | (f', Some (err, help)) =>
      match errorHandling f with
      | ContinueOnError => Ok (Some err, f')
      | ExitOnError => Exit (if help then 0 else 2)
      | PanicOnError => Panic err
      end
  end.

(** [flag.Parse]: [CommandLine.Parse(os.Args[1:])], the error ignored. *)
Definition flag_Parse : M unit :=
  fun st =>
    match FlagSet_Parse (CommandLine st) (tail (os_Args st)) with
    | Ok (_, f) => Ok (tt, with_CommandLine f st)
    | Panic msg => Panic msg
    | Exit code => Exit code
    end.

(** ** package container *)

(** Supported struct tags *)
Definition TagFlagName : string := "flag".
Definition TagEnvName : string := "env".
Definition TagDefaultValue : string := "default".
Definition TagDescription : string := "description".

(** Custom errors *)
Definition ErrNoFlagName : string := "no flag name".
Definition ErrCantSet : string := "can't set private fields".

Definition timeFormats : list string :=
  [ "2006-01-02";
    "2006-01-02 15:04:05";
    "2006-01-02T15:04:05";
    "2006-01-02T15:04:05Z";
    "2006-01-02T15:04:05 MST";
    "2006-01-02T15:04:05-0700" ].

(** Base container: [fieldValue] is the place of the field in the struct
    ([configValue.Field(index)]), held as its index in [object]; [config] and
    [configValue] denote that one struct and are not kept. *)
Record baseContainer : Type := mkBase {
  defaultValue : string;
  description : string;
  envFile : gmap string string;
  envName : string;
  field : StructField;
  fieldName : string;
  fieldValue : nat;
  flagName : string
}.

(** [baseContainer{}] *)
Definition baseContainer_zero : baseContainer :=
  mkBase "" "" ∅ "" (mkField "" (TNamed "") [] false) "" 0%nat "".

Record BoolContainer : Type := mkBool {
  Bool_base :> baseContainer;
  Bool_flagValue : option ptr
}.

Record IntContainer : Type := mkInt {
  Int_base :> baseContainer;
  Int_flagValue : option ptr
}.

Record Float64Container : Type := mkFloat64 {
  Float64_base :> baseContainer;
  Float64_flagValue : option ptr
}.

Record StringContainer : Type := mkString {
  String_base :> baseContainer;
  String_flagValue : option ptr
}.

Record TimeContainer : Type := mkTimeC {
  Time_base :> baseContainer;
  Time_flagValue : option ptr
}.

(** [t.Field(index)]; panics when the index is out of range. *)
Definition Type_Field (t : StructType) (index : nat) : M StructField :=
  match t !! index with
  | Some f => ret f
  | None => panic "reflect: Field index out of bounds"
  end.

Definition newBaseContainer (t : StructType) (index : nat)
    (envFile : gmap string string) : M (baseContainer * error) :=
  let* f := Type_Field t index in
  if negb (exported f) (* !configValue.Field(index).CanSet() *) then
    ret (baseContainer_zero, Some ErrCantSet)
  else
    let '(flagName, hasFlag) := Tag_Lookup (Tag f) TagFlagName in
    if negb hasFlag then ret (baseContainer_zero, Some ErrNoFlagName)
    else ret (mkBase (Tag_Get (Tag f) TagDefaultValue)
                     (Tag_Get (Tag f) TagDescription)
                     envFile
                     (Tag_Get (Tag f) TagEnvName)
                     f
                     (Name f)
                     index
                     flagName, None).

(** Dereferencing a container's [flagValue].  The pointer came from
    [flag.Bool] (and the like) under the container's flag name, so the cell
    exists and has the pointer's type; the other branches are never taken on
    a container built by [NewBool] (and the like). *)
Definition load_bool (p : ptr) (st : State) : bool :=
  match formal (CommandLine st) !! p with Some (boolValue b) => b | _ => false end.
Definition load_int (p : ptr) (st : State) : Z :=
  match formal (CommandLine st) !! p with Some (intValue i) => i | _ => 0 end.
Definition load_float64 (p : ptr) (st : State) : float :=
  match formal (CommandLine st) !! p with Some (float64Value f) => f | _ => 0%float end.
Definition load_string (p : ptr) (st : State) : string :=
  match formal (CommandLine st) !! p with Some (stringValue s) => s | _ => "" end.

#[local] Instance GoType_eq_dec : EqDecision GoType.
Proof. solve_decision. Defined.

(** [reflect.Value.SetBool] and the like on [c.fieldValue]: panics unless the
    field has the kind (for [Set], the type) of the value. *)
Definition reflect_Set (c : baseContainer) (kind : GoType) (v : Value) : M unit :=
  if bool_decide (Type_ (field c) = kind)
  then modify (fun st => with_object (<[fieldValue c := v]> (object st)) st)
  else panic ("reflect: value is not assignable to type " ++ Type_String (Type_ (field c))).

(** *** BoolContainer methods *)

Definition BoolContainer_GetDefaultValue (c : BoolContainer) : bool :=
  match strconv_ParseBool (defaultValue c) with
  | (result, None) => result
  | _ => false
  end.

Definition BoolContainer_GetEnvValue (c : BoolContainer) (st : State) : bool * bool :=
  let value := os_Getenv (envName c) st in
  if negb (String.eqb value "") then
    match strconv_ParseBool value with
    | (result, None) => (result, true)
    | _ => (false, false)
    end
  else (false, false).

Definition BoolContainer_GetEnvFileValue (c : BoolContainer) : bool * bool :=
  match envFile c !! envName c with
  | Some value =>
      match strconv_ParseBool value with
      | (result, None) => (result, true)
      | _ => (false, false)
      end
  | None => (false, false)
  end.

Definition BoolContainer_GetFlagValue (c : BoolContainer) (st : State) : bool * bool :=
  match Bool_flagValue c with
  | Some p =>
      if negb (Bool.eqb (load_bool p st) (BoolContainer_GetDefaultValue c))
      then (load_bool p st, true)
      else (false, false)
  | None => (false, false)
  end.

Definition BoolContainer_SetConfigValue (c : BoolContainer) (value : bool) : M unit :=
  reflect_Set c TBool (VBool value).

(** *** IntContainer methods *)

Definition IntContainer_GetDefaultValue (c : IntContainer) : Z :=
  match strconv_Atoi (defaultValue c) with
  | (result, None) => result
  | _ => 0
  end.

Definition IntContainer_GetEnvValue (c : IntContainer) (st : State) : Z * bool :=
  let value := os_Getenv (envName c) st in
  if negb (String.eqb value "") then
    match strconv_Atoi value with
    | (result, None) => (result, true)
    | _ => (0, false)
    end
  else (0, false).

Definition IntContainer_GetEnvFileValue (c : IntContainer) : Z * bool :=
  match envFile c !! envName c with
  | Some value =>
      match strconv_Atoi value with
      | (result, None) => (result, true)
      | _ => (0, false)
      end
  | None => (0, false)
  end.

Definition IntContainer_GetFlagValue (c : IntContainer) (st : State) : Z * bool :=
  match Int_flagValue c with
  | Some p =>
      if negb (load_int p st =? IntContainer_GetDefaultValue c)
      then (load_int p st, true)
      else (0, false)
  | None => (0, false)
  end.

Definition IntContainer_SetConfigValue (c : IntContainer) (value : Z) : M unit :=
  reflect_Set c TInt (VInt value).

(** *** Float64Container methods *)

Definition Float64Container_GetDefaultValue (c : Float64Container) : float :=
  match strconv_ParseFloat (defaultValue c) with
  | (result, None) => result
  | _ => 0%float
  end.

Definition Float64Container_GetEnvValue (c : Float64Container) (st : State)
  : float * bool :=
  let value := os_Getenv (envName c) st in
  if negb (String.eqb value "") then
    match strconv_ParseFloat value with
    | (result, None) => (result, true)
    | _ => (0%float, false)
    end
  else (0%float, false).

Definition Float64Container_GetEnvFileValue (c : Float64Container) : float * bool :=
  match envFile c !! envName c with
  | Some value =>
      match strconv_ParseFloat value with
      | (result, None) => (result, true)
      | _ => (0%float, false)
      end
  | None => (0%float, false)
  end.

Definition Float64Container_GetFlagValue (c : Float64Container) (st : State)
  : float * bool :=
  match Float64_flagValue c with
  | Some p =>
      if negb (PrimFloat.eqb (load_float64 p st) (Float64Container_GetDefaultValue c))
      then (load_float64 p st, true)
      else (0%float, false)
  | None => (0%float, false)
  end.

Definition Float64Container_SetConfigValue (c : Float64Container) (value : float)
  : M unit :=
  reflect_Set c TFloat64 (VFloat64 value).

(** *** StringContainer methods *)

Definition StringContainer_GetDefaultValue (c : StringContainer) : string :=
  defaultValue c.

Definition StringContainer_GetEnvValue (c : StringContainer) (st : State)
  : string * bool :=
  let value := os_Getenv (envName c) st in
  if negb (String.eqb value "") then (value, true) else ("", false).

Definition StringContainer_GetEnvFileValue (c : StringContainer) : string * bool :=
  match envFile c !! envName c with
  | Some value => (value, true)
  | None => ("", false)
  end.

Definition StringContainer_GetFlagValue (c : StringContainer) (st : State)
  : string * bool :=
  match String_flagValue c with
  | Some p =>
      if negb (String.eqb (load_string p st) (StringContainer_GetDefaultValue c))
      then (load_string p st, true)
      else ("", false)
  | None => ("", false)
  end.

Definition StringContainer_SetConfigValue (c : StringContainer) (value : string)
  : M unit :=
  reflect_Set c TString (VString value).

(** *** TimeContainer methods *)

(** The loop of [parseTime]: the first layout that parses gives the result. *)
Fixpoint parseTime_loop (formats : list string) (value : string) : Time :=
  match formats with
  | [] => Time_zero
  | f :: rest =>
      match time_Parse f value with
      | (t, None) => t
      | _ => parseTime_loop rest value
      end
  end.

Definition TimeContainer_parseTime (c : TimeContainer) (value : string) : Time :=
  parseTime_loop timeFormats value.

Fixpoint isTime_loop (formats : list string) (value : string) : bool :=
  match formats with
  | [] => false
  | f :: rest =>
      match time_Parse f value with
      | (_, None) => true
      | _ => isTime_loop rest value
      end
  end.

Definition TimeContainer_isTime (c : TimeContainer) (value : string) : bool :=
  isTime_loop timeFormats value.

Definition TimeContainer_GetDefaultValue (c : TimeContainer) : Time :=
  if negb (TimeContainer_isTime c (defaultValue c)) then Time_zero
  else TimeContainer_parseTime c (defaultValue c).

Definition TimeContainer_GetEnvValue (c : TimeContainer) (st : State) : Time * bool :=
  let value := os_Getenv (envName c) st in
  if negb (String.eqb value "") then (TimeContainer_parseTime c value, true)
  else (Time_zero, false).

Definition TimeContainer_GetEnvFileValue (c : TimeContainer) : Time * bool :=
  match envFile c !! envName c with
  | Some value => (TimeContainer_parseTime c value, true)
  | None => (Time_zero, false)
  end.

Definition TimeContainer_GetFlagValue (c : TimeContainer) (st : State) : Time * bool :=
  match Time_flagValue c with
  | Some p =>
      if negb (String.eqb (load_string p st) (defaultValue c))
      then (TimeContainer_parseTime c (load_string p st), true)
      else (Time_zero, false)
  | None => (Time_zero, false)
  end.

Definition TimeContainer_SetConfigValue (c : TimeContainer) (value : Time) : M unit :=
  reflect_Set c TTime (VTime value).

(** *** Generic container interface for type-safe value resolution *)

Class Container (C T : Type) : Type := {
  GetEnvValue : C -> State -> T * bool;
  GetEnvFileValue : C -> T * bool;
  GetFlagValue : C -> State -> T * bool;
  SetConfigValue : C -> T -> M unit;
  GetDefaultValue : C -> T
}.

#[export] Instance BoolContainer_Container : Container BoolContainer bool := {
  GetEnvValue := BoolContainer_GetEnvValue;
  GetEnvFileValue := BoolContainer_GetEnvFileValue;
  GetFlagValue := BoolContainer_GetFlagValue;
  SetConfigValue := BoolContainer_SetConfigValue;
  GetDefaultValue := BoolContainer_GetDefaultValue
}.

#[export] Instance IntContainer_Container : Container IntContainer Z := {
  GetEnvValue := IntContainer_GetEnvValue;
  GetEnvFileValue := IntContainer_GetEnvFileValue;
  GetFlagValue := IntContainer_GetFlagValue;
  SetConfigValue := IntContainer_SetConfigValue;
  GetDefaultValue := IntContainer_GetDefaultValue
}.

#[export] Instance Float64Container_Container : Container Float64Container float := {
  GetEnvValue := Float64Container_GetEnvValue;
  GetEnvFileValue := Float64Container_GetEnvFileValue;
  GetFlagValue := Float64Container_GetFlagValue;
  SetConfigValue := Float64Container_SetConfigValue;
  GetDefaultValue := Float64Container_GetDefaultValue
}.

#[export] Instance StringContainer_Container : Container StringContainer string := {
  GetEnvValue := StringContainer_GetEnvValue;
  GetEnvFileValue := StringContainer_GetEnvFileValue;
  GetFlagValue := StringContainer_GetFlagValue;
  SetConfigValue := StringContainer_SetConfigValue;
  GetDefaultValue := StringContainer_GetDefaultValue
}.

#[export] Instance TimeContainer_Container : Container TimeContainer Time := {
  GetEnvValue := TimeContainer_GetEnvValue;
  GetEnvFileValue := TimeContainer_GetEnvFileValue;
  GetFlagValue := TimeContainer_GetFlagValue;
  SetConfigValue := TimeContainer_SetConfigValue;
  GetDefaultValue := TimeContainer_GetDefaultValue
}.

(** *** Constructors *)

(** A value of type [any] holding a container, or [nil]. *)
Inductive any : Type :=
| any_nil
| any_Bool (c : BoolContainer)
| any_Int (c : IntContainer)
| any_Float64 (c : Float64Container)
| any_String (c : StringContainer)
| any_Time (c : TimeContainer).

Definition NewBool (t : StructType) (index : nat) (envFile : gmap string string)
  : M (any * error) :=
  let* r := newBaseContainer t index envFile in
  match r with
  | (_, Some err) => ret (any_nil, Some err)
  | (base, None) =>
      let result := mkBool base None in
      let* isParsed := gets flag_Parsed in
      let* result :=
        (if negb isParsed then
           let* p := flag_Bool (flagName result) (BoolContainer_GetDefaultValue result)
                               (description result) in
           ret (mkBool base (Some p))
         else ret result) in
      let* _ := BoolContainer_SetConfigValue result (BoolContainer_GetDefaultValue result) in
      ret (any_Bool result, None)
  end.

Definition NewInt (t : StructType) (index : nat) (envFile : gmap string string)
  : M (any * error) :=
  let* r := newBaseContainer t index envFile in
  match r with
  | (_, Some err) => ret (any_nil, Some err)
  | (base, None) =>
      let result := mkInt base None in
      let* isParsed := gets flag_Parsed in
      let* result :=
        (if negb isParsed then
           let* p := flag_Int (flagName result) (IntContainer_GetDefaultValue result)
                              (description result) in
           ret (mkInt base (Some p))
         else ret result) in
      let* _ := IntContainer_SetConfigValue result (IntContainer_GetDefaultValue result) in
      ret (any_Int result, None)
  end.

Definition NewFloat64 (t : StructType) (index : nat) (envFile : gmap string string)
  : M (any * error) :=
  let* r := newBaseContainer t index envFile in
  match r with
  | (_, Some err) => ret (any_nil, Some err)
  | (base, None) =>
      let result := mkFloat64 base None in
      let* isParsed := gets flag_Parsed in
      let* result :=
        (if negb isParsed then
           let* p := flag_Float64 (flagName result)
                                  (Float64Container_GetDefaultValue result)
                                  (description result) in
           ret (mkFloat64 base (Some p))
         else ret result) in
      let* _ := Float64Container_SetConfigValue result
                  (Float64Container_GetDefaultValue result) in
      ret (any_Float64 result, None)
  end.

Definition NewString (t : StructType) (index : nat) (envFile : gmap string string)
  : M (any * error) :=
  let* r := newBaseContainer t index envFile in
  match r with
  | (_, Some err) => ret (any_nil, Some err)
  | (base, None) =>
      let result := mkString base None in
      let* isParsed := gets flag_Parsed in
      let* result :=
        (if negb isParsed then
           let* p := flag_String (flagName result)
                                 (StringContainer_GetDefaultValue result)
                                 (description result) in
           ret (mkString base (Some p))
         else ret result) in
      let* _ := StringContainer_SetConfigValue result
                  (StringContainer_GetDefaultValue result) in
      ret (any_String result, None)
  end.

Definition NewTime (t : StructType) (index : nat) (envFile : gmap string string)
  : M (any * error) :=
  let* r := newBaseContainer t index envFile in
  match r with
  | (_, Some err) => ret (any_nil, Some err)
  | (base, None) =>
      let result := mkTimeC base None in
      let* isParsed := gets flag_Parsed in
      let* result :=
        (if negb isParsed then
           let* p := flag_String (flagName result) (defaultValue result)
                                 (description result) in
           ret (mkTimeC base (Some p))
         else ret result) in
      let* _ := TimeContainer_SetConfigValue result (TimeContainer_GetDefaultValue result) in
      ret (any_Time result, None)
  end.

Definition New (t : StructType) (index : nat) (envFile : gmap string string)
  : M (any * error) :=
  let* f := Type_Field t index in
  let fieldType := strings_ToLower (Type_String (Type_ f)) in
  if String.eqb fieldType "bool" then NewBool t index envFile
  else if String.eqb fieldType "int" then NewInt t index envFile
  else if String.eqb fieldType "float64" then NewFloat64 t index envFile
  else if String.eqb fieldType "string" then NewString t index envFile
  else if String.eqb fieldType "time.time" then NewTime t index envFile
  else ret (any_nil, Some ("unsupported field type: " ++ fieldType)).

(** ** package configinator *)

Definition applyValueWithPrecedence {C T : Type} `{Container C T} (c : C) : M unit :=
  (* Environment variable (precedence 2) *)
  let* env := gets (GetEnvValue c) in
  let* _ := (let '(value, ok) := env in
             if ok then SetConfigValue c value else ret tt) in
  (* Environment file (precedence 3) *)
  let* _ := (let '(value, ok) := GetEnvFileValue c in
             if ok then SetConfigValue c value else ret tt) in
  (* Command line flag (highest precedence) *)
  let* flg := gets (GetFlagValue c) in
  let '(value, ok) := flg in
  if ok then SetConfigValue c value else ret tt.

(** The first loop of [Behold]: one container per field, the error of
    [container.New] dropped. *)
Fixpoint Behold_setup (t : StructType) (envFile : gmap string string)
    (indices : list nat) : M (list any) :=
  match indices with
  | [] => ret []
  | index :: rest =>
      let* r := New t index envFile in
      let* containers := Behold_setup t envFile rest in
      ret (fst r :: containers)
  end.

(** The body of the second loop: the type switch on the container. *)
Definition Behold_switch (c : any) : M unit :=
  match c with
  | any_Bool typedContainer => applyValueWithPrecedence typedContainer
  | any_Int typedContainer => applyValueWithPrecedence typedContainer
  | any_Float64 typedContainer => applyValueWithPrecedence typedContainer
  | any_String typedContainer => applyValueWithPrecedence typedContainer
  | any_Time typedContainer => applyValueWithPrecedence typedContainer
  | any_nil => ret tt
  end.

Fixpoint Behold_apply (containers : list any) : M unit :=
  match containers with
  | [] => ret tt
  | c :: rest => let* _ := Behold_switch c in Behold_apply rest
  end.

(** The env file, loaded if there is one. *)
Definition Behold_envFile : M (gmap string string) :=
  let* d := gets dotenv in
  if env_FileExists d then
    match env_ReadFile d with
    | (envFile, None) => ret envFile
    | (_, Some err) => panic err
    end
  else ret ∅.

(** The flags, parsed if there are arguments and no parse happened yet. *)
Definition Behold_parse : M unit :=
  let* args := gets os_Args in
  let* isParsed := gets flag_Parsed in
  if (1 <? Z.of_nat (length args)) && negb isParsed then flag_Parse else ret tt.

(** [Behold(config)], for [config] a pointer to a struct of type [t] whose
    fields are [object]. *)
Definition Behold (t : StructType) : M unit :=
  let* envFile := Behold_envFile in
  let* containers := Behold_setup t envFile (seq 0 (NumField t)) in
  let* _ := Behold_parse in
  Behold_apply containers.

(** ** Definitions used to state the properties *)

(** [Behold] up to its second loop: the containers it built, in the state
    the second loop starts from. *)
Definition Behold_containers (t : StructType) : M (list any) :=
  let* envFile := Behold_envFile in
  let* containers := Behold_setup t envFile (seq 0 (NumField t)) in
  let* _ := Behold_parse in
  ret containers.

(** The types [container.New] has a constructor for. *)
Definition supported (ty : GoType) : bool :=
  bool_decide (strings_ToLower (Type_String ty)
                 ∈ ["bool"; "int"; "float64"; "string"; "time.time"]).

(** The fields [container.New] builds a container for: of a supported
    type, settable, declaring a flag name. *)
Definition constructible (f : StructField) : bool :=
  supported (Type_ f) && exported f && snd (Tag_Lookup (Tag f) TagFlagName).

(** The base container of field [f], at [index]. *)
Definition baseOf (f : StructField) (index : nat) (envFile : gmap string string)
  : baseContainer :=
  mkBase (Tag_Get (Tag f) TagDefaultValue) (Tag_Get (Tag f) TagDescription) envFile
         (Tag_Get (Tag f) TagEnvName) f (Name f) index
         (fst (Tag_Lookup (Tag f) TagFlagName)).

(** The parts of a container of any of the five types. *)
Definition any_base (c : any) : baseContainer :=
  match c with
  | any_nil => baseContainer_zero
  | any_Bool c => c
  | any_Int c => c
  | any_Float64 c => c
  | any_String c => c
  | any_Time c => c
  end.

Definition any_flagValue (c : any) : option ptr :=
  match c with
  | any_nil => None
  | any_Bool c => Bool_flagValue c
  | any_Int c => Int_flagValue c
  | any_Float64 c => Float64_flagValue c
  | any_String c => String_flagValue c
  | any_Time c => Time_flagValue c
  end.

(** The type of the field a container of this kind writes to. *)
Definition any_kind (c : any) : GoType :=
  match c with
  | any_nil => TNamed ""
  | any_Bool _ => TBool
  | any_Int _ => TInt
  | any_Float64 _ => TFloat64
  | any_String _ => TString
  | any_Time _ => TTime
  end.

(** The four accessors of a container, their results as field values. *)
Definition any_GetDefaultValue (c : any) : Value :=
  match c with
  | any_nil => VOpaque
  | any_Bool c => VBool (GetDefaultValue c)
  | any_Int c => VInt (GetDefaultValue c)
  | any_Float64 c => VFloat64 (GetDefaultValue c)
  | any_String c => VString (GetDefaultValue c)
  | any_Time c => VTime (GetDefaultValue c)
  end.

Definition any_GetEnvValue (c : any) (st : State) : Value * bool :=
  match c with
  | any_nil => (VOpaque, false)
  | any_Bool c => (VBool (fst (GetEnvValue c st)), snd (GetEnvValue c st))
  | any_Int c => (VInt (fst (GetEnvValue c st)), snd (GetEnvValue c st))
  | any_Float64 c => (VFloat64 (fst (GetEnvValue c st)), snd (GetEnvValue c st))
  | any_String c => (VString (fst (GetEnvValue c st)), snd (GetEnvValue c st))
  | any_Time c => (VTime (fst (GetEnvValue c st)), snd (GetEnvValue c st))
  end.

Definition any_GetEnvFileValue (c : any) : Value * bool :=
  match c with
  | any_nil => (VOpaque, false)
  | any_Bool c => (VBool (fst (GetEnvFileValue c)), snd (GetEnvFileValue c))
  | any_Int c => (VInt (fst (GetEnvFileValue c)), snd (GetEnvFileValue c))
  | any_Float64 c => (VFloat64 (fst (GetEnvFileValue c)), snd (GetEnvFileValue c))
  | any_String c => (VString (fst (GetEnvFileValue c)), snd (GetEnvFileValue c))
  | any_Time c => (VTime (fst (GetEnvFileValue c)), snd (GetEnvFileValue c))
  end.

Definition any_GetFlagValue (c : any) (st : State) : Value * bool :=
  match c with
  | any_nil => (VOpaque, false)
  | any_Bool c => (VBool (fst (GetFlagValue c st)), snd (GetFlagValue c st))
  | any_Int c => (VInt (fst (GetFlagValue c st)), snd (GetFlagValue c st))
  | any_Float64 c => (VFloat64 (fst (GetFlagValue c st)), snd (GetFlagValue c st))
  | any_String c => (VString (fst (GetFlagValue c st)), snd (GetFlagValue c st))
  | any_Time c => (VTime (fst (GetFlagValue c st)), snd (GetFlagValue c st))
  end.

(** The cell a constructor registers for the container's flag: the parsed
    default, and for a [TimeContainer] the default as declared. *)
Definition any_cell (c : any) : flag_Value :=
  match c with
  | any_nil => stringValue ""
  | any_Bool c => boolValue (GetDefaultValue c)
  | any_Int c => intValue (GetDefaultValue c)
  | any_Float64 c => float64Value (GetDefaultValue c)
  | any_String c => stringValue (GetDefaultValue c)
  | any_Time c => stringValue (defaultValue c)
  end.

(** The value the three conditional writes of [applyValueWithPrecedence]
    leave over the default: the flag value if present, otherwise the env-file
    value if present, otherwise the environment value if present, otherwise
    the parsed default. *)
Definition byPrecedence (flagV envFileV envV : Value * bool) (dflt : Value) : Value :=
  if snd flagV then fst flagV
  else if snd envFileV then fst envFileV
  else if snd envV then fst envV
  else dflt.

Definition resolved (c : any) (st : State) : Value :=
  byPrecedence (any_GetFlagValue c st) (any_GetEnvFileValue c) (any_GetEnvValue c st)
               (any_GetDefaultValue c).

(** An argument that names the flag [name]: "-name", "--name", or one of
    them followed by "=" and a value. *)
Definition mentions (name arg : string) : bool :=
  bool_decide (arg = "-" ++ name) || bool_decide (arg = "--" ++ name)
  || String.prefix ("-" ++ name ++ "=") arg || String.prefix ("--" ++ name ++ "=") arg.

(** The flag [name] was supplied on the command line [args = os.Args]. *)
Definition supplied (name : string) (args : list string) : Prop :=
  exists arg, arg ∈ tail args /\ mentions name arg = true.

(** The state after a constructor that built the container [c] for the
    field at [index]: the flag is registered unless flags were parsed, and
    the field holds the default. *)
Definition after_New (c : any) (index : nat) (st : State) : State :=
  match c with
  | any_nil => st
  | _ =>
      with_object (<[index := any_GetDefaultValue c]> (object st))
        (if flag_Parsed st then st
         else with_CommandLine
                (FlagSet_store (flagName (any_base c)) (any_cell c) (CommandLine st)) st)
  end.

Definition built (f : StructField) (index : nat) (envFile : gmap string string)
    (c : any) (st st' : State) : Prop :=
  any_base c = baseOf f index envFile /\
  Type_ f = any_kind c /\
  any_flagValue c
    = (if flag_Parsed st then None else Some (flagName (any_base c))) /\
  (flag_Parsed st = false ->
     formal (CommandLine st) !! flagName (any_base c) = None) /\
  st' = after_New c index st.

(** The outcome of one of the five constructors, for the field [f]. *)
Definition New_outcome (f : StructField) (index : nat) (envFile : gmap string string)
    (c : any) (err : error) (st st' : State) : Prop :=
  (c = any_nil /\ st' = st /\
     ((err = Some ErrCantSet /\ exported f = false)
      \/ (err = Some ErrNoFlagName /\ exported f = true
          /\ snd (Tag_Lookup (Tag f) TagFlagName) = false)))
  \/ (c <> any_nil /\ err = None /\ exported f = true
      /\ snd (Tag_Lookup (Tag f) TagFlagName) = true
      /\ built f index envFile c st st').

(** The error of [New] for a field of a type without a constructor. *)
Definition unsupportedError (f : StructField) : string :=
  "unsupported field type: " ++ strings_ToLower (Type_String (Type_ f)).

(** The writes of [applyValueWithPrecedence] for the container [c], on the
    fields [o], with the sources read in the state [st]. *)
Definition writes (c : any) (st : State) (o : list Value) : list Value :=
  let i := fieldValue (any_base c) in
  let o1 := if snd (any_GetEnvValue c st)
            then <[i := fst (any_GetEnvValue c st)]> o else o in
  let o2 := if snd (any_GetEnvFileValue c)
            then <[i := fst (any_GetEnvFileValue c)]> o1 else o1 in
  if snd (any_GetFlagValue c st)
  then <[i := fst (any_GetFlagValue c st)]> o2 else o2.

(** The fields after the second loop over [cs]. *)
Fixpoint apply_all (cs : list any) (st : State) (o : list Value) : list Value :=
  match cs with
  | [] => o
  | c :: rest => apply_all rest st (writes c st o)
  end.

(** The container at position [j] of [cs] writes to the field [k + j]. *)
Definition placed (k : nat) (cs : list any) : Prop :=
  forall j c, cs !! j = Some c -> c <> any_nil -> fieldValue (any_base c) = (k + j)%nat.

(** The container [New] returns for the field at [index]. *)
Definition container_of (t : StructType) (envFile : gmap string string)
    (isParsed : bool) (index : nat) (c : any) : Prop :=
  exists f, t !! index = Some f /\
    if constructible f
    then c <> any_nil /\ any_base c = baseOf f index envFile /\ Type_ f = any_kind c
         /\ any_flagValue c = (if isParsed then None else Some (flagName (any_base c)))
    else c = any_nil.

(** The runs of the first loop that end normally. *)
Inductive setup_run (t : StructType) (envFile : gmap string string)
  : list nat -> State -> list any -> State -> Prop :=
| setup_done st : setup_run t envFile [] st [] st
| setup_step index rest st c cs st' :
    container_of t envFile (flag_Parsed st) index c ->
    (c <> any_nil -> flag_Parsed st = false ->
       formal (CommandLine st) !! flagName (any_base c) = None) ->
    setup_run t envFile rest (after_New c index st) cs st' ->
    setup_run t envFile (index :: rest) st (c :: cs) st'.

(** What the first loop leaves unchanged. *)
Definition same_process (st st' : State) : Prop :=
  environ st' = environ st /\ os_Args st' = os_Args st /\ dotenv st' = dotenv st
  /\ parsed (CommandLine st') = parsed (CommandLine st)
  /\ actual (CommandLine st') = actual (CommandLine st)
  /\ errorHandling (CommandLine st') = errorHandling (CommandLine st).

(** No argument of [args] names the flag [name]. *)
Definition unmentioned (name : string) (args : list string) : bool :=
  negb (existsb (mentions name) args).

(** The mapping read from the .env file; empty when there is none. *)
Definition loaded (d : DotEnv) : gmap string string :=
  match d with Readable m => m | _ => ∅ end.

(** The default of a [Float64Container] is a number: it equals itself
    under Go's [==]. *)
Definition default_not_NaN (c : any) : Prop :=
  match c with
  | any_Float64 c =>
      PrimFloat.eqb (Float64Container_GetDefaultValue c)
                    (Float64Container_GetDefaultValue c) = true
  | _ => True
  end.

(** What "the flag value differs from the default" is for each container:
    Go's [!=] between the cell and the computed default, and for a
    [TimeContainer] between the flag string and the default as declared,
    the value returned being the parse of the flag string. *)
Definition flag_differs (c : any) (st : State) : Prop :=
  match c with
  | any_nil => False
  | any_Bool c => fst (GetFlagValue c st) <> GetDefaultValue c
  | any_Int c => fst (GetFlagValue c st) <> GetDefaultValue c
  | any_Float64 c =>
      PrimFloat.eqb (fst (GetFlagValue c st)) (GetDefaultValue c) = false
  | any_String c => fst (GetFlagValue c st) <> GetDefaultValue c
  | any_Time c =>
      load_string (flagName c) st <> defaultValue c
      /\ fst (GetFlagValue c st)
         = TimeContainer_parseTime c (load_string (flagName c) st)
  end.

(** [value] parses, giving [t], by the first layout of [formats] that
    accepts it. *)
Definition first_layout_parses (formats : list string) (value : string) (t : Time)
  : Prop :=
  exists (pre : list string) (f : string) (post : list string),
    formats = (pre ++ f :: post)%list
    /\ (forall g, g ∈ pre -> snd (time_Parse g value) <> None)
    /\ time_Parse f value = (t, None).

(** No layout of [formats] accepts [value]. *)
Definition no_layout_parses (formats : list string) (value : string) : Prop :=
  forall f, f ∈ formats -> snd (time_Parse f value) <> None.

(** The error [container.New] returns for a field it builds no container
    for: its type has no constructor, it is not settable, or it declares no
    flag name. *)
Definition New_error (f : StructField) : string :=
  if negb (supported (Type_ f)) then unsupportedError f
  else if negb (exported f) then ErrCantSet
  else ErrNoFlagName.

(** One of the five types a container writes. *)
Definition basic (ty : GoType) : Prop :=
  match ty with TNamed _ => False | _ => True end.

(** The fields of [t] at [indices] exist, the constructible ones of a
    basic type. *)
Definition well_kinded (t : StructType) (indices : list nat) : Prop :=
  forall index, index ∈ indices ->
    exists f, t !! index = Some f /\ (constructible f = true -> basic (Type_ f)).

(** The names [flag.Var] accepts: not beginning with "-", holding no "=". *)
Definition flag_name_ok (name : string) : bool :=
  negb (strings_HasPrefix name "-") && negb (strings_ContainsByte name "=").

(** The container a constructor builds for the field [f] at [index]:
    [flagValue] points to the flag's cell unless flags were parsed. *)
Definition container_for (f : StructField) (index : nat)
    (envFile : gmap string string) (isParsed : bool) : any :=
  let base := baseOf f index envFile in
  let flagValue := if isParsed then None else Some (flagName base) in
  match Type_ f with
  | TBool => any_Bool (mkBool base flagValue)
  | TInt => any_Int (mkInt base flagValue)
  | TFloat64 => any_Float64 (mkFloat64 base flagValue)
  | TString => any_String (mkString base flagValue)
  | TTime => any_Time (mkTimeC base flagValue)
  | TNamed _ => any_nil
  end.

(** The flag name the field [f] declares. *)
Definition flagNameOf (f : StructField) : string :=
  fst (Tag_Lookup (Tag f) TagFlagName).

(** The flag names the constructors register for a struct of type [t]:
    those of its constructible fields, in order. *)
Definition declared_flags (t : StructType) : list string :=
  omap (fun f => if constructible f then Some (flagNameOf f) else None) t.

(** The flags of [t] can be registered on the flag set [fs]: their names
    are pairwise different, accepted by [flag.Var], and not defined yet. *)
Definition flags_registrable (t : StructType) (fs : FlagSet) : bool :=
  bool_decide (NoDup (declared_flags t))
  && forallb (fun name => flag_name_ok name
                          && negb (bool_decide (is_Some (formal fs !! name))))
             (declared_flags t).

Definition isBasic (ty : GoType) : bool :=
  match ty with TNamed _ => false | _ => true end.

(** Every constructible field of [t] has one of the five types itself (and
    not a type of another package whose name only reads like one). *)
Definition fields_typed (t : StructType) : bool :=
  forallb (fun f => negb (constructible f) || isBasic (Type_ f)) t.

(** The file ".env" is absent or can be read. *)
Definition dotenv_ok (d : DotEnv) : bool :=
  match d with Unreadable _ => false | _ => true end.

(** The string [v] does not parse as the type of the container [c]: for a
    bool by [strconv.ParseBool], for an int by [strconv.Atoi], for a float64
    by [strconv.ParseFloat].  (The string and timestamp accessors test no
    parse.) *)
Definition parse_fails (c : any) (v : string) : Prop :=
  match c with
  | any_Bool _ => snd (strconv_ParseBool v) <> None
  | any_Int _ => snd (strconv_Atoi v) <> None
  | any_Float64 _ => snd (strconv_ParseFloat v) <> None
  | _ => False
  end.

(** The value the environment accessors of the container [c] read from the
    non-empty string [v], when they report one: the result of
    [strconv.ParseBool], [strconv.Atoi] or [strconv.ParseFloat] when it
    succeeds, the string itself, or for a timestamp [parseTime] of a string
    some layout accepts. *)
Definition reads (c : any) (v : string) (x : Value) : Prop :=
  match c with
  | any_nil => False
  | any_Bool _ => exists b, strconv_ParseBool v = (b, None) /\ x = VBool b
  | any_Int _ => exists n, strconv_Atoi v = (n, None) /\ x = VInt n
  | any_Float64 _ => exists r, strconv_ParseFloat v = (r, None) /\ x = VFloat64 r
  | any_String _ => x = VString v
  | any_Time ct =>
      TimeContainer_isTime ct v = true /\ x = VTime (TimeContainer_parseTime ct v)
  end.

(** * Properties *)

(** ** The monad *)

Lemma bind_Ok {A B} (m : M A) (k : A -> M B) st b st' :
  bind m k st = Ok (b, st') ->
  exists a st1, m st = Ok (a, st1) /\ k a st1 = Ok (b, st').
Proof.
  unfold bind. destruct (m st) as [[a st1]| |]; [|discriminate..].
  intros H. by exists a, st1.
Qed.

Lemma ret_Ok {A} (a b : A) st st' : ret a st = Ok (b, st') -> b = a /\ st' = st.
Proof. unfold ret. by intros [= <- <-]. Qed.

Lemma gets_Ok {A} (f : State -> A) b st st' :
  gets f st = Ok (b, st') -> b = f st /\ st' = st.
Proof. unfold gets. by intros [= <- <-]. Qed.

(** ** Frame properties of the steps *)

Lemma reflect_Set_Ok (c : baseContainer) kind v st st' :
  reflect_Set c kind v st = Ok (tt, st') ->
  Type_ (field c) = kind /\
  st' = with_object (<[fieldValue c := v]> (object st)) st.
Proof.
  unfold reflect_Set. case_bool_decide; [|discriminate].
  unfold modify. by intros [= <-].
Qed.

Lemma flag_Var_Ok cell name p st st' :
  flag_Var cell name st = Ok (p, st') ->
  p = name /\ formal (CommandLine st) !! name = None /\
  st' = with_CommandLine (FlagSet_store name cell (CommandLine st)) st.
Proof.
  unfold flag_Var, FlagSet_Var.
  destruct (strings_HasPrefix name "-"); [discriminate|].
  destruct (strings_ContainsByte name "="); [discriminate|].
  destruct (formal (CommandLine st) !! name) eqn:E; [discriminate|].
  by intros [= <- <-].
Qed.

(** ** What the constructors do *)

Lemma Type_Field_Ok t index f st st' :
  Type_Field t index st = Ok (f, st') -> t !! index = Some f /\ st' = st.
Proof.
  unfold Type_Field. destruct (t !! index); [|discriminate].
  by intros [-> ->]%ret_Ok.
Qed.

Lemma newBaseContainer_Ok t index envFile st b err st' :
  newBaseContainer t index envFile st = Ok ((b, err), st') ->
  st' = st /\
  exists f, t !! index = Some f /\
    ((err = Some ErrCantSet /\ exported f = false)
     \/ (err = Some ErrNoFlagName /\ exported f = true
         /\ snd (Tag_Lookup (Tag f) TagFlagName) = false)
     \/ (err = None /\ exported f = true
         /\ snd (Tag_Lookup (Tag f) TagFlagName) = true
         /\ b = baseOf f index envFile)).
Proof.
  unfold newBaseContainer. intros H.
  apply bind_Ok in H as (f & st1 & [Hf ->]%Type_Field_Ok & H).
  destruct (exported f) eqn:Hexp; simpl in H.
  - destruct (Tag_Lookup (Tag f) TagFlagName) as [name hasFlag] eqn:Htag.
    destruct hasFlag; simpl in H; apply ret_Ok in H as [? ->]; simplify_eq;
      (split; [done|]); exists f; (split; [done|]).
    + right; right. unfold baseOf. rewrite Htag. by repeat split.
    + right; left. rewrite Htag. by repeat split.
  - apply ret_Ok in H as [? ->]; simplify_eq. split; [done|]. exists f. split; [done|].
    by left.
Qed.

Ltac NewX_Ok H st :=
  let Hb := fresh "Hb" in
  apply bind_Ok in H as ([b e] & st1 & Hb & H);
  apply newBaseContainer_Ok in Hb as (-> & f & Hf & Hb);
  exists f; split; [exact Hf|];
  destruct Hb as [[-> Hx]|[(-> & Hx & Ht)|(-> & Hx & Ht & ->)]];
  [ apply ret_Ok in H as [? ->]; simplify_eq; left; naive_solver
  | apply ret_Ok in H as [? ->]; simplify_eq; left; naive_solver
  | right;
    apply bind_Ok in H as (isParsed & st2 & [-> ->]%gets_Ok & H);
    apply bind_Ok in H as (result & st3 & Hreg & H);
    apply bind_Ok in H as ([] & st4 & [Hk ->]%reflect_Set_Ok & H);
    apply ret_Ok in H as [? ->]; simplify_eq;
    unfold built, after_New;
    destruct (flag_Parsed st) eqn:Hp; simpl in Hreg;
    [ apply ret_Ok in Hreg as [-> ->]
    | apply bind_Ok in Hreg as (p & st5 & (-> & Hfree & ->)%flag_Var_Ok & Hreg);
      apply ret_Ok in Hreg as [-> ->] ];
    simpl in *; rewrite ?Hp; repeat split; auto; try discriminate ].

Lemma NewBool_Ok t index envFile st c err st' :
  NewBool t index envFile st = Ok ((c, err), st') ->
  exists f, t !! index = Some f /\ New_outcome f index envFile c err st st'.
Proof. unfold NewBool. intros H. NewX_Ok H st. Qed.

Lemma NewInt_Ok t index envFile st c err st' :
  NewInt t index envFile st = Ok ((c, err), st') ->
  exists f, t !! index = Some f /\ New_outcome f index envFile c err st st'.
Proof. unfold NewInt. intros H. NewX_Ok H st. Qed.

Lemma NewFloat64_Ok t index envFile st c err st' :
  NewFloat64 t index envFile st = Ok ((c, err), st') ->
  exists f, t !! index = Some f /\ New_outcome f index envFile c err st st'.
Proof. unfold NewFloat64. intros H. NewX_Ok H st. Qed.

Lemma NewString_Ok t index envFile st c err st' :
  NewString t index envFile st = Ok ((c, err), st') ->
  exists f, t !! index = Some f /\ New_outcome f index envFile c err st st'.
Proof. unfold NewString. intros H. NewX_Ok H st. Qed.

Lemma NewTime_Ok t index envFile st c err st' :
  NewTime t index envFile st = Ok ((c, err), st') ->
  exists f, t !! index = Some f /\ New_outcome f index envFile c err st st'.
Proof. unfold NewTime. intros H. NewX_Ok H st. Qed.

Lemma New_Ok t index envFile st c err st' :
  New t index envFile st = Ok ((c, err), st') ->
  exists f, t !! index = Some f /\
    ((supported (Type_ f) = false /\ c = any_nil /\ st' = st
      /\ err = Some (unsupportedError f))
     \/ (supported (Type_ f) = true /\ New_outcome f index envFile c err st st')).
Proof.
  unfold New. intros H.
  apply bind_Ok in H as (f & st1 & [Hf ->]%Type_Field_Ok & H).
  exists f. split; [done|]. unfold supported, unsupportedError.
  destruct (String.eqb_spec (strings_ToLower (Type_String (Type_ f))) "bool") as [E|N1].
  { right. rewrite E. split; [done|].
    apply NewBool_Ok in H as (f' & ? & H). by simplify_eq. }
  destruct (String.eqb_spec (strings_ToLower (Type_String (Type_ f))) "int") as [E|N2].
  { right. rewrite E. split; [done|].
    apply NewInt_Ok in H as (f' & ? & H). by simplify_eq. }
  destruct (String.eqb_spec (strings_ToLower (Type_String (Type_ f))) "float64") as [E|N3].
  { right. rewrite E. split; [done|].
    apply NewFloat64_Ok in H as (f' & ? & H). by simplify_eq. }
  destruct (String.eqb_spec (strings_ToLower (Type_String (Type_ f))) "string") as [E|N4].
  { right. rewrite E. split; [done|].
    apply NewString_Ok in H as (f' & ? & H). by simplify_eq. }
  destruct (String.eqb_spec (strings_ToLower (Type_String (Type_ f))) "time.time") as [E|N5].
  { right. rewrite E. split; [done|].
    apply NewTime_Ok in H as (f' & ? & H). by simplify_eq. }
  left. apply ret_Ok in H as [? ->]. simplify_eq.
  repeat split; try done.
  apply bool_decide_eq_false. rewrite !elem_of_cons, elem_of_nil. tauto.
Qed.

(** ** The accessors read the environment and the flag set only *)

Lemma any_GetEnvValue_ext c st1 st2 :
  environ st1 = environ st2 -> any_GetEnvValue c st1 = any_GetEnvValue c st2.
Proof.
  intros E. destruct c; simpl; try done;
    unfold BoolContainer_GetEnvValue, IntContainer_GetEnvValue,
      Float64Container_GetEnvValue, StringContainer_GetEnvValue,
      TimeContainer_GetEnvValue, os_Getenv; by rewrite E.
Qed.

Lemma any_GetFlagValue_ext c st1 st2 :
  CommandLine st1 = CommandLine st2 -> any_GetFlagValue c st1 = any_GetFlagValue c st2.
Proof.
  intros E. destruct c; simpl; try done;
    unfold BoolContainer_GetFlagValue, IntContainer_GetFlagValue,
      Float64Container_GetFlagValue, StringContainer_GetFlagValue,
      TimeContainer_GetFlagValue, load_bool, load_int, load_float64, load_string;
    by rewrite E.
Qed.

Lemma resolved_ext c st1 st2 :
  environ st1 = environ st2 -> CommandLine st1 = CommandLine st2 ->
  resolved c st1 = resolved c st2.
Proof.
  intros E1 E2. unfold resolved.
  by rewrite (any_GetEnvValue_ext c st1 st2 E1), (any_GetFlagValue_ext c st1 st2 E2).
Qed.

(** A container whose [flagValue] is [nil] never reports a flag value. *)
Lemma any_GetFlagValue_nil c st :
  any_flagValue c = None -> snd (any_GetFlagValue c st) = false.
Proof.
  destruct c; simpl; try done; intros E;
    unfold BoolContainer_GetFlagValue, IntContainer_GetFlagValue,
      Float64Container_GetFlagValue, StringContainer_GetFlagValue,
      TimeContainer_GetFlagValue; by rewrite E.
Qed.

(** ** The second loop *)

Lemma writes_length c st o : length (writes c st o) = length o.
Proof.
  unfold writes.
  repeat (match goal with |- context [if ?b then _ else _] => destruct b end);
    by rewrite ?length_insert.
Qed.

Lemma writes_other c st o i :
  i <> fieldValue (any_base c) -> writes c st o !! i = o !! i.
Proof.
  intros Hi. unfold writes.
  repeat (match goal with |- context [if ?b then _ else _] => destruct b end);
    by rewrite ?list_lookup_insert_ne.
Qed.

Lemma writes_same c st o v :
  o !! fieldValue (any_base c) = Some v ->
  writes c st o !! fieldValue (any_base c)
  = Some (byPrecedence (any_GetFlagValue c st) (any_GetEnvFileValue c)
                       (any_GetEnvValue c st) v).
Proof.
  intros Hv. pose proof (lookup_lt_Some _ _ _ Hv) as Hlt.
  unfold writes, byPrecedence.
  destruct (snd (any_GetFlagValue c st)), (snd (any_GetEnvFileValue c)),
    (snd (any_GetEnvValue c st));
    rewrite ?list_lookup_insert_eq; rewrite ?length_insert; auto.
Qed.

Lemma writes_nil st o : writes any_nil st o = o.
Proof. done. Qed.

Lemma with_object_twice o1 o2 st :
  with_object o2 (with_object o1 st) = with_object o2 st.
Proof. done. Qed.

(** [applyValueWithPrecedence], for any implementation of the interface
    whose [SetConfigValue] stores into the field [fieldValue b]. *)
Lemma applyValueWithPrecedence_Ok {C T : Type} `{Container C T}
    (c : C) (b : baseContainer) (kind : GoType) (inj : T -> Value) st st' :
  (forall v, SetConfigValue c v = reflect_Set b kind (inj v)) ->
  (forall o, GetFlagValue c (with_object o st) = GetFlagValue c st) ->
  applyValueWithPrecedence c st = Ok (tt, st') ->
  st' = with_object
          (let i := fieldValue b in
           let o1 := if snd (GetEnvValue c st)
                     then <[i := inj (fst (GetEnvValue c st))]> (object st)
                     else object st in
           let o2 := if snd (GetEnvFileValue c)
                     then <[i := inj (fst (GetEnvFileValue c))]> o1 else o1 in
           if snd (GetFlagValue c st)
           then <[i := inj (fst (GetFlagValue c st))]> o2 else o2) st.
Proof.
  intros HSet HFlag Hrun. unfold applyValueWithPrecedence in Hrun.
  apply bind_Ok in Hrun as (r1 & s1 & [-> ->]%gets_Ok & Hrun).
  apply bind_Ok in Hrun as ([] & s2 & H1 & Hrun).
  apply bind_Ok in Hrun as ([] & s3 & H2 & Hrun).
  apply bind_Ok in Hrun as (r3 & s4 & [-> ->]%gets_Ok & Hrun).
  assert (exists o2, s3 = with_object o2 st /\
    o2 = (let i := fieldValue b in
          let o1 := if snd (GetEnvValue c st)
                    then <[i := inj (fst (GetEnvValue c st))]> (object st)
                    else object st in
          if snd (GetEnvFileValue c)
          then <[i := inj (fst (GetEnvFileValue c))]> o1 else o1)) as (o2 & -> & Ho2).
  { destruct (GetEnvValue c st) as [v1 [|]]; simpl in *;
      [ rewrite HSet in H1; apply reflect_Set_Ok in H1 as [_ ->]
      | apply ret_Ok in H1 as [_ ->] ];
      (destruct (GetEnvFileValue c) as [v2 [|]]; simpl in *;
       [ rewrite HSet in H2; apply reflect_Set_Ok in H2 as [_ ->]
       | apply ret_Ok in H2 as [_ ->] ]);
      eexists; (split; [|reflexivity]); destruct st; reflexivity. }
  rewrite HFlag in Hrun. subst o2.
  destruct (GetFlagValue c st) as [v3 [|]]; simpl in Hrun |- *.
  - rewrite HSet in Hrun. by apply reflect_Set_Ok in Hrun as [_ ->].
  - by apply ret_Ok in Hrun as [_ ->].
Qed.

Lemma Behold_switch_Ok c st st' :
  Behold_switch c st = Ok (tt, st') ->
  st' = with_object (writes c st (object st)) st.
Proof.
  destruct c as [|c|c|c|c|c]; simpl.
  { intros [_ ->]%ret_Ok. by destruct st. }
  - intros H. by apply (applyValueWithPrecedence_Ok c c TBool VBool) in H.
  - intros H. by apply (applyValueWithPrecedence_Ok c c TInt VInt) in H.
  - intros H. by apply (applyValueWithPrecedence_Ok c c TFloat64 VFloat64) in H.
  - intros H. by apply (applyValueWithPrecedence_Ok c c TString VString) in H.
  - intros H. by apply (applyValueWithPrecedence_Ok c c TTime VTime) in H.
Qed.

Lemma writes_ext c st1 st2 o :
  environ st1 = environ st2 -> CommandLine st1 = CommandLine st2 ->
  writes c st1 o = writes c st2 o.
Proof.
  intros E1 E2. unfold writes.
  by rewrite (any_GetEnvValue_ext c st1 st2 E1), (any_GetFlagValue_ext c st1 st2 E2).
Qed.

Lemma apply_all_ext cs st1 st2 o :
  environ st1 = environ st2 -> CommandLine st1 = CommandLine st2 ->
  apply_all cs st1 o = apply_all cs st2 o.
Proof.
  intros E1 E2. revert o. induction cs as [|c cs IH]; intros o; simpl; [done|].
  by rewrite IH, (writes_ext c st1 st2 o E1 E2).
Qed.

Lemma Behold_apply_Ok cs st st' :
  Behold_apply cs st = Ok (tt, st') ->
  st' = with_object (apply_all cs st (object st)) st.
Proof.
  revert st. induction cs as [|c cs IH]; intros st; simpl.
  - intros [_ ->]%ret_Ok. by destruct st.
  - intros H. apply bind_Ok in H as ([] & s1 & ->%Behold_switch_Ok & H).
    apply IH in H as ->. rewrite with_object_twice. f_equal.
    by apply apply_all_ext.
Qed.

Lemma apply_all_length cs st o : length (apply_all cs st o) = length o.
Proof.
  revert o. induction cs as [|c cs IH]; intros o; simpl; [done|].
  by rewrite IH, writes_length.
Qed.

Lemma any_nil_dec (c : any) : {c = any_nil} + {c <> any_nil}.
Proof. destruct c; (by left) || (by right). Qed.

Lemma placed_tail k c cs : placed k (c :: cs) -> placed (S k) cs.
Proof.
  intros Hp j c' Hj Hn. specialize (Hp (S j) c' Hj Hn). lia.
Qed.

Lemma apply_all_other cs st o i :
  (forall c, c ∈ cs -> c <> any_nil -> fieldValue (any_base c) <> i) ->
  apply_all cs st o !! i = o !! i.
Proof.
  revert o. induction cs as [|c cs IH]; intros o Hne; simpl; [done|].
  rewrite IH by (intros c' Hc'; apply Hne; by right).
  destruct c; try (apply writes_other; intros E; eapply Hne; [by left|done|done]).
  done.
Qed.

Lemma apply_all_at k cs st o j c v :
  placed k cs -> cs !! j = Some c -> c <> any_nil ->
  o !! (k + j)%nat = Some v ->
  apply_all cs st o !! (k + j)%nat
  = Some (byPrecedence (any_GetFlagValue c st) (any_GetEnvFileValue c)
                       (any_GetEnvValue c st) v).
Proof.
  revert k o j. induction cs as [|c0 cs IH]; intros k o j Hp Hj Hn Hv; [done|].
  destruct j as [|j]; simpl in Hj |- *.
  - injection Hj as ->.
    pose proof (Hp 0%nat c eq_refl Hn) as Hi. rewrite Nat.add_0_r in *.
    rewrite apply_all_other.
    + rewrite <- Hi. apply writes_same. by rewrite Hi.
    + intros c' [j' Hj']%list_elem_of_lookup Hn'.
      pose proof (Hp (S j') c' Hj' Hn'). lia.
  - replace (k + S j)%nat with (S k + j)%nat by lia.
    apply IH; [by eapply placed_tail|done|done|].
    replace (S k + j)%nat with (k + S j)%nat by lia.
    destruct (any_nil_dec c0) as [->|Hn0]; [done|].
    rewrite writes_other; [done|].
    pose proof (Hp 0%nat c0 eq_refl Hn0). lia.
Qed.

(** ** The first loop *)

Lemma New_step t index envFile st c err st' :
  New t index envFile st = Ok ((c, err), st') ->
  container_of t envFile (flag_Parsed st) index c
  /\ st' = after_New c index st
  /\ (c <> any_nil -> flag_Parsed st = false ->
       formal (CommandLine st) !! flagName (any_base c) = None).
Proof.
  intros (f & Hf & H)%New_Ok. unfold container_of, constructible.
  destruct H as [(Hs & -> & -> & _)|(Hs & [(-> & -> & H)|(Hc & _ & Hx & Ht & Hb)])].
  - split; [|done]. exists f. by rewrite Hs.
  - split; [|done]. exists f. rewrite Hs. split; [done|].
    destruct H as [[_ ->]|(_ & -> & ->)]; simpl; done.
  - destruct Hb as (Hbase & Hk & Hfv & Hfree & ->).
    split; [|split; [by destruct c|done]].
    exists f. by rewrite Hs, Hx, Ht.
Qed.

Lemma Behold_setup_run t envFile indices st cs st' :
  Behold_setup t envFile indices st = Ok (cs, st') ->
  setup_run t envFile indices st cs st'.
Proof.
  revert st cs. induction indices as [|index rest IH]; intros st cs; simpl.
  - intros [-> ->]%ret_Ok. constructor.
  - intros H.
    apply bind_Ok in H as ([c err] & s1 & (Hc & -> & Hfree)%New_step & H).
    apply bind_Ok in H as (cs' & s2 & Hrest & H).
    apply ret_Ok in H as [-> ->]. simpl.
    econstructor; eauto.
Qed.

Lemma same_process_refl st : same_process st st.
Proof. by repeat split. Qed.

Lemma same_process_trans st1 st2 st3 :
  same_process st1 st2 -> same_process st2 st3 -> same_process st1 st3.
Proof.
  unfold same_process. intros (?&?&?&?&?&?) (?&?&?&?&?&?).
  repeat split; congruence.
Qed.

Lemma after_New_same_process c index st : same_process st (after_New c index st).
Proof.
  unfold after_New, same_process, flag_Parsed.
  destruct c; try done; destruct (parsed (CommandLine st)) eqn:E; by repeat split.
Qed.

Lemma after_New_length c index st :
  length (object (after_New c index st)) = length (object st).
Proof.
  unfold after_New. destruct c; try done;
    destruct (flag_Parsed st); simpl; by rewrite length_insert.
Qed.

Lemma after_New_other c index st i :
  i <> index -> object (after_New c index st) !! i = object st !! i.
Proof.
  intros Hi. unfold after_New. destruct c; try done;
    destruct (flag_Parsed st); simpl; by rewrite list_lookup_insert_ne.
Qed.

Lemma after_New_parsed c index st :
  flag_Parsed st = true -> CommandLine (after_New c index st) = CommandLine st.
Proof.
  intros Hp. unfold after_New. rewrite Hp. by destruct c.
Qed.

Lemma setup_run_length t envFile indices st cs st' :
  setup_run t envFile indices st cs st' -> length cs = length indices.
Proof. induction 1; simpl; congruence. Qed.

Lemma setup_run_same_process t envFile indices st cs st' :
  setup_run t envFile indices st cs st' -> same_process st st'.
Proof.
  induction 1; [apply same_process_refl|].
  eapply same_process_trans; [apply after_New_same_process|done].
Qed.

Lemma setup_run_parsed t envFile indices st cs st' :
  setup_run t envFile indices st cs st' ->
  flag_Parsed st = true -> CommandLine st' = CommandLine st.
Proof.
  induction 1 as [|index rest st c cs st' Hc Hfree Hrun IH]; [done|].
  intros Hp. rewrite IH.
  - by apply after_New_parsed.
  - unfold flag_Parsed. destruct (after_New_same_process c index st) as (_&_&_&->&_).
    done.
Qed.

Lemma setup_run_object_length t envFile indices st cs st' :
  setup_run t envFile indices st cs st' -> length (object st') = length (object st).
Proof. induction 1; [done|]. by rewrite IHsetup_run, after_New_length. Qed.

Lemma setup_run_containers t envFile indices st cs st' :
  setup_run t envFile indices st cs st' ->
  forall j index c, indices !! j = Some index -> cs !! j = Some c ->
    container_of t envFile (flag_Parsed st) index c.
Proof.
  induction 1 as [|index rest st c cs st' Hc Hfree Hrun IH]; [done|].
  intros [|j] index' c'; simpl.
  - by intros [= <-] [= <-].
  - intros Hi Hj. specialize (IH j index' c' Hi Hj).
    unfold flag_Parsed in *.
    destruct (after_New_same_process c index st) as (_&_&_&E&_).
    by rewrite E in IH.
Qed.

Lemma after_New_formal c index st name v :
  (c <> any_nil -> flag_Parsed st = false ->
     formal (CommandLine st) !! flagName (any_base c) = None) ->
  formal (CommandLine st) !! name = Some v ->
  formal (CommandLine (after_New c index st)) !! name = Some v.
Proof.
  intros Hfree Hv. unfold after_New.
  destruct (any_nil_dec c) as [->|Hn]; [done|].
  destruct (flag_Parsed st) eqn:Hp.
  - by destruct c.
  - specialize (Hfree Hn eq_refl).
    assert (name <> flagName (any_base c)) by congruence.
    destruct c; try done; simpl; by rewrite lookup_insert_ne.
Qed.

Lemma after_New_registered c index st :
  c <> any_nil -> flag_Parsed st = false ->
  formal (CommandLine (after_New c index st)) !! flagName (any_base c)
  = Some (any_cell c).
Proof.
  intros Hn Hp. unfold after_New. rewrite Hp.
  destruct c; try done; simpl; by rewrite lookup_insert_eq.
Qed.

Lemma after_New_default c index st :
  c <> any_nil -> (index < length (object st))%nat ->
  object (after_New c index st) !! index = Some (any_GetDefaultValue c).
Proof.
  intros Hn Hlt. unfold after_New.
  destruct c; try done; destruct (flag_Parsed st); simpl;
    by rewrite list_lookup_insert_eq.
Qed.

(** Cells registered before the loop, or by it, are kept by the rest of it. *)
Lemma setup_run_formal t envFile indices st cs st' :
  setup_run t envFile indices st cs st' ->
  forall name v, formal (CommandLine st) !! name = Some v ->
    formal (CommandLine st') !! name = Some v.
Proof.
  induction 1 as [|index rest st c cs st' Hc Hfree Hrun IH]; [done|].
  intros name v Hv. apply IH. by apply after_New_formal.
Qed.

(** While flags are not parsed, every container built has its cell
    registered under its flag name, holding what the constructor gave. *)
Lemma setup_run_registered t envFile indices st cs st' :
  setup_run t envFile indices st cs st' ->
  flag_Parsed st = false ->
  forall j c, cs !! j = Some c -> c <> any_nil ->
    formal (CommandLine st') !! flagName (any_base c) = Some (any_cell c).
Proof.
  induction 1 as [|index rest st c cs st' Hc Hfree Hrun IH]; [done|].
  intros Hp [|j] c'; simpl.
  - intros [= <-] Hn. eapply setup_run_formal; [done|].
    by apply after_New_registered.
  - apply IH. unfold flag_Parsed in *.
    destruct (after_New_same_process c index st) as (_&_&_&->&_). done.
Qed.

(** Fields outside the loop's indices are not written. *)
Lemma setup_run_outside t envFile indices st cs st' :
  setup_run t envFile indices st cs st' ->
  forall i, i ∉ indices -> object st' !! i = object st !! i.
Proof.
  induction 1 as [|index rest st c cs st' Hc Hfree Hrun IH]; [done|].
  intros i Hi. rewrite IH by (intros ?; apply Hi; by right).
  apply after_New_other. intros ->. apply Hi. by left.
Qed.

(** A field [New] builds no container for is not written. *)
Lemma setup_run_untouched t envFile indices st cs st' :
  setup_run t envFile indices st cs st' ->
  forall i f, t !! i = Some f -> constructible f = false ->
    object st' !! i = object st !! i.
Proof.
  induction 1 as [|index rest st c cs st' Hc Hfree Hrun IH]; [done|].
  intros i f Hf Hnc. rewrite (IH i f Hf Hnc).
  destruct (decide (i = index)) as [->|Hne]; [|by apply after_New_other].
  destruct Hc as (f' & Hf' & Hc). simplify_eq. rewrite Hnc in Hc. by subst c.
Qed.

(** A field a container was built for holds the container's default. *)
Lemma setup_run_default t envFile indices st cs st' :
  setup_run t envFile indices st cs st' ->
  NoDup indices ->
  forall j index c, indices !! j = Some index -> cs !! j = Some c -> c <> any_nil ->
    (index < length (object st))%nat ->
    object st' !! index = Some (any_GetDefaultValue c).
Proof.
  induction 1 as [|index rest st c cs st' Hc Hfree Hrun IH]; [done|].
  intros [Hnotin Hnd]%NoDup_cons [|j] index' c'; simpl.
  - intros [= <-] [= <-] Hn Hlt.
    rewrite (setup_run_outside _ _ _ _ _ _ Hrun index Hnotin).
    by apply after_New_default.
  - intros Hi Hj Hn Hlt. eapply IH; eauto. by rewrite after_New_length.
Qed.

(** ** Parsing the flags *)

Lemma append_cons (x : ascii) (a b : string) : String x a ++ b = String x (a ++ b).
Proof. reflexivity. Qed.

Lemma append_nil (b : string) : "" ++ b = b.
Proof. reflexivity. Qed.

Lemma append_assoc (a b c : string) : (a ++ b) ++ c = a ++ (b ++ c).
Proof.
  induction a as [|x a IH]; [done|]. rewrite !append_cons. by f_equal.
Qed.

Lemma prefix_app (p x : string) : String.prefix p (p ++ x) = true.
Proof.
  induction p as [|a p IH]; [by destruct x|].
  rewrite append_cons. simpl. destruct (ascii_dec a a); [done|congruence].
Qed.

Lemma cutEquals_spec (r : string) :
  match cutEquals r with
  | (n, None) => r = n
  | (n, Some v) => r = n ++ "=" ++ v
  end.
Proof.
  induction r as [|c r IH]; simpl; [done|].
  destruct (Ascii.eqb_spec c "=") as [->|Hc]; [done|].
  destruct (cutEquals r) as [n [v|]]; simpl; by rewrite IH.
Qed.

Lemma mentions_shapes name arg :
  arg = "-" ++ name \/ arg = "--" ++ name
  \/ (exists v, arg = ("-" ++ name ++ "=") ++ v)
  \/ (exists v, arg = ("--" ++ name ++ "=") ++ v) ->
  mentions name arg = true.
Proof.
  unfold mentions. intros [->|[->|[[v ->]|[v ->]]]].
  - by rewrite bool_decide_eq_true_2.
  - rewrite (bool_decide_eq_true_2 ("--" ++ name = "--" ++ name)) by done.
    by rewrite orb_true_r.
  - rewrite prefix_app. by rewrite !orb_true_r.
  - rewrite (prefix_app ("--" ++ name ++ "=")). by rewrite orb_true_r.
Qed.

(** An argument read as the flag [name] names it. *)
Lemma parseOne_syntax_mentions s name value :
  parseOne_syntax s = arg_flag name value -> mentions name s = true.
Proof.
  intros Hs. apply mentions_shapes.
  destruct s as [|a [|c r]]; try discriminate. simpl in Hs.
  destruct (Ascii.eqb_spec a "-") as [->|]; [simpl in Hs|discriminate].
  assert (forall body : string,
    match body with
    | EmptyString => arg_bad
    | String c0 r0 =>
        if Ascii.eqb c0 "-" || Ascii.eqb c0 "=" then arg_bad
        else let '(n, value) := cutEquals r0 in arg_flag (String c0 n) value
    end = arg_flag name value ->
    body = name \/ exists v, body = name ++ "=" ++ v) as Hbody.
  { intros [|c0 r0]; [discriminate|].
    destruct (Ascii.eqb c0 "-" || Ascii.eqb c0 "="); [discriminate|].
    pose proof (cutEquals_spec r0) as Hr.
    destruct (cutEquals r0) as [n [v|]]; intros [= <- <-]; subst r0; eauto. }
  destruct (Ascii.eqb_spec c "-") as [->|Hc]; simpl in Hs.
  - destruct (String.eqb r ""); [discriminate|].
    apply Hbody in Hs as [->|[v ->]].
    + right; left. done.
    + right; right; right. exists v.
      rewrite !append_assoc, !append_cons, append_nil. done.
  - apply (Hbody (String c r)) in Hs as [E|[v E]].
    + left. by rewrite E.
    + right; right; left. exists v. rewrite E.
      rewrite !append_assoc, !append_cons, append_nil. done.
Qed.

(** One step of the parse leaves alone the cell of a flag that the
    argument does not name, and the mode of the flag set. *)
Lemma parseOne_keeps f s next :
  match FlagSet_parseOne f s next with
  | parseOne_seen f' _ =>
      parsed f' = parsed f /\ errorHandling f' = errorHandling f /\
      forall name, mentions name s = false -> formal f' !! name = formal f !! name
  | parseOne_failed f' _ _ =>
      parsed f' = parsed f /\ errorHandling f' = errorHandling f /\
      forall name, mentions name s = false -> formal f' !! name = formal f !! name
  | parseOne_stop => True
  end.
Proof.
  unfold FlagSet_parseOne.
  destruct (parseOne_syntax s) as [| |name value] eqn:Hs; [done|done|].
  apply parseOne_syntax_mentions in Hs.
  assert (forall cell' name', mentions name' s = false ->
            formal (FlagSet_store name cell' f) !! name' = formal f !! name') as Hst.
  { intros cell' name' Hm. simpl. apply lookup_insert_ne. congruence. }
  destruct (formal f !! name) as [cell|] eqn:Hcell.
  - destruct (IsBoolFlag cell).
    + destruct (Value_Set cell (default "true" value)) as [cell' [e|]];
        (repeat split; try done; apply Hst).
    + destruct value as [v|]; [|destruct next as [v|]]; simpl; try done;
        destruct (Value_Set cell v) as [cell' [e|]];
        (repeat split; try done; apply Hst).
  - destruct (String.eqb name "help" || String.eqb name "h"); by repeat split.
Qed.

Lemma unmentioned_cons name a args :
  unmentioned name (a :: args) = true ->
  mentions name a = false /\ unmentioned name args = true.
Proof.
  unfold unmentioned. simpl. destruct (mentions name a); simpl; [done|].
  by intros ->.
Qed.

Lemma parseLoop_keeps args :
  forall f f' e, FlagSet_parseLoop f args = (f', e) ->
    parsed f' = parsed f /\ errorHandling f' = errorHandling f /\
    forall name, unmentioned name args = true -> formal f' !! name = formal f !! name.
Proof.
  assert (forall args : list string,
    (forall f f' e, FlagSet_parseLoop f args = (f', e) ->
       parsed f' = parsed f /\ errorHandling f' = errorHandling f /\
       forall name, unmentioned name args = true ->
         formal f' !! name = formal f !! name) /\
    (forall a f f' e, FlagSet_parseLoop f (a :: args) = (f', e) ->
       parsed f' = parsed f /\ errorHandling f' = errorHandling f /\
       forall name, unmentioned name (a :: args) = true ->
         formal f' !! name = formal f !! name)) as H; [|intros; eapply H; eauto].
  clear args. intros args. induction args as [|x args [IH1 IH2]].
  - split; [by intros f f' e [= <- <-]|].
    intros a f f' e. simpl. pose proof (parseOne_keeps f a None) as Hone.
    destruct (FlagSet_parseOne f a None) as [f1 [|]| |f1 err help].
    + intros [= <- <-]. destruct Hone as (?&?&Hk). repeat split; try done.
      intros name [Hm _]%unmentioned_cons. auto.
    + intros [= <- <-]. destruct Hone as (?&?&Hk). repeat split; try done.
      intros name [Hm _]%unmentioned_cons. auto.
    + by intros [= <- <-].
    + intros [= <- <-]. destruct Hone as (?&?&Hk). repeat split; try done.
      intros name [Hm _]%unmentioned_cons. auto.
  - split; [exact (IH2 x)|].
    intros a f f' e. simpl. pose proof (parseOne_keeps f a (Some x)) as Hone.
    destruct (FlagSet_parseOne f a (Some x)) as [f1 [|]| |f1 err help].
    + intros (E1 & E2 & Hk)%IH1. destruct Hone as (?&?&Hk1).
      repeat split; try congruence.
      intros name [Hm [_ Hrest]%unmentioned_cons]%unmentioned_cons.
      rewrite Hk by done. auto.
    + intros (E1 & E2 & Hk)%IH2. destruct Hone as (?&?&Hk1).
      repeat split; try congruence.
      intros name [Hm Hrest]%unmentioned_cons.
      rewrite Hk by done. auto.
    + by intros [= <- <-].
    + intros [= <- <-]. destruct Hone as (?&?&Hk). repeat split; try done.
      intros name [Hm _]%unmentioned_cons. auto.
Qed.

Lemma flag_Parse_Ok st st' :
  flag_Parse st = Ok (tt, st') ->
  environ st' = environ st /\ os_Args st' = os_Args st /\ dotenv st' = dotenv st
  /\ object st' = object st
  /\ flag_Parsed st' = true
  /\ errorHandling (CommandLine st') = errorHandling (CommandLine st)
  /\ forall name, unmentioned name (tail (os_Args st)) = true ->
       formal (CommandLine st') !! name = formal (CommandLine st) !! name.
Proof.
  unfold flag_Parse, FlagSet_Parse.
  destruct (FlagSet_parseLoop (FlagSet_setParsed (CommandLine st)) (tail (os_Args st)))
    as [f' e] eqn:Hloop.
  apply parseLoop_keeps in Hloop as (Hp & He & Hk). simpl in Hp, He.
  intros H.
  destruct e as [[err help]|]; [destruct (errorHandling (CommandLine st)) eqn:Eh|];
    simpl in H; try discriminate; injection H as <-; by repeat split.
Qed.

Lemma Behold_parse_Ok st st' :
  Behold_parse st = Ok (tt, st') ->
  environ st' = environ st /\ os_Args st' = os_Args st /\ dotenv st' = dotenv st
  /\ object st' = object st
  /\ flag_Parsed st' = flag_Parsed st || (1 <? Z.of_nat (length (os_Args st)))
  /\ errorHandling (CommandLine st') = errorHandling (CommandLine st)
  /\ (flag_Parsed st = true -> CommandLine st' = CommandLine st)
  /\ forall name, unmentioned name (tail (os_Args st)) = true ->
       formal (CommandLine st') !! name = formal (CommandLine st) !! name.
Proof.
  unfold Behold_parse. intros H.
  apply bind_Ok in H as (args & s1 & [-> ->]%gets_Ok & H).
  apply bind_Ok in H as (isParsed & s2 & [-> ->]%gets_Ok & H).
  destruct (1 <? Z.of_nat (length (os_Args st))) eqn:Hargs;
    destruct (flag_Parsed st) eqn:Hp; simpl in H.
  2: { apply flag_Parse_Ok in H as (?&?&?&?&?&?&?). by repeat split. }
  all: apply ret_Ok in H as [_ ->]; by repeat split.
Qed.

Lemma Behold_envFile_Ok st m st' :
  Behold_envFile st = Ok (m, st') -> m = loaded (dotenv st) /\ st' = st.
Proof.
  unfold Behold_envFile. intros H.
  apply bind_Ok in H as (d & s1 & [-> ->]%gets_Ok & H).
  destruct (dotenv st); simpl in H; try discriminate; by apply ret_Ok in H as [-> ->].
Qed.

(** [Behold] is its first loop and the parse, then its second loop. *)
Lemma Behold_Ok t st st' :
  Behold t st = Ok (tt, st') ->
  exists cs st1, Behold_containers t st = Ok (cs, st1)
                 /\ Behold_apply cs st1 = Ok (tt, st').
Proof.
  unfold Behold, Behold_containers. intros H.
  apply bind_Ok in H as (m & s1 & H1 & H).
  apply bind_Ok in H as (cs & s2 & H2 & H).
  apply bind_Ok in H as ([] & s3 & H3 & H).
  exists cs, s3. split; [|done].
  unfold bind. by rewrite H1, H2, H3.
Qed.

Lemma Behold_containers_Ok t st cs st1 :
  Behold_containers t st = Ok (cs, st1) ->
  exists s2, setup_run t (loaded (dotenv st)) (seq 0 (NumField t)) st cs s2
             /\ Behold_parse s2 = Ok (tt, st1).
Proof.
  unfold Behold_containers. intros H.
  apply bind_Ok in H as (m & s1 & [-> ->]%Behold_envFile_Ok & H).
  apply bind_Ok in H as (cs' & s2 & H2%Behold_setup_run & H).
  apply bind_Ok in H as ([] & s3 & H3 & H).
  apply ret_Ok in H as [-> ->]. eauto.
Qed.

(** ** The containers of a pass *)

Lemma seq_lookup_Some (n j index : nat) :
  seq 0 n !! j = Some index -> index = j /\ (j < n)%nat.
Proof.
  intros H. pose proof (lookup_lt_Some _ _ _ H) as Hlt. rewrite length_seq in Hlt.
  rewrite lookup_seq_lt in H by done. simpl in H. by simplify_eq.
Qed.

Lemma containers_length t st cs st1 :
  Behold_containers t st = Ok (cs, st1) -> length cs = NumField t.
Proof.
  intros (s2 & Hrun & _)%Behold_containers_Ok.
  apply setup_run_length in Hrun. by rewrite length_seq in Hrun.
Qed.

(** The container at position [index] is the one of the field [index]. *)
Lemma containers_of t st cs st1 index c :
  Behold_containers t st = Ok (cs, st1) -> cs !! index = Some c ->
  container_of t (loaded (dotenv st)) (flag_Parsed st) index c.
Proof.
  intros (s2 & Hrun & _)%Behold_containers_Ok Hc.
  eapply setup_run_containers; [done| |done].
  apply lookup_seq_lt. apply lookup_lt_Some in Hc.
  apply setup_run_length in Hrun. rewrite length_seq in Hrun. lia.
Qed.

Lemma container_of_fieldValue t envFile isParsed index c :
  container_of t envFile isParsed index c -> c <> any_nil ->
  fieldValue (any_base c) = index.
Proof.
  intros (f & Hf & H) Hn. destruct (constructible f); [|done].
  destruct H as (_ & -> & _). done.
Qed.

Lemma containers_placed t st cs st1 :
  Behold_containers t st = Ok (cs, st1) -> placed 0 cs.
Proof.
  intros H j c Hj Hn. simpl.
  eapply container_of_fieldValue; [|done]. by eapply containers_of.
Qed.

(** A field that is constructible has a container, and only such a field. *)
Lemma containers_constructible t st cs st1 index f :
  Behold_containers t st = Ok (cs, st1) -> t !! index = Some f ->
  exists c, cs !! index = Some c /\
    (if constructible f then c <> any_nil else c = any_nil).
Proof.
  intros H Hf.
  destruct (cs !! index) as [c|] eqn:Hc.
  - exists c. split; [done|].
    destruct (containers_of _ _ _ _ _ _ H Hc) as (f' & Hf' & Hc').
    assert (f' = f) as -> by congruence.
    destruct (constructible f); [by destruct Hc'|done].
  - apply lookup_ge_None in Hc. apply lookup_lt_Some in Hf.
    rewrite (containers_length _ _ _ _ H) in Hc. unfold NumField in Hc. lia.
Qed.

Lemma containers_same_process t st cs st1 :
  Behold_containers t st = Ok (cs, st1) ->
  environ st1 = environ st /\ os_Args st1 = os_Args st /\ dotenv st1 = dotenv st
  /\ errorHandling (CommandLine st1) = errorHandling (CommandLine st)
  /\ flag_Parsed st1 = flag_Parsed st || (1 <? Z.of_nat (length (os_Args st)))
  /\ length (object st1) = length (object st).
Proof.
  intros (s2 & Hrun & Hparse)%Behold_containers_Ok.
  pose proof (setup_run_same_process _ _ _ _ _ _ Hrun) as (E1&E2&E3&E4&E5&E6).
  pose proof (setup_run_object_length _ _ _ _ _ _ Hrun) as E7.
  apply Behold_parse_Ok in Hparse as (P1&P2&P3&P4&P5&P6&P7&P8).
  unfold flag_Parsed in *. repeat split; congruence.
Qed.

(** After the first loop and the parse, a field with a container holds
    the container's default. *)
Lemma containers_default t st cs st1 index c :
  Behold_containers t st = Ok (cs, st1) -> cs !! index = Some c -> c <> any_nil ->
  (index < length (object st))%nat ->
  object st1 !! index = Some (any_GetDefaultValue c).
Proof.
  intros (s2 & Hrun & Hparse)%Behold_containers_Ok Hc Hn Hlt.
  apply Behold_parse_Ok in Hparse as (_&_&_&->&_).
  eapply setup_run_default; eauto using NoDup_seq.
  apply lookup_seq_lt. apply lookup_lt_Some in Hc.
  apply setup_run_length in Hrun. rewrite length_seq in Hrun. lia.
Qed.

(** A field without a container is as it was. *)
Lemma containers_untouched t st cs st1 index f :
  Behold_containers t st = Ok (cs, st1) -> t !! index = Some f ->
  constructible f = false -> object st1 !! index = object st !! index.
Proof.
  intros (s2 & Hrun & Hparse)%Behold_containers_Ok Hf Hnc.
  apply Behold_parse_Ok in Hparse as (_&_&_&->&_).
  by eapply setup_run_untouched.
Qed.

(** When flags were parsed before the pass, no container has a flag cell
    and the flag set is as it was. *)
Lemma containers_parsed t st cs st1 :
  Behold_containers t st = Ok (cs, st1) -> flag_Parsed st = true ->
  CommandLine st1 = CommandLine st.
Proof.
  intros (s2 & Hrun & Hparse)%Behold_containers_Ok Hp.
  pose proof (setup_run_same_process _ _ _ _ _ _ Hrun) as (_&_&_&E4&_).
  apply Behold_parse_Ok in Hparse as (_&_&_&_&_&_&P7&_).
  rewrite P7 by (unfold flag_Parsed in *; congruence).
  by eapply setup_run_parsed.
Qed.

(** The cell of a flag the command line does not name holds, after the
    parse, what the constructor registered. *)
Lemma containers_cell t st cs st1 index c :
  Behold_containers t st = Ok (cs, st1) -> cs !! index = Some c -> c <> any_nil ->
  flag_Parsed st = false ->
  unmentioned (flagName (any_base c)) (tail (os_Args st)) = true ->
  formal (CommandLine st1) !! flagName (any_base c) = Some (any_cell c).
Proof.
  intros (s2 & Hrun & Hparse)%Behold_containers_Ok Hc Hn Hp Hu.
  pose proof (setup_run_same_process _ _ _ _ _ _ Hrun) as (_&E2&_).
  apply Behold_parse_Ok in Hparse as (_&_&_&_&_&_&_&P8).
  rewrite P8 by (by rewrite E2).
  by eapply setup_run_registered.
Qed.

(** ** The resolution pass *)

(** After a pass that ended normally: the containers it built, and the
    fields as the second loop left them. *)
Lemma Behold_object t st st' :
  Behold t st = Ok (tt, st') ->
  exists cs st1,
    Behold_containers t st = Ok (cs, st1)
    /\ st' = with_object (apply_all cs st1 (object st1)) st1.
Proof.
  intros (cs & st1 & Hc & Ha)%Behold_Ok. exists cs, st1. split; [done|].
  by apply Behold_apply_Ok.
Qed.

(** The field of a container the pass built holds, after the pass, the value
    [resolved] chooses among the container's four accessors. *)
Lemma Behold_field_resolved t st st' index f :
  length (object st) = NumField t ->
  Behold t st = Ok (tt, st') ->
  t !! index = Some f -> constructible f = true ->
  exists cs st1 c,
    Behold_containers t st = Ok (cs, st1) /\ cs !! index = Some c /\ c <> any_nil
    /\ any_base c = baseOf f index (loaded (dotenv st)) /\ any_kind c = Type_ f
    /\ object st' !! index = Some (resolved c st').
Proof.
  intros Hlen (cs & st1 & Hcs & ->)%Behold_object Hf Hcon.
  destruct (containers_constructible _ _ _ _ _ _ Hcs Hf) as (c & Hc & Hn).
  rewrite Hcon in Hn.
  exists cs, st1, c. repeat split; try done.
  - destruct (containers_of _ _ _ _ _ _ Hcs Hc) as (f' & Hf' & H).
    assert (f' = f) as -> by congruence. rewrite Hcon in H. by destruct H as (_&?&_).
  - destruct (containers_of _ _ _ _ _ _ Hcs Hc) as (f' & Hf' & H).
    assert (f' = f) as -> by congruence. rewrite Hcon in H. by destruct H as (_&_&?&_).
  - simpl. unfold resolved.
    rewrite (any_GetEnvValue_ext c _ st1) by done.
    rewrite (any_GetFlagValue_ext c _ st1) by done.
    apply (apply_all_at 0 cs st1 (object st1) index c);
      [by eapply containers_placed|done|done|].
    eapply containers_default; eauto.
    apply lookup_lt_Some in Hf. unfold NumField in Hlen. lia.
Qed.

(** C1, amended: after a single resolution pass that returns, every
    declared field [container.New] builds a container [c] for (a field of a
    supported type that is settable and declares a flag name) holds exactly
    one of its parsed default, its environment value, its env-file value or
    its flag value, chosen by the fixed precedence: the flag value if
    present, otherwise the env-file value if present, otherwise the
    environment value if present, otherwise the parsed default.  (A field of
    a supported type that is not settable or declares no flag name has no
    container; the pass skips it.) *)
Theorem Behold_precedence t st st' index f :
  length (object st) = NumField t ->
  Behold t st = Ok (tt, st') ->
  t !! index = Some f -> constructible f = true ->
  exists cs st1 c v,
    Behold_containers t st = Ok (cs, st1) /\ cs !! index = Some c /\ c <> any_nil
    /\ any_base c = baseOf f index (loaded (dotenv st)) /\ any_kind c = Type_ f
    /\ object st' !! index = Some v
    /\ (snd (any_GetFlagValue c st') = true -> v = fst (any_GetFlagValue c st'))
    /\ (snd (any_GetFlagValue c st') = false ->
        snd (any_GetEnvFileValue c) = true -> v = fst (any_GetEnvFileValue c))
    /\ (snd (any_GetFlagValue c st') = false ->
        snd (any_GetEnvFileValue c) = false ->
        snd (any_GetEnvValue c st') = true -> v = fst (any_GetEnvValue c st'))
    /\ (snd (any_GetFlagValue c st') = false ->
        snd (any_GetEnvFileValue c) = false ->
        snd (any_GetEnvValue c st') = false -> v = any_GetDefaultValue c).
Proof.
  intros Hlen HB Hf Hcon.
  destruct (Behold_field_resolved t st st' index f Hlen HB Hf Hcon)
    as (cs & st1 & c & Hcs & Hc & Hn & Hb & Hk & Hv).
  exists cs, st1, c, (resolved c st'). repeat split; try done;
    unfold resolved, byPrecedence; intros; by repeat destruct (snd _).
Qed.

(** Neither loop writes to a field [container.New] built no container for. *)
Lemma Behold_field_kept t st st' index f :
  Behold t st = Ok (tt, st') ->
  t !! index = Some f -> constructible f = false ->
  object st' !! index = object st !! index.
Proof.
  intros (cs & st1 & Hcs & ->)%Behold_object Hf Hcon.
  simpl. rewrite apply_all_other.
  - by eapply containers_untouched.
  - intros c [j Hj]%list_elem_of_lookup Hn Hi.
    pose proof (containers_placed _ _ _ _ Hcs j c Hj Hn) as Hp. simpl in Hp.
    assert (j = index) as -> by congruence.
    destruct (containers_constructible _ _ _ _ _ _ Hcs Hf) as (c' & Hc' & Hnil).
    rewrite Hcon in Hnil. congruence.
Qed.

(** C10: a field whose container construction fails (unsettable field,
    missing flag tag, or unsupported type) is left untouched by the pass: not
    even its default is written; in a struct that started at its zero values
    it still holds the zero value of its type. *)
Theorem Behold_untouched t st st' index f :
  Behold t st = Ok (tt, st') ->
  t !! index = Some f -> constructible f = false ->
  object st' !! index = object st !! index
  /\ (object st = zeroStruct t -> object st' !! index = Some (zeroValue (Type_ f))).
Proof.
  intros HB Hf Hcon.
  pose proof (Behold_field_kept t st st' index f HB Hf Hcon) as E.
  split; [done|]. intros Hz. rewrite E, Hz. unfold zeroStruct.
  rewrite list_lookup_fmap. by rewrite Hf.
Qed.

(** ** Absent sources *)

Lemma GetEnvValue_unset c st :
  environ st !! envName (any_base c) = None -> snd (any_GetEnvValue c st) = false.
Proof.
  intros E. destruct c; simpl in *; try done;
    unfold BoolContainer_GetEnvValue, IntContainer_GetEnvValue,
      Float64Container_GetEnvValue, StringContainer_GetEnvValue,
      TimeContainer_GetEnvValue, os_Getenv; by rewrite E.
Qed.

Lemma GetEnvFileValue_missing c :
  envFile (any_base c) !! envName (any_base c) = None ->
  snd (any_GetEnvFileValue c) = false.
Proof.
  intros E. destruct c; simpl in *; try done;
    unfold BoolContainer_GetEnvFileValue, IntContainer_GetEnvFileValue,
      Float64Container_GetEnvFileValue, StringContainer_GetEnvFileValue,
      TimeContainer_GetEnvFileValue; by rewrite E.
Qed.

(** While the cell of a container's flag holds what the constructor
    registered, the flag value is absent, or (a NaN default) it is the
    default. *)
Lemma GetFlagValue_registered c st :
  any_flagValue c = Some (flagName (any_base c)) ->
  formal (CommandLine st) !! flagName (any_base c) = Some (any_cell c) ->
  (default_not_NaN c -> snd (any_GetFlagValue c st) = false)
  /\ (snd (any_GetFlagValue c st) = false
      \/ fst (any_GetFlagValue c st) = any_GetDefaultValue c).
Proof.
  intros Hp Hcell. destruct c as [|c|c|c|c|c]; try done;
    cbn [any_flagValue any_base any_cell any_GetFlagValue any_GetDefaultValue
         default_not_NaN GetFlagValue GetDefaultValue BoolContainer_Container
         IntContainer_Container Float64Container_Container
         StringContainer_Container TimeContainer_Container] in *.
  - unfold BoolContainer_GetFlagValue. rewrite Hp. cbv beta iota.
    unfold load_bool. rewrite Hcell.
    rewrite (proj2 (Bool.eqb_true_iff _ _) eq_refl). simpl. auto.
  - unfold IntContainer_GetFlagValue. rewrite Hp. cbv beta iota.
    unfold load_int. rewrite Hcell.
    rewrite Z.eqb_refl. simpl. auto.
  - unfold Float64Container_GetFlagValue. rewrite Hp. cbv beta iota.
    unfold load_float64. rewrite Hcell.
    destruct (PrimFloat.eqb _ _); simpl; auto.
  - unfold StringContainer_GetFlagValue. rewrite Hp. cbv beta iota.
    unfold load_string. rewrite Hcell.
    rewrite String.eqb_refl. simpl. auto.
  - unfold TimeContainer_GetFlagValue. rewrite Hp. cbv beta iota.
    unfold load_string. rewrite Hcell.
    rewrite String.eqb_refl. simpl. auto.
Qed.

(** A flag the command line does not name does not change the result. *)
Lemma unmentioned_flag t st cs st1 index c :
  Behold_containers t st = Ok (cs, st1) -> cs !! index = Some c -> c <> any_nil ->
  unmentioned (flagName (any_base c)) (tail (os_Args st)) = true ->
  (default_not_NaN c -> snd (any_GetFlagValue c st1) = false)
  /\ (snd (any_GetFlagValue c st1) = false
      \/ fst (any_GetFlagValue c st1) = any_GetDefaultValue c).
Proof.
  intros Hcs Hc Hn Hu.
  destruct (containers_of _ _ _ _ _ _ Hcs Hc) as (f & Hf & H).
  destruct (constructible f); [|done]. destruct H as (_ & _ & _ & Hfv).
  destruct (flag_Parsed st) eqn:Hp.
  - pose proof (any_GetFlagValue_nil c st1 Hfv). auto.
  - apply GetFlagValue_registered; [done|]. by eapply containers_cell.
Qed.

(** C6, amended: for every field [container.New] builds a container for (a
    field of a supported type that is settable and declares a flag name), if
    no environment variable is set, no env-file entry exists and no flag
    override is present (the command line does not name the flag, or the flag
    accessor reports none), the value after the pass is the declared default
    parsed into the field's type.  (A field without a container is skipped:
    it does not get its default.) *)
Theorem Behold_default t st st' cs st1 index c :
  length (object st) = NumField t ->
  Behold_containers t st = Ok (cs, st1) ->
  Behold t st = Ok (tt, st') ->
  cs !! index = Some c -> c <> any_nil ->
  environ st !! envName (any_base c) = None ->
  envFile (any_base c) !! envName (any_base c) = None ->
  unmentioned (flagName (any_base c)) (tail (os_Args st)) = true
    \/ snd (any_GetFlagValue c st') = false ->
  object st' !! index = Some (any_GetDefaultValue c).
Proof.
  intros Hlen Hcs HB Hc Hn Henv Hfile Hflag.
  destruct (containers_of _ _ _ _ _ _ Hcs Hc) as (f & Hf & Hcon).
  destruct (constructible f) eqn:Hcf; [|done].
  destruct (Behold_field_resolved t st st' index f Hlen HB Hf Hcf)
    as (cs' & st1' & c' & Hcs' & Hc' & _ & _ & _ & Hres).
  assert (cs' = cs /\ st1' = st1) as [-> ->] by (split; congruence).
  assert (c' = c) as -> by congruence.
  rewrite Hres. f_equal. unfold resolved, byPrecedence.
  destruct (Behold_object _ _ _ HB) as (cs2 & st2 & Hcs2 & Hst').
  assert (cs2 = cs /\ st2 = st1) as [-> ->] by (split; congruence).
  destruct (containers_same_process _ _ _ _ Hcs) as (E1 & _).
  assert (environ st' = environ st) as Eenv by (subst st'; simpl; congruence).
  assert (CommandLine st' = CommandLine st1) as Ecl by (by subst st').
  rewrite (GetEnvFileValue_missing c Hfile).
  rewrite (GetEnvValue_unset c st') by (by rewrite Eenv).
  rewrite (any_GetFlagValue_ext c st' st1 Ecl) in Hflag |- *.
  destruct Hflag as [Hu|Hu].
  - destruct (unmentioned_flag _ _ _ _ _ _ Hcs Hc Hn Hu) as [_ [->| ->]]; [done|].
    by destruct (snd (any_GetFlagValue c st1)).
  - by rewrite Hu.
Qed.

(** ** The flag accessor *)

Lemma GetFlagValue_present c st :
  snd (any_GetFlagValue c st) = true ->
  any_flagValue c = Some (flagName (any_base c)) ->
  flag_differs c st.
Proof.
  intros Hpres Hfv. destruct c as [|c|c|c|c|c]; try done;
    cbn [any_flagValue any_base any_GetFlagValue flag_differs
         GetFlagValue GetDefaultValue BoolContainer_Container
         IntContainer_Container Float64Container_Container
         StringContainer_Container TimeContainer_Container] in *.
  - unfold BoolContainer_GetFlagValue in *. rewrite Hfv in *. cbv beta iota in *.
    destruct (Bool.eqb (load_bool (flagName c) st) (BoolContainer_GetDefaultValue c))
      eqn:E; simpl in *; [done|]. by apply Bool.eqb_false_iff.
  - unfold IntContainer_GetFlagValue in *. rewrite Hfv in *. cbv beta iota in *.
    destruct (Z.eqb_spec (load_int (flagName c) st) (IntContainer_GetDefaultValue c));
      simpl in *; done.
  - unfold Float64Container_GetFlagValue in *. rewrite Hfv in *. cbv beta iota in *.
    destruct (PrimFloat.eqb (load_float64 (flagName c) st)
                            (Float64Container_GetDefaultValue c)) eqn:E;
      simpl in *; done.
  - unfold StringContainer_GetFlagValue in *. rewrite Hfv in *. cbv beta iota in *.
    destruct (String.eqb_spec (load_string (flagName c) st)
                              (StringContainer_GetDefaultValue c)); simpl in *; done.
  - unfold TimeContainer_GetFlagValue in *. rewrite Hfv in *. cbv beta iota in *.
    destruct (String.eqb_spec (load_string (flagName c) st) (defaultValue c));
      simpl in *; done.
Qed.

(** C2, amended: [FlagValue] reports present=true only if the container
    registered its flag in this pass (no parse had happened before) and the
    flag's value differs from the default, which for bool, int, float64 and
    string is Go's [!=] with the computed default, and for a timestamp is the
    difference of the flag string from the default as declared; and, unless
    the default of a float64 field is NaN, only if the command line names
    the flag. *)
Theorem FlagValue_present_only_if t st cs st1 index c :
  Behold_containers t st = Ok (cs, st1) -> cs !! index = Some c ->
  snd (any_GetFlagValue c st1) = true ->
  flag_Parsed st = false
  /\ flag_differs c st1
  /\ (default_not_NaN c -> supplied (flagName (any_base c)) (os_Args st)).
Proof.
  intros Hcs Hc Hpres.
  assert (c <> any_nil) as Hn by (by intros ->).
  destruct (containers_of _ _ _ _ _ _ Hcs Hc) as (f & Hf & H).
  destruct (constructible f); [|done]. destruct H as (_ & _ & _ & Hfv).
  destruct (flag_Parsed st) eqn:Hp.
  { rewrite (any_GetFlagValue_nil c st1 Hfv) in Hpres. done. }
  split; [done|]. split; [by apply GetFlagValue_present|].
  intros Hnan. unfold supplied.
  destruct (unmentioned (flagName (any_base c)) (tail (os_Args st))) eqn:Hu.
  - destruct (unmentioned_flag _ _ _ _ _ _ Hcs Hc Hn Hu) as [Habs _].
    rewrite (Habs Hnan) in Hpres. done.
  - unfold unmentioned in Hu. apply negb_false_iff, existsb_exists in Hu
      as (arg & Harg & Hm).
    exists arg. split; [by apply list_elem_of_In|done].
Qed.

(** ** Timestamps *)

Lemma parseTime_loop_first formats value t :
  first_layout_parses formats value t ->
  parseTime_loop formats value = t /\ isTime_loop formats value = true.
Proof.
  intros (pre & f & post & -> & Hpre & Hf).
  induction pre as [|g pre IH]; simpl.
  - by rewrite Hf.
  - pose proof (Hpre g ltac:(by left)) as Hg.
    destruct (time_Parse g value) as [tg [e|]]; [|done].
    apply IH. intros g' Hg'. apply Hpre. by right.
Qed.

Lemma parseTime_loop_none formats value :
  no_layout_parses formats value ->
  parseTime_loop formats value = Time_zero /\ isTime_loop formats value = false.
Proof.
  induction formats as [|f formats IH]; intros Hno; simpl; [done|].
  pose proof (Hno f ltac:(by left)) as Hf.
  destruct (time_Parse f value) as [t [e|]]; [|done].
  apply IH. intros g Hg. apply Hno. by right.
Qed.

(** C8: timestamp parsing tries the layouts in the fixed order date only,
    date and time, date 'T' time, date 'T' time 'Z', date 'T' time and zone
    abbreviation, date 'T' time and numeric offset; the first layout that
    matches gives the result, and the result is the zero timestamp when none
    matches. *)
Theorem parseTime_first_layout (c : TimeContainer) (value : string) :
  timeFormats = [ "2006-01-02"; "2006-01-02 15:04:05"; "2006-01-02T15:04:05";
                  "2006-01-02T15:04:05Z"; "2006-01-02T15:04:05 MST";
                  "2006-01-02T15:04:05-0700" ]
  /\ (forall t, first_layout_parses timeFormats value t ->
                TimeContainer_parseTime c value = t)
  /\ (no_layout_parses timeFormats value ->
      TimeContainer_parseTime c value = Time_zero).
Proof.
  split; [done|]. unfold TimeContainer_parseTime. split.
  - intros t H. by apply parseTime_loop_first.
  - intros H. by apply parseTime_loop_none.
Qed.

(** ** Defaults *)

(** C7: [DefaultValue] parses the declared default string into the field's
    type; when that parse fails it returns the zero value of the type (false,
    0, 0.0, the zero timestamp; a string is its own parse).  It is a total
    function of the container: it raises no error and aborts nothing. *)
Theorem GetDefaultValue_parse_or_zero :
  (forall c : BoolContainer,
     (forall v, strconv_ParseBool (defaultValue c) = (v, None) -> GetDefaultValue c = v)
     /\ (snd (strconv_ParseBool (defaultValue c)) <> None -> GetDefaultValue c = false))
  /\ (forall c : IntContainer,
     (forall v, strconv_Atoi (defaultValue c) = (v, None) -> GetDefaultValue c = v)
     /\ (snd (strconv_Atoi (defaultValue c)) <> None -> GetDefaultValue c = 0))
  /\ (forall c : Float64Container,
     (forall v, strconv_ParseFloat (defaultValue c) = (v, None) -> GetDefaultValue c = v)
     /\ (snd (strconv_ParseFloat (defaultValue c)) <> None
         -> GetDefaultValue c = 0%float))
  /\ (forall c : StringContainer, GetDefaultValue c = defaultValue c)
  /\ (forall c : TimeContainer,
     (forall t, first_layout_parses timeFormats (defaultValue c) t
                -> GetDefaultValue c = t)
     /\ (no_layout_parses timeFormats (defaultValue c)
         -> GetDefaultValue c = Time_zero)).
Proof.
  repeat split; simpl.
  - intros v E. unfold BoolContainer_GetDefaultValue. by rewrite E.
  - unfold BoolContainer_GetDefaultValue.
    by destruct (strconv_ParseBool (defaultValue c)) as [v [e|]].
  - intros v E. unfold IntContainer_GetDefaultValue. by rewrite E.
  - unfold IntContainer_GetDefaultValue.
    by destruct (strconv_Atoi (defaultValue c)) as [v [e|]].
  - intros v E. unfold Float64Container_GetDefaultValue. by rewrite E.
  - unfold Float64Container_GetDefaultValue.
    by destruct (strconv_ParseFloat (defaultValue c)) as [v [e|]].
  - intros t [Hp Hi]%parseTime_loop_first.
    unfold TimeContainer_GetDefaultValue, TimeContainer_isTime, TimeContainer_parseTime.
    by rewrite Hi.
  - intros [Hp Hi]%parseTime_loop_none.
    unfold TimeContainer_GetDefaultValue, TimeContainer_isTime. by rewrite Hi.
Qed.

(** ** The env file accessor *)

(** C4, amended: [EnvFileValue] is absent when the name is missing from the
    file mapping; for a name mapped to a non-empty value it returns what
    [EnvValue] returns for that value in the environment; a name mapped to
    the empty value is absent for bool, int and float64 (the empty string
    does not parse) and present, as the empty string, for a string field. *)
Theorem EnvFileValue_rules (c : any) (st : State) :
  (envFile (any_base c) !! envName (any_base c) = None ->
     snd (any_GetEnvFileValue c) = false)
  /\ (forall v, envFile (any_base c) !! envName (any_base c) = Some v -> v <> "" ->
       environ st !! envName (any_base c) = Some v ->
       any_GetEnvFileValue c = any_GetEnvValue c st)
  /\ (envFile (any_base c) !! envName (any_base c) = Some "" ->
      match c with
      | any_Bool _ | any_Int _ => snd (any_GetEnvFileValue c) = false
      | any_Float64 _ =>
          snd (strconv_ParseFloat "") <> None -> snd (any_GetEnvFileValue c) = false
      | any_String _ => any_GetEnvFileValue c = (VString "", true)
      | _ => True
      end).
Proof.
  split; [apply GetEnvFileValue_missing|]. split.
  - intros v Hfile Hne Henv.
    assert (String.eqb v "" = false) as Hv by (by apply String.eqb_neq).
    destruct c as [|c|c|c|c|c]; try done;
      cbn [any_base any_GetEnvFileValue any_GetEnvValue GetEnvValue GetEnvFileValue
           BoolContainer_Container IntContainer_Container Float64Container_Container
           StringContainer_Container TimeContainer_Container] in *;
      unfold BoolContainer_GetEnvFileValue, BoolContainer_GetEnvValue,
        IntContainer_GetEnvFileValue, IntContainer_GetEnvValue,
        Float64Container_GetEnvFileValue, Float64Container_GetEnvValue,
        StringContainer_GetEnvFileValue, StringContainer_GetEnvValue,
        TimeContainer_GetEnvFileValue, TimeContainer_GetEnvValue, os_Getenv;
      rewrite Hfile, Henv; simpl; rewrite Hv; simpl; done.
  - intros Hfile. destruct c as [|c|c|c|c|c]; try done;
      cbn [any_base any_GetEnvFileValue GetEnvFileValue
           BoolContainer_Container IntContainer_Container Float64Container_Container
           StringContainer_Container] in *.
    + unfold BoolContainer_GetEnvFileValue. by rewrite Hfile.
    + unfold IntContainer_GetEnvFileValue. by rewrite Hfile.
    + unfold Float64Container_GetEnvFileValue. rewrite Hfile.
      by destruct (strconv_ParseFloat "") as [b [e|]].
    + unfold StringContainer_GetEnvFileValue. by rewrite Hfile.
Qed.

(** ** Construction failures *)

Lemma newBaseContainer_fails t index f envFile st :
  t !! index = Some f ->
  exported f && snd (Tag_Lookup (Tag f) TagFlagName) = false ->
  newBaseContainer t index envFile st
  = Ok ((baseContainer_zero,
         Some (if negb (exported f) then ErrCantSet else ErrNoFlagName)), st).
Proof.
  intros Hf H. unfold newBaseContainer, bind, Type_Field. rewrite Hf. simpl.
  destruct (exported f); simpl in *; [|done].
  destruct (Tag_Lookup (Tag f) TagFlagName) as [name hasFlag]; simpl in *.
  by rewrite H.
Qed.

Lemma newBaseContainer_succeeds t index f envFile st :
  t !! index = Some f ->
  exported f && snd (Tag_Lookup (Tag f) TagFlagName) = true ->
  newBaseContainer t index envFile st = Ok ((baseOf f index envFile, None), st).
Proof.
  intros Hf [Hx Ht]%andb_true_iff.
  unfold newBaseContainer, bind, Type_Field, baseOf. rewrite Hf. simpl. rewrite Hx. simpl.
  destruct (Tag_Lookup (Tag f) TagFlagName) as [name hasFlag]; simpl in *.
  by rewrite Ht.
Qed.

Lemma New_fails t index f envFile st :
  t !! index = Some f -> constructible f = false ->
  New t index envFile st = Ok ((any_nil, Some (New_error f)), st).
Proof.
  intros Hf Hcon. unfold New_error, constructible in *.
  unfold New, bind at 1, Type_Field. rewrite Hf. simpl.
  unfold supported in *.
  destruct (String.eqb_spec (strings_ToLower (Type_String (Type_ f))) "bool") as [E|N1].
  { rewrite E in *. simpl in Hcon |- *.
    unfold NewBool, bind. by rewrite (newBaseContainer_fails _ _ f). }
  destruct (String.eqb_spec (strings_ToLower (Type_String (Type_ f))) "int") as [E|N2].
  { rewrite E in *. simpl in Hcon |- *.
    unfold NewInt, bind. by rewrite (newBaseContainer_fails _ _ f). }
  destruct (String.eqb_spec (strings_ToLower (Type_String (Type_ f))) "float64") as [E|N3].
  { rewrite E in *. simpl in Hcon |- *.
    unfold NewFloat64, bind. by rewrite (newBaseContainer_fails _ _ f). }
  destruct (String.eqb_spec (strings_ToLower (Type_String (Type_ f))) "string") as [E|N4].
  { rewrite E in *. simpl in Hcon |- *.
    unfold NewString, bind. by rewrite (newBaseContainer_fails _ _ f). }
  destruct (String.eqb_spec (strings_ToLower (Type_String (Type_ f))) "time.time") as [E|N5].
  { rewrite E in *. simpl in Hcon |- *.
    unfold NewTime, bind. by rewrite (newBaseContainer_fails _ _ f). }
  rewrite bool_decide_eq_false_2; [done|].
  rewrite !elem_of_cons, elem_of_nil. tauto.
Qed.

(** C5, amended: for a field that lacks a flag name, is not settable, or
    has a type outside the five supported ones, [container.New] returns no
    container and an error naming the problem, and changes nothing; [Behold]
    drops that error: its first loop records a nil container for the field
    and goes on with the next one, so the pass does not fail on it. *)
Theorem New_error_dropped t index f envFile rest st :
  t !! index = Some f -> constructible f = false ->
  New t index envFile st = Ok ((any_nil, Some (New_error f)), st)
  /\ Behold_setup t envFile (index :: rest) st
     = (let* containers := Behold_setup t envFile rest in
        ret (any_nil :: containers)) st.
Proof.
  intros Hf Hcon. split; [by apply New_fails|].
  simpl. unfold bind at 1. by rewrite (New_fails _ _ f).
Qed.

(** ** A second pass *)

Lemma reflect_Set_run (c : baseContainer) kind v st :
  Type_ (field c) = kind ->
  reflect_Set c kind v st
  = Ok (tt, with_object (<[fieldValue c := v]> (object st)) st).
Proof. intros E. unfold reflect_Set. by rewrite bool_decide_eq_true_2. Qed.

(** Once flags are parsed, [New] succeeds on every constructible field of
    a basic type: it registers nothing. *)
Lemma New_parsed t index f envFile st :
  t !! index = Some f -> constructible f = true -> basic (Type_ f) ->
  flag_Parsed st = true ->
  exists c, New t index envFile st = Ok ((c, None), after_New c index st).
Proof.
  intros Hf Hcon Hb Hp. unfold constructible in Hcon.
  apply andb_true_iff in Hcon as [[_ Hx]%andb_true_iff Ht].
  assert (exported f && snd (Tag_Lookup (Tag f) TagFlagName) = true) as Hxt
    by (by rewrite Hx, Ht).
  unfold New, bind at 1, Type_Field. rewrite Hf. simpl.
  destruct (Type_ f) eqn:Hty; try done; simpl.
  - exists (any_Bool (mkBool (baseOf f index envFile) None)).
    unfold NewBool, bind. rewrite (newBaseContainer_succeeds _ _ f) by done.
    unfold gets. rewrite Hp. simpl. unfold ret at 1.
    unfold BoolContainer_SetConfigValue. rewrite reflect_Set_run by done.
    unfold ret, after_New. by rewrite Hp.
  - exists (any_Int (mkInt (baseOf f index envFile) None)).
    unfold NewInt, bind. rewrite (newBaseContainer_succeeds _ _ f) by done.
    unfold gets. rewrite Hp. simpl. unfold ret at 1.
    unfold IntContainer_SetConfigValue. rewrite reflect_Set_run by done.
    unfold ret, after_New. by rewrite Hp.
  - exists (any_Float64 (mkFloat64 (baseOf f index envFile) None)).
    unfold NewFloat64, bind. rewrite (newBaseContainer_succeeds _ _ f) by done.
    unfold gets. rewrite Hp. simpl. unfold ret at 1.
    unfold Float64Container_SetConfigValue. rewrite reflect_Set_run by done.
    unfold ret, after_New. by rewrite Hp.
  - exists (any_String (mkString (baseOf f index envFile) None)).
    unfold NewString, bind. rewrite (newBaseContainer_succeeds _ _ f) by done.
    unfold gets. rewrite Hp. simpl. unfold ret at 1.
    unfold StringContainer_SetConfigValue. rewrite reflect_Set_run by done.
    unfold ret, after_New. by rewrite Hp.
  - exists (any_Time (mkTimeC (baseOf f index envFile) None)).
    unfold NewTime, bind. rewrite (newBaseContainer_succeeds _ _ f) by done.
    unfold gets. rewrite Hp. simpl. unfold ret at 1.
    unfold TimeContainer_SetConfigValue. rewrite reflect_Set_run by done.
    unfold ret, after_New. by rewrite Hp.
Qed.

Lemma Behold_setup_parsed t envFile indices st :
  well_kinded t indices -> flag_Parsed st = true ->
  exists cs st', Behold_setup t envFile indices st = Ok (cs, st').
Proof.
  revert st. induction indices as [|index rest IH]; intros st Hwk Hp; simpl.
  - by exists [], st.
  - destruct (Hwk index ltac:(by left)) as (f & Hf & Hb).
    assert (exists c err, New t index envFile st = Ok ((c, err), after_New c index st))
      as (c & err & HN).
    { destruct (constructible f) eqn:Hcon.
      - destruct (New_parsed t index f envFile st Hf Hcon (Hb eq_refl) Hp) as (c & HN).
        eauto.
      - exists any_nil, (Some (New_error f)). by apply New_fails. }
    destruct (IH (after_New c index st)) as (cs & st' & Hrest).
    { intros i Hi. apply Hwk. by right. }
    { unfold flag_Parsed in *.
      destruct (after_New_same_process c index st) as (_&_&_&->&_). done. }
    exists (c :: cs), st'. unfold bind. by rewrite HN, Hrest.
Qed.

(** The second loop runs to its end when every container writes to a field
    of its kind. *)
Lemma Behold_switch_run c st :
  (c <> any_nil -> Type_ (field (any_base c)) = any_kind c) ->
  exists st', Behold_switch c st = Ok (tt, st').
Proof.
  intros Hk.
  assert (forall (C T : Type) (H : Container C T) (x : C) (b : baseContainer)
            (kind : GoType) (inj : T -> Value),
            (forall v, SetConfigValue x v = reflect_Set b kind (inj v)) ->
            Type_ (field b) = kind ->
            forall s, exists s', applyValueWithPrecedence x s = Ok (tt, s')) as Hgen.
  { intros C T H x b kind inj HSet Hkind s.
    unfold applyValueWithPrecedence, bind, gets.
    destruct (GetEnvValue x s) as [v1 [|]]; simpl.
    - rewrite HSet, reflect_Set_run by done.
      destruct (GetEnvFileValue x) as [v2 [|]]; simpl.
      + rewrite HSet, reflect_Set_run by done.
        destruct (GetFlagValue x _) as [v3 [|]]; simpl; [|by eexists].
        rewrite HSet, reflect_Set_run by done. by eexists.
      + unfold ret at 1.
        destruct (GetFlagValue x _) as [v3 [|]]; simpl; [|by eexists].
        rewrite HSet, reflect_Set_run by done. by eexists.
    - unfold ret at 1.
      destruct (GetEnvFileValue x) as [v2 [|]]; simpl.
      + rewrite HSet, reflect_Set_run by done.
        destruct (GetFlagValue x _) as [v3 [|]]; simpl; [|by eexists].
        rewrite HSet, reflect_Set_run by done. by eexists.
      + unfold ret at 1.
        destruct (GetFlagValue x _) as [v3 [|]]; simpl; [|by eexists].
        rewrite HSet, reflect_Set_run by done. by eexists. }
  destruct c as [|c|c|c|c|c]; simpl.
  - by eexists.
  - apply (Hgen _ _ _ c c TBool VBool); [done|]. by apply Hk.
  - apply (Hgen _ _ _ c c TInt VInt); [done|]. by apply Hk.
  - apply (Hgen _ _ _ c c TFloat64 VFloat64); [done|]. by apply Hk.
  - apply (Hgen _ _ _ c c TString VString); [done|]. by apply Hk.
  - apply (Hgen _ _ _ c c TTime VTime); [done|]. by apply Hk.
Qed.

Lemma Behold_apply_run cs st :
  (forall c, c ∈ cs -> c <> any_nil -> Type_ (field (any_base c)) = any_kind c) ->
  exists st', Behold_apply cs st = Ok (tt, st').
Proof.
  revert st. induction cs as [|c cs IH]; intros st Hk; simpl.
  - by eexists.
  - destruct (Behold_switch_run c st) as (s1 & H1).
    { apply Hk. by left. }
    destruct (IH s1) as (s2 & H2).
    { intros c' Hc'. apply Hk. by right. }
    exists s2. unfold bind. by rewrite H1.
Qed.

Lemma Behold_envFile_again st m s2 :
  Behold_envFile st = Ok (m, st) -> dotenv s2 = dotenv st ->
  Behold_envFile s2 = Ok (m, s2).
Proof.
  unfold Behold_envFile, bind, gets. intros H E. rewrite E.
  destruct (env_FileExists (dotenv st)); [|by injection H as ->].
  destruct (env_ReadFile (dotenv st)) as [m' [e|]]; [done|by injection H as ->].
Qed.

Lemma Behold_envFile_run t st cs st1 :
  Behold_containers t st = Ok (cs, st1) ->
  Behold_envFile st = Ok (loaded (dotenv st), st).
Proof.
  unfold Behold_containers. intros H.
  apply bind_Ok in H as (m & s1 & H1 & _).
  by destruct (Behold_envFile_Ok _ _ _ H1) as [-> ->].
Qed.

Lemma Behold_parse_parsed st :
  flag_Parsed st = true -> Behold_parse st = Ok (tt, st).
Proof.
  intros Hp. unfold Behold_parse, bind, gets. rewrite Hp.
  by rewrite andb_false_r.
Qed.

(** The converse of [Behold_Ok]. *)
Lemma Behold_run t st cs st1 st' :
  Behold_containers t st = Ok (cs, st1) -> Behold_apply cs st1 = Ok (tt, st') ->
  Behold t st = Ok (tt, st').
Proof.
  unfold Behold, Behold_containers. intros H Ha.
  apply bind_Ok in H as (m & s1 & H1 & H).
  apply bind_Ok in H as (cs' & s2 & H2 & H).
  apply bind_Ok in H as ([] & s3 & H3 & H).
  apply ret_Ok in H as [-> ->].
  unfold bind. by rewrite H1, H2, H3.
Qed.

(** The accessors for the environment, the env file and the default read
    the base container only. *)
Lemma accessors_by_base c c2 st s2 :
  any_base c = any_base c2 -> any_kind c = any_kind c2 ->
  environ st = environ s2 ->
  any_GetEnvValue c st = any_GetEnvValue c2 s2
  /\ any_GetEnvFileValue c = any_GetEnvFileValue c2
  /\ any_GetDefaultValue c = any_GetDefaultValue c2.
Proof.
  intros Hb Hk He.
  destruct c as [|c|c|c|c|c], c2 as [|d|d|d|d|d]; try discriminate; try done;
    cbn [any_base any_GetEnvValue any_GetEnvFileValue any_GetDefaultValue
         GetEnvValue GetEnvFileValue GetDefaultValue
         BoolContainer_Container IntContainer_Container Float64Container_Container
         StringContainer_Container TimeContainer_Container] in *;
    unfold BoolContainer_GetEnvFileValue, BoolContainer_GetEnvValue,
      BoolContainer_GetDefaultValue,
      IntContainer_GetEnvFileValue, IntContainer_GetEnvValue,
      IntContainer_GetDefaultValue,
      Float64Container_GetEnvFileValue, Float64Container_GetEnvValue,
      Float64Container_GetDefaultValue,
      StringContainer_GetEnvFileValue, StringContainer_GetEnvValue,
      StringContainer_GetDefaultValue,
      TimeContainer_GetEnvFileValue, TimeContainer_GetEnvValue,
      TimeContainer_GetDefaultValue, TimeContainer_isTime, TimeContainer_parseTime,
      os_Getenv;
    by rewrite Hb, He.
Qed.

Lemma zeroStruct_length t : length (zeroStruct t) = NumField t.
Proof. unfold zeroStruct, NumField. by rewrite length_map. Qed.

(** C9, amended: when a pass on a fresh struct ends normally with the flags
    parsed (the command line had arguments, or a parse happened before), a
    second pass in the same process on a fresh struct, with the same
    sources, ends normally too; it registers no flag, so no container of it
    reports a flag value; and it yields the value of the first pass in every
    field for which the first pass had no flag value present. *)
Theorem Behold_twice t st cs s st1 :
  object st = zeroStruct t ->
  Behold_containers t st = Ok (cs, s) ->
  Behold t st = Ok (tt, st1) ->
  flag_Parsed st1 = true ->
  exists st2,
    Behold t (with_object (zeroStruct t) st1) = Ok (tt, st2)
    /\ (forall cs2 s2 index c2,
          Behold_containers t (with_object (zeroStruct t) st1) = Ok (cs2, s2) ->
          cs2 !! index = Some c2 -> snd (any_GetFlagValue c2 s2) = false)
    /\ (forall index c,
          cs !! index = Some c -> snd (any_GetFlagValue c st1) = false ->
          object st2 !! index = object st1 !! index).
Proof.
  intros Hfresh Hcs HB Hp.
  set (st1' := with_object (zeroStruct t) st1).
  assert (length (object st) = NumField t) as Hlen
    by (rewrite Hfresh; apply zeroStruct_length).
  destruct (Behold_object _ _ _ HB) as (cs0 & s0 & Hcs0 & Hst1).
  assert (cs0 = cs /\ s0 = s) as [-> ->] by (split; congruence).
  destruct (containers_same_process _ _ _ _ Hcs) as (Eenv & Eargs & Edot & _).
  assert (environ st1 = environ st /\ dotenv st1 = dotenv st
          /\ CommandLine st1 = CommandLine s) as (Eenv1 & Edot1 & Ecl1)
    by (subst st1; simpl; by repeat split).
  assert (flag_Parsed st1' = true) as Hp' by done.
  (* the second pass runs *)
  assert (well_kinded t (seq 0 (NumField t))) as Hwk.
  { intros index [_ Hi]%elem_of_seq. simpl in Hi.
    destruct (lookup_lt_is_Some_2 t index Hi) as [f Hf].
    exists f. split; [done|]. intros Hcon.
    destruct (containers_constructible _ _ _ _ _ _ Hcs Hf) as (c & Hc & Hn).
    rewrite Hcon in Hn.
    destruct (containers_of _ _ _ _ _ _ Hcs Hc) as (f' & Hf' & H).
    assert (f' = f) as -> by congruence. rewrite Hcon in H.
    destruct H as (_ & _ & -> & _). by destruct c. }
  destruct (Behold_setup_parsed t (loaded (dotenv st)) _ st1' Hwk Hp')
    as (cs2 & s2 & Hsetup).
  assert (flag_Parsed s2 = true) as Hp2.
  { pose proof (setup_run_same_process _ _ _ _ _ _ (Behold_setup_run _ _ _ _ _ _ Hsetup))
      as (_&_&_&E&_). unfold flag_Parsed in *. congruence. }
  assert (Behold_containers t st1' = Ok (cs2, s2)) as Hcs2.
  { unfold Behold_containers, bind.
    rewrite (Behold_envFile_again st (loaded (dotenv st)) st1');
      [|by eapply Behold_envFile_run|done].
    rewrite Hsetup. by rewrite (Behold_parse_parsed s2 Hp2). }
  destruct (Behold_apply_run cs2 s2) as (st2 & Happly).
  { intros c [j Hj]%list_elem_of_lookup Hn.
    destruct (containers_of _ _ _ _ _ _ Hcs2 Hj) as (f & Hf & H).
    destruct (constructible f); [|done]. destruct H as (_ & -> & <- & _). done. }
  pose proof (Behold_run _ _ _ _ _ Hcs2 Happly) as HB2.
  exists st2. split; [done|]. split.
  - (* no flag value in the second pass *)
    intros cs3 s3 index c2 Hcs3 Hc2.
    assert (cs3 = cs2 /\ s3 = s2) as [-> ->] by (split; congruence).
    destruct (containers_of _ _ _ _ _ _ Hcs2 Hc2) as (f & Hf & H).
    destruct (constructible f); [|by subst c2].
    destruct H as (_ & _ & _ & Hfv). rewrite Hp' in Hfv.
    by apply any_GetFlagValue_nil.
  - (* the values agree where the first pass had no flag value *)
    intros index c Hc Habs.
    destruct (containers_of _ _ _ _ _ _ Hcs Hc) as (f & Hf & H).
    destruct (constructible f) eqn:Hcon.
    + destruct H as (Hn & Hbase & Hkind & _).
      destruct (Behold_field_resolved t st st1 index f Hlen HB Hf Hcon)
        as (cs' & s' & c' & Hcs' & Hc' & _ & _ & _ & Hres).
      assert (cs' = cs /\ s' = s) as [-> ->] by (split; congruence).
      assert (c' = c) as -> by congruence.
      destruct (Behold_field_resolved t st1' st2 index f (zeroStruct_length t) HB2 Hf Hcon)
        as (cs3 & s3 & c2 & Hcs3 & Hc2 & Hn2 & Hbase2 & Hkind2 & Hres2).
      assert (cs3 = cs2 /\ s3 = s2) as [-> ->] by (split; congruence).
      rewrite Hres, Hres2. f_equal. unfold resolved, byPrecedence.
      destruct (containers_of _ _ _ _ _ _ Hcs2 Hc2) as (f2 & Hf2 & H2).
      assert (f2 = f) as -> by congruence. rewrite Hcon in H2.
      destruct H2 as (_ & _ & _ & Hfv2). rewrite Hp' in Hfv2.
      rewrite (any_GetFlagValue_nil c2 st2 Hfv2), Habs.
      destruct (Behold_object _ _ _ HB2) as (cs4 & s4 & Hcs4 & Hst2).
      assert (environ st2 = environ st1) as Eenv2.
      { destruct (containers_same_process _ _ _ _ Hcs4) as (E & _).
        subst st2. simpl. by rewrite E. }
      destruct (accessors_by_base c2 c st2 st1) as (-> & -> & ->); try done.
      * rewrite Hbase, Hbase2. by rewrite <- Edot1.
      * congruence.
    + subst c.
      rewrite (Behold_field_kept t st st1 index f HB Hf Hcon).
      rewrite (Behold_field_kept t st1' st2 index f HB2 Hf Hcon).
      simpl. by rewrite Hfresh.
Qed.

(** ** Timestamps: [isTime] *)

Lemma isTime_loop_spec formats value :
  isTime_loop formats value = true
  <-> exists f, f ∈ formats /\ snd (time_Parse f value) = None.
Proof.
  induction formats as [|g rest IH]; simpl.
  - split; [done|]. intros (f & Hf & _). by apply elem_of_nil in Hf.
  - destruct (time_Parse g value) as [t0 [e|]] eqn:E.
    + rewrite IH. split.
      * intros (f & Hf & Hp). exists f. split; [by apply elem_of_cons; right|done].
      * intros (f & Hf & Hp). apply elem_of_cons in Hf as [->|Hf].
        -- rewrite E in Hp. done.
        -- by exists f.
    + split; [|done]. intros _. exists g. split; [apply elem_of_cons; by left|].
      by rewrite E.
Qed.

Lemma isTime_loop_false formats value :
  isTime_loop formats value = false -> parseTime_loop formats value = Time_zero.
Proof.
  induction formats as [|g rest IH]; simpl; [done|].
  by destruct (time_Parse g value) as [t0 [e|]].
Qed.

(** X1: [isTime] reports whether some layout of [timeFormats] accepts the
    string; on a string it rejects, [parseTime] gives the zero time. *)
Theorem isTime_iff_some_layout (c : TimeContainer) (value : string) :
  (TimeContainer_isTime c value = true
   <-> exists f, f ∈ timeFormats /\ snd (time_Parse f value) = None)
  /\ (TimeContainer_isTime c value = false ->
      TimeContainer_parseTime c value = Time_zero).
Proof.
  split; [apply isTime_loop_spec | apply isTime_loop_false].
Qed.

(** X2: the default of a timestamp field is [parseTime] of the declared
    default: the test by [isTime] before it changes nothing. *)
Theorem TimeContainer_GetDefaultValue_parseTime (c : TimeContainer) :
  TimeContainer_GetDefaultValue c = TimeContainer_parseTime c (defaultValue c).
Proof.
  unfold TimeContainer_GetDefaultValue, TimeContainer_isTime, TimeContainer_parseTime.
  destruct (isTime_loop timeFormats (defaultValue c)) eqn:E; cbn [negb]; [done|].
  symmetry. by apply isTime_loop_false.
Qed.

(** ** The constructors, run forward *)

Lemma flag_Var_run cell name st :
  flag_name_ok name = true -> formal (CommandLine st) !! name = None ->
  flag_Var cell name st
  = Ok (name, with_CommandLine (FlagSet_store name cell (CommandLine st)) st).
Proof.
  intros [Hp Hc]%andb_true_iff Hfree. unfold flag_Var, FlagSet_Var.
  apply negb_true_iff in Hp, Hc. by rewrite Hp, Hc, Hfree.
Qed.

Lemma flag_Var_redefined cell name st :
  flag_name_ok name = true -> is_Some (formal (CommandLine st) !! name) ->
  flag_Var cell name st = Panic ("flag redefined: " ++ name).
Proof.
  intros [Hp Hc]%andb_true_iff [v Hv]. unfold flag_Var, FlagSet_Var.
  apply negb_true_iff in Hp, Hc. by rewrite Hp, Hc, Hv.
Qed.

Lemma flag_Var_Ok_name cell name p st st' :
  flag_Var cell name st = Ok (p, st') -> flag_name_ok name = true.
Proof.
  unfold flag_Var, FlagSet_Var, flag_name_ok.
  destruct (strings_HasPrefix name "-"); [done|].
  by destruct (strings_ContainsByte name "=").
Qed.

Lemma flag_Var_not_Exit cell name st code : flag_Var cell name st <> Exit code.
Proof.
  unfold flag_Var, FlagSet_Var.
  destruct (strings_HasPrefix name "-"); [done|].
  destruct (strings_ContainsByte name "="); [done|].
  by destruct (formal (CommandLine st) !! name).
Qed.

Lemma constructible_parts f :
  constructible f = true ->
  supported (Type_ f) = true
  /\ exported f && snd (Tag_Lookup (Tag f) TagFlagName) = true.
Proof.
  unfold constructible. intros [[? ?]%andb_true_iff ?]%andb_true_iff.
  split; [done|]. by apply andb_true_iff.
Qed.

Ltac NewX_forward f Hxt Hp Hok :=
  unfold bind; rewrite (newBaseContainer_succeeds _ _ f) by done;
  unfold gets; rewrite Hp; cbn [negb];
  unfold flag_Bool, flag_Int, flag_Float64, flag_String;
  try (rewrite flag_Var_run by (apply Hok; reflexivity));
  unfold ret at 1;
  unfold BoolContainer_SetConfigValue, IntContainer_SetConfigValue,
    Float64Container_SetConfigValue, StringContainer_SetConfigValue,
    TimeContainer_SetConfigValue;
  rewrite reflect_Set_run by done;
  unfold ret, after_New; cbn [any_base any_cell any_GetDefaultValue];
  try rewrite Hp; reflexivity.

(** What [New] does for a constructible field of one of the five types,
    when the flag can be registered. *)
Lemma New_constructs t index f envFile st :
  t !! index = Some f -> constructible f = true -> basic (Type_ f) ->
  (flag_Parsed st = false ->
     flag_name_ok (flagNameOf f) = true
     /\ formal (CommandLine st) !! flagNameOf f = None) ->
  let c := container_for f index envFile (flag_Parsed st) in
  c <> any_nil /\ New t index envFile st = Ok ((c, None), after_New c index st).
Proof.
  intros Hf Hcon Hb Hreg c. subst c.
  destruct (constructible_parts f Hcon) as [_ Hxt].
  unfold New, bind at 1, Type_Field. rewrite Hf. simpl.
  unfold container_for.
  destruct (flag_Parsed st) eqn:Hp.
  - destruct (Type_ f) eqn:Hty; try done; (split; [done|]); simpl.
    + unfold NewBool. NewX_forward f Hxt Hp Hreg.
    + unfold NewInt. NewX_forward f Hxt Hp Hreg.
    + unfold NewFloat64. NewX_forward f Hxt Hp Hreg.
    + unfold NewString. NewX_forward f Hxt Hp Hreg.
    + unfold NewTime. NewX_forward f Hxt Hp Hreg.
  - destruct (Hreg eq_refl) as [Hok Hfree].
    destruct (Type_ f) eqn:Hty; try done; (split; [done|]); simpl.
    + unfold NewBool. NewX_forward f Hxt Hp Hreg.
    + unfold NewInt. NewX_forward f Hxt Hp Hreg.
    + unfold NewFloat64. NewX_forward f Hxt Hp Hreg.
    + unfold NewString. NewX_forward f Hxt Hp Hreg.
    + unfold NewTime. NewX_forward f Hxt Hp Hreg.
Qed.

Lemma flag_Var_Panic_any cell cell' name st msg :
  flag_Var cell name st = Panic msg -> flag_Var cell' name st = Panic msg.
Proof.
  unfold flag_Var, FlagSet_Var.
  destruct (strings_HasPrefix name "-"); [done|].
  destruct (strings_ContainsByte name "="); [done|].
  by destruct (formal (CommandLine st) !! name).
Qed.

Lemma supported_cases ty :
  supported ty = true ->
  strings_ToLower (Type_String ty) ∈ ["bool"; "int"; "float64"; "string"; "time.time"].
Proof. unfold supported. by intros ?%bool_decide_eq_true_1. Qed.

Ltac NewX_panics f Hp HP :=
  unfold bind; rewrite (newBaseContainer_succeeds _ _ f) by done;
  unfold gets; rewrite Hp; cbn [negb];
  unfold flag_Bool, flag_Int, flag_Float64, flag_String;
  erewrite flag_Var_Panic_any by exact HP; reflexivity.

(** When the flag cannot be registered, the constructor panics as
    [flag.Var] does, before it writes the default. *)
Lemma New_flag_panics t index f envFile st msg :
  t !! index = Some f -> constructible f = true -> flag_Parsed st = false ->
  flag_Var (stringValue "") (flagNameOf f) st = Panic msg ->
  New t index envFile st = Panic msg.
Proof.
  intros Hf Hcon Hp HP.
  destruct (constructible_parts f Hcon) as [Hs Hxt].
  apply supported_cases in Hs.
  unfold New, bind at 1, Type_Field. rewrite Hf. simpl.
  rewrite !elem_of_cons, elem_of_nil in Hs.
  destruct Hs as [E|[E|[E|[E|[E|[]]]]]]; rewrite E; simpl.
  - unfold NewBool. NewX_panics f Hp HP.
  - unfold NewInt. NewX_panics f Hp HP.
  - unfold NewFloat64. NewX_panics f Hp HP.
  - unfold NewString. NewX_panics f Hp HP.
  - unfold NewTime. NewX_panics f Hp HP.
Qed.

Lemma flag_Var_bad_name cell name st :
  flag_name_ok name = false -> exists msg, flag_Var cell name st = Panic msg.
Proof.
  unfold flag_name_ok, flag_Var, FlagSet_Var.
  destruct (strings_HasPrefix name "-"); [by eexists|].
  destruct (strings_ContainsByte name "="); [by eexists|]. done.
Qed.

Lemma any_kind_basic c : c <> any_nil -> basic (any_kind c).
Proof. by destruct c. Qed.

(** A run of [New] that ended normally, in closed form. *)
Lemma New_Ok_closed t index envFile st c err st' :
  New t index envFile st = Ok ((c, err), st') ->
  exists f, t !! index = Some f
    /\ c = (if constructible f
            then container_for f index envFile (flag_Parsed st) else any_nil)
    /\ st' = after_New c index st
    /\ (constructible f = true ->
        c <> any_nil /\ err = None /\ basic (Type_ f)
        /\ (flag_Parsed st = false ->
            flag_name_ok (flagNameOf f) = true
            /\ formal (CommandLine st) !! flagNameOf f = None)).
Proof.
  intros HN. pose proof (New_step _ _ _ _ _ _ _ HN) as ((f & Hf & Hc) & Hst & Hfree).
  exists f. split; [done|].
  destruct (constructible f) eqn:Hcon.
  - destruct Hc as (Hn & Hb & Hk & Hfv).
    assert (basic (Type_ f)) as Hbasic by (rewrite Hk; by apply any_kind_basic).
    assert (flag_Parsed st = false ->
            flag_name_ok (flagNameOf f) = true
            /\ formal (CommandLine st) !! flagNameOf f = None) as Hreg.
    { intros Hp. split.
      - destruct (flag_name_ok (flagNameOf f)) eqn:Hok; [done|].
        destruct (flag_Var_bad_name (stringValue "") (flagNameOf f) st Hok) as (msg & HP).
        rewrite (New_flag_panics t index f envFile st msg) in HN by done. done.
      - specialize (Hfree Hn Hp). by rewrite Hb in Hfree. }
    destruct (New_constructs t index f envFile st Hf Hcon Hbasic Hreg) as [_ HN'].
    rewrite HN in HN'. injection HN' as -> -> ->.
    repeat split; try done. by apply Hreg. by apply Hreg.
  - rewrite (New_fails t index f envFile st Hf Hcon) in HN.
    injection HN as <- <- <-. repeat split; done.
Qed.

(** ** The first loop, run forward *)

Lemma declared_flags_elem t i f :
  t !! i = Some f -> constructible f = true -> flagNameOf f ∈ declared_flags t.
Proof.
  intros Hf Hcon. unfold declared_flags. apply list_elem_of_omap.
  exists f. split; [by eapply list_elem_of_lookup_2|]. by rewrite Hcon.
Qed.

Lemma declared_flags_distinct t :
  NoDup (declared_flags t) ->
  forall i j f g, t !! i = Some f -> t !! j = Some g ->
    constructible f = true -> constructible g = true ->
    flagNameOf f = flagNameOf g -> i = j.
Proof.
  induction t as [|h t IH]; intros Hnd i j f g Hf Hg Hcf Hcg Hname; [done|].
  unfold declared_flags in Hnd. cbn [omap list_omap] in Hnd.
  destruct i as [|i], j as [|j]; simpl in Hf, Hg.
  - done.
  - injection Hf as ->. rewrite Hcf in Hnd. simpl in Hnd.
    apply NoDup_cons in Hnd as [Hnot _]. exfalso. apply Hnot.
    rewrite Hname. by eapply declared_flags_elem.
  - injection Hg as ->. rewrite Hcg in Hnd. simpl in Hnd.
    apply NoDup_cons in Hnd as [Hnot _]. exfalso. apply Hnot.
    rewrite <- Hname. by eapply declared_flags_elem.
  - f_equal. apply (IH) with f g; try done.
    destruct (constructible h); simpl in Hnd; [by apply NoDup_cons in Hnd as [_ ?]|done].
Qed.

Lemma fields_typed_well_kinded t :
  fields_typed t = true -> well_kinded t (seq 0 (NumField t)).
Proof.
  intros H index Hin. apply elem_of_seq in Hin as [_ Hlt]. simpl in Hlt.
  destruct (lookup_lt_is_Some_2 t index Hlt) as [f Hf].
  exists f. split; [done|]. intros Hcon.
  unfold fields_typed in H. rewrite forallb_forall in H.
  specialize (H f). rewrite Hcon in H. simpl in H.
  assert (isBasic (Type_ f) = true) as Hb.
  { apply H. apply list_elem_of_In. by eapply list_elem_of_lookup_2. }
  by destruct (Type_ f).
Qed.

Lemma flags_registrable_spec t fs :
  flags_registrable t fs = true ->
  NoDup (declared_flags t)
  /\ forall i f, t !! i = Some f -> constructible f = true ->
       flag_name_ok (flagNameOf f) = true /\ formal fs !! flagNameOf f = None.
Proof.
  unfold flags_registrable. intros [Hnd Hall]%andb_true_iff.
  apply bool_decide_eq_true_1 in Hnd. split; [done|].
  intros i f Hf Hcon. rewrite forallb_forall in Hall.
  assert (In (flagNameOf f) (declared_flags t)) as Hin
    by (apply list_elem_of_In; by eapply declared_flags_elem).
  apply Hall in Hin. apply andb_true_iff in Hin as [Hok Hfree].
  split; [done|]. apply negb_true_iff, bool_decide_eq_false_1 in Hfree.
  by apply eq_None_not_Some.
Qed.

Lemma Behold_setup_constructs t envFile indices st :
  NoDup indices -> well_kinded t indices ->
  (flag_Parsed st = false ->
     forall index f, index ∈ indices -> t !! index = Some f ->
       constructible f = true ->
       flag_name_ok (flagNameOf f) = true
       /\ formal (CommandLine st) !! flagNameOf f = None) ->
  (flag_Parsed st = false ->
     forall i j f g, i ∈ indices -> j ∈ indices ->
       t !! i = Some f -> t !! j = Some g ->
       constructible f = true -> constructible g = true ->
       flagNameOf f = flagNameOf g -> i = j) ->
  exists cs st', Behold_setup t envFile indices st = Ok (cs, st').
Proof.
  revert st. induction indices as [|index rest IH]; intros st Hnd Hwk Hreg Hdist; simpl.
  - by exists [], st.
  - apply NoDup_cons in Hnd as [Hnotin Hnd].
    destruct (Hwk index ltac:(by left)) as (f & Hf & Hb).
    assert (exists c err, New t index envFile st = Ok ((c, err), after_New c index st)
              /\ (c <> any_nil -> constructible f = true
                                  /\ flagName (any_base c) = flagNameOf f))
      as (c & err & HN & Hc).
    { destruct (constructible f) eqn:Hcon.
      - destruct (New_constructs t index f envFile st Hf Hcon (Hb eq_refl)) as [Hn HN].
        { intros Hp. apply (Hreg Hp index f); [by left|done|done]. }
        eexists _, _. split; [exact HN|]. intros _. split; [done|].
        pose proof (Hb eq_refl) as Hbas.
        unfold container_for. by destruct (Type_ f).
      - exists any_nil, (Some (New_error f)). split; [by apply New_fails|done]. }
    assert (flag_Parsed (after_New c index st) = flag_Parsed st) as Hpar.
    { unfold flag_Parsed. by destruct (after_New_same_process c index st) as (_&_&_&->&_). }
    destruct (IH (after_New c index st)) as (cs & st' & Hrest); [done| | | |].
    { intros i Hi. apply Hwk. by right. }
    { rewrite Hpar. intros Hp j g Hj Hg Hcg.
      destruct (Hreg Hp j g ltac:(by right) Hg Hcg) as [Hok Hfree].
      split; [done|].
      destruct (any_nil_dec c) as [->|Hn]; [done|].
      destruct (Hc Hn) as [Hcf Hname].
      unfold after_New. destruct c; try done; simpl; rewrite Hp; simpl;
        (rewrite lookup_insert_ne; [done|]); simpl in Hname; rewrite Hname;
        intros E; apply Hnotin;
        by rewrite (Hdist Hp index j f g ltac:(by left) ltac:(by right) Hf Hg Hcf Hcg E). }
    { rewrite Hpar. intros Hp i j f' g Hi Hj. apply Hdist; [done|by right|by right]. }
    exists (c :: cs), st'. unfold bind. by rewrite HN, Hrest.
Qed.

Lemma Behold_envFile_ok st :
  dotenv_ok (dotenv st) = true -> Behold_envFile st = Ok (loaded (dotenv st), st).
Proof. unfold Behold_envFile, bind, gets. by destruct (dotenv st). Qed.

(** The first loop ends normally when the flags can be registered. *)
Lemma Behold_setup_returns t envFile st :
  fields_typed t = true ->
  (flag_Parsed st = false -> flags_registrable t (CommandLine st) = true) ->
  exists cs st', Behold_setup t envFile (seq 0 (NumField t)) st = Ok (cs, st').
Proof.
  intros Hty Hreg. apply Behold_setup_constructs.
  - apply NoDup_seq.
  - by apply fields_typed_well_kinded.
  - intros Hp index f _ Hf Hcon.
    destruct (flags_registrable_spec _ _ (Hreg Hp)) as [_ H]. by eapply H.
  - intros Hp i j f g _ _.
    destruct (flags_registrable_spec _ _ (Hreg Hp)) as [Hnd _].
    by apply declared_flags_distinct.
Qed.

Lemma setup_containers_kinded t envFile indices st cs st' :
  setup_run t envFile indices st cs st' ->
  forall c, c ∈ cs -> c <> any_nil -> Type_ (field (any_base c)) = any_kind c.
Proof.
  intros Hrun c [j Hj]%list_elem_of_lookup Hn.
  assert (is_Some (indices !! j)) as [index Hi].
  { apply lookup_lt_is_Some. rewrite <- (setup_run_length _ _ _ _ _ _ Hrun).
    by eapply lookup_lt_Some. }
  destruct (setup_run_containers _ _ _ _ _ _ Hrun j index c Hi Hj) as (f & Hf & H).
  destruct (constructible f); [|done].
  destruct H as (_ & Hb & Hk & _). by rewrite Hb.
Qed.

(** ** Runs that end normally *)

Lemma Behold_parse_skipped st :
  flag_Parsed st = true \/ (length (os_Args st) <= 1)%nat ->
  Behold_parse st = Ok (tt, st).
Proof.
  intros H. unfold Behold_parse, bind, gets.
  destruct H as [->|H]; [by rewrite andb_false_r|].
  assert ((1 <? Z.of_nat (length (os_Args st))) = false) as -> by (apply Z.ltb_ge; lia).
  done.
Qed.

Lemma Behold_parse_outcome st :
  errorHandling (CommandLine st) = ExitOnError ->
  (exists st', Behold_parse st = Ok (tt, st'))
  \/ Behold_parse st = Exit 0 \/ Behold_parse st = Exit 2.
Proof.
  intros He. unfold Behold_parse, bind, gets.
  destruct ((1 <? Z.of_nat (length (os_Args st))) && negb (flag_Parsed st));
    [|left; by eexists].
  unfold flag_Parse, FlagSet_Parse. rewrite He.
  destruct (FlagSet_parseLoop _ _) as [f' [[err [|]]|]]; [right; by left|right; by right|].
  left. by eexists.
Qed.

Lemma Behold_apply_after_setup t envFile st cs s2 s3 :
  Behold_setup t envFile (seq 0 (NumField t)) st = Ok (cs, s2) ->
  exists st', Behold_apply cs s3 = Ok (tt, st').
Proof.
  intros Hs%Behold_setup_run. apply Behold_apply_run.
  by eapply setup_containers_kinded.
Qed.

(** X8: [Behold] returns normally when the file ".env" is absent or
    readable, every constructible field has one of the five types, the flags
    were parsed before or else can all be registered (names pairwise
    different, accepted by [flag.Var], not defined yet), and no parse of the
    command line takes place (flags parsed before, or no argument given). *)
Theorem Behold_returns t st :
  dotenv_ok (dotenv st) = true ->
  fields_typed t = true ->
  (flag_Parsed st = false -> flags_registrable t (CommandLine st) = true) ->
  flag_Parsed st = true \/ (length (os_Args st) <= 1)%nat ->
  exists st', Behold t st = Ok (tt, st').
Proof.
  intros Henv Hty Hreg Hskip.
  destruct (Behold_setup_returns t (loaded (dotenv st)) st Hty Hreg) as (cs & s2 & Hs).
  destruct (Behold_apply_after_setup _ _ _ _ _ s2 Hs) as (st' & Ha).
  exists st'. unfold Behold, bind.
  rewrite (Behold_envFile_ok st Henv), Hs, Behold_parse_skipped; [done|].
  destruct (setup_run_same_process _ _ _ _ _ _ (Behold_setup_run _ _ _ _ _ _ Hs))
    as (_ & -> & _ & Hp & _).
  unfold flag_Parsed in *. by rewrite Hp.
Qed.

(** X9: under the same conditions on the file, the fields and the flags, and
    with [flag.CommandLine] in its default mode [ExitOnError], [Behold] never
    panics: it returns normally, or the parse of the command line ends the
    process with status 0 (help requested) or 2. *)
Theorem Behold_never_panics t st :
  dotenv_ok (dotenv st) = true ->
  fields_typed t = true ->
  (flag_Parsed st = false -> flags_registrable t (CommandLine st) = true) ->
  errorHandling (CommandLine st) = ExitOnError ->
  (exists st', Behold t st = Ok (tt, st'))
  \/ Behold t st = Exit 0 \/ Behold t st = Exit 2.
Proof.
  intros Henv Hty Hreg He.
  destruct (Behold_setup_returns t (loaded (dotenv st)) st Hty Hreg) as (cs & s2 & Hs).
  assert (errorHandling (CommandLine s2) = ExitOnError) as He2.
  { destruct (setup_run_same_process _ _ _ _ _ _ (Behold_setup_run _ _ _ _ _ _ Hs))
      as (_ & _ & _ & _ & _ & ->). done. }
  unfold Behold, bind. rewrite (Behold_envFile_ok st Henv), Hs.
  destruct (Behold_parse_outcome s2 He2) as [[s3 ->]|[->| ->]];
    [|right; by left|right; by right].
  left. by eapply Behold_apply_after_setup.
Qed.

(** ** Runs that panic *)

Lemma newBaseContainer_outcome t index envFile st :
  (exists r, newBaseContainer t index envFile st = Ok (r, st))
  \/ (exists msg, newBaseContainer t index envFile st = Panic msg).
Proof.
  unfold newBaseContainer, bind, Type_Field.
  destruct (t !! index) as [f|]; [|right; by eexists]. simpl.
  destruct (exported f); simpl; [|left; by eexists].
  destruct (Tag_Lookup (Tag f) TagFlagName) as [name [|]]; simpl; left; by eexists.
Qed.

Lemma reflect_Set_not_Exit c kind v st code : reflect_Set c kind v st <> Exit code.
Proof. unfold reflect_Set. by destruct (bool_decide _). Qed.

Ltac NewX_not_Exit :=
  unfold bind;
  match goal with
  | |- context [newBaseContainer ?t ?i ?e ?s] =>
      destruct (newBaseContainer_outcome t i e s) as [[[b [e'|]] ->]|[msg ->]]
  end; [done| |done];
  unfold gets; destruct (flag_Parsed _); cbn [negb];
  [ unfold ret at 1
  | unfold flag_Bool, flag_Int, flag_Float64, flag_String;
    match goal with
    | |- context [flag_Var ?c ?n ?s] =>
        let HX := fresh "HX" in
        pose proof (flag_Var_not_Exit c n s) as HX;
        destruct (flag_Var c n s) as [[p s']|m|cd]; [|done|by destruct (HX cd)]
    end;
    unfold ret at 1 ];
  match goal with
  | |- context [reflect_Set ?c ?k ?v ?s] =>
      let HX := fresh "HX" in
      pose proof (reflect_Set_not_Exit c k v s) as HX;
      destruct (reflect_Set c k v s) as [[[] s'']|m|cd]; [done|done|by destruct (HX cd)]
  end.

(** The constructors never end the process. *)
Lemma New_not_Exit t index envFile st code : New t index envFile st <> Exit code.
Proof.
  unfold New, bind at 1, Type_Field.
  destruct (t !! index) as [f|]; [|done]. simpl.
  destruct (String.eqb _ "bool"); [unfold NewBool, BoolContainer_SetConfigValue; NewX_not_Exit|].
  destruct (String.eqb _ "int"); [unfold NewInt, IntContainer_SetConfigValue; NewX_not_Exit|].
  destruct (String.eqb _ "float64");
    [unfold NewFloat64, Float64Container_SetConfigValue; NewX_not_Exit|].
  destruct (String.eqb _ "string");
    [unfold NewString, StringContainer_SetConfigValue; NewX_not_Exit|].
  destruct (String.eqb _ "time.time");
    [unfold NewTime, TimeContainer_SetConfigValue; NewX_not_Exit|].
  done.
Qed.

Lemma Behold_setup_not_Exit t envFile indices st code :
  Behold_setup t envFile indices st <> Exit code.
Proof.
  revert st. induction indices as [|index rest IH]; intros st; simpl; [done|].
  unfold bind. pose proof (New_not_Exit t index envFile st) as HX.
  destruct (New t index envFile st) as [[r s1]|m|cd]; [|done|by destruct (HX cd)].
  specialize (IH s1). by destruct (Behold_setup t envFile rest s1) as [[cs s2]|m|cd].
Qed.

Lemma Behold_envFile_not_Exit st code : Behold_envFile st <> Exit code.
Proof. unfold Behold_envFile, bind, gets. by destruct (dotenv st). Qed.

Lemma after_New_unparsed c index st :
  flag_Parsed (after_New c index st) = flag_Parsed st.
Proof.
  unfold flag_Parsed. by destruct (after_New_same_process c index st) as (_&_&_&->&_).
Qed.

(** In a first loop that ended normally, every flag the loop was to register
    was accepted by [flag.Var] and not defined when the loop began. *)
Lemma Behold_setup_free t envFile indices st cs st' :
  Behold_setup t envFile indices st = Ok (cs, st') -> flag_Parsed st = false ->
  forall index f, index ∈ indices -> t !! index = Some f -> constructible f = true ->
    flag_name_ok (flagNameOf f) = true
    /\ formal (CommandLine st) !! flagNameOf f = None.
Proof.
  revert st cs st'. induction indices as [|a rest IH];
    intros st cs st' Hs Hp index f Hin Hf Hcon.
  { by apply elem_of_nil in Hin. }
  simpl in Hs. apply bind_Ok in Hs as ([c err] & s1 & HN & Hs).
  apply bind_Ok in Hs as (cs' & s2 & Hrest & _).
  destruct (New_Ok_closed _ _ _ _ _ _ _ HN) as (h & Hh & Hc & -> & Hfacts).
  apply elem_of_cons in Hin as [->|Hin].
  - assert (h = f) as -> by congruence. by apply Hfacts.
  - destruct (IH _ _ _ Hrest ltac:(by rewrite after_New_unparsed) index f Hin Hf Hcon)
      as [Hok Hfree].
    split; [done|].
    destruct (formal (CommandLine st) !! flagNameOf f) as [v|] eqn:E; [|done].
    rewrite (after_New_formal c a st _ v) in Hfree; [done| |done].
    intros Hn _. destruct (constructible h) eqn:Hch; [|by rewrite Hc in Hn].
    destruct (Hfacts eq_refl) as (_ & _ & Hb & Hreg).
    destruct (Hreg Hp) as [_ Hfr]. rewrite Hc. unfold container_for.
    by destruct (Type_ h).
Qed.

Lemma Behold_setup_distinct t envFile indices st cs st' :
  Behold_setup t envFile indices st = Ok (cs, st') -> flag_Parsed st = false ->
  forall i j f g, i ∈ indices -> j ∈ indices -> i <> j ->
    t !! i = Some f -> t !! j = Some g ->
    constructible f = true -> constructible g = true ->
    flagNameOf f <> flagNameOf g.
Proof.
  revert st cs st'. induction indices as [|a rest IH];
    intros st cs st' Hs Hp i j f g Hi Hj Hne Hf Hg Hcf Hcg.
  { by apply elem_of_nil in Hi. }
  simpl in Hs. apply bind_Ok in Hs as ([c err] & s1 & HN & Hs).
  apply bind_Ok in Hs as (cs' & s2 & Hrest & _).
  destruct (New_Ok_closed _ _ _ _ _ _ _ HN) as (h & Hh & Hc & -> & Hfacts).
  assert (forall k e, k ∈ rest -> t !! k = Some e -> constructible e = true ->
            constructible h = true -> flagNameOf h <> flagNameOf e) as Hhead.
  { intros k e Hk He Hce Hch Heq.
    destruct (Behold_setup_free _ _ _ _ _ _ Hrest ltac:(by rewrite after_New_unparsed)
                k e Hk He Hce) as [_ Hfree].
    destruct (Hfacts Hch) as (Hn & _ & Hb & _).
    rewrite Hch in Hc.
    assert (flagName (any_base c) = flagNameOf h) as Hname
      by (rewrite Hc; unfold container_for; by destruct (Type_ h)).
    pose proof (after_New_registered c a st Hn Hp) as Hr.
    rewrite Hname, Heq in Hr. rewrite Hr in Hfree. done. }
  apply elem_of_cons in Hi as [->|Hi], Hj as [->|Hj].
  - done.
  - assert (h = f) as -> by congruence. by apply (Hhead j g).
  - assert (h = g) as -> by congruence. intros E. by apply (Hhead i f).
  - by apply (IH _ _ _ Hrest ltac:(by rewrite after_New_unparsed) i j f g).
Qed.

(** X10: two constructible fields that declare the same flag name make
    [Behold] panic, when the flags were not parsed before: the second
    registration is refused by the flag package. *)
Theorem Behold_duplicate_flag_panics t st i j f g :
  flag_Parsed st = false ->
  t !! i = Some f -> t !! j = Some g -> i <> j ->
  constructible f = true -> constructible g = true ->
  flagNameOf f = flagNameOf g ->
  exists msg, Behold t st = Panic msg.
Proof.
  intros Hp Hf Hg Hne Hcf Hcg Heq. unfold Behold, bind.
  pose proof (Behold_envFile_not_Exit st) as HX.
  destruct (Behold_envFile st) as [[m s0]|msg|cd] eqn:He;
    [|by eexists|by destruct (HX cd)].
  apply Behold_envFile_Ok in He as [-> ->].
  pose proof (Behold_setup_not_Exit t (loaded (dotenv st)) (seq 0 (NumField t)) st) as HS.
  destruct (Behold_setup _ _ _ st) as [[cs s2]|msg|cd] eqn:Hs;
    [|by eexists|by destruct (HS cd)].
  exfalso.
  apply (Behold_setup_distinct _ _ _ _ _ _ Hs Hp i j f g); try done.
  - apply elem_of_seq. apply lookup_lt_Some in Hf. unfold NumField. lia.
  - apply elem_of_seq. apply lookup_lt_Some in Hg. unfold NumField. lia.
Qed.

Lemma Behold_parse_unparsed st st' :
  Behold_parse st = Ok (tt, st') -> flag_Parsed st' = false -> st' = st.
Proof.
  intros H Hp. unfold Behold_parse, bind, gets in H.
  destruct ((1 <? Z.of_nat (length (os_Args st))) && negb (flag_Parsed st)).
  - apply flag_Parse_Ok in H as (_ & _ & _ & _ & Hq & _). congruence.
  - by apply ret_Ok in H as [_ ->].
Qed.

(** The first loop on a flag set that holds the flags already. *)
Lemma Behold_setup_redefined t envFile indices st :
  (forall index, index ∈ indices -> is_Some (t !! index)) ->
  flag_Parsed st = false ->
  (forall index f, index ∈ indices -> t !! index = Some f -> constructible f = true ->
     flag_name_ok (flagNameOf f) = true
     /\ is_Some (formal (CommandLine st) !! flagNameOf f)) ->
  (exists index f, index ∈ indices /\ t !! index = Some f /\ constructible f = true) ->
  exists index f, index ∈ indices /\ t !! index = Some f /\ constructible f = true
    /\ Behold_setup t envFile indices st = Panic ("flag redefined: " ++ flagNameOf f).
Proof.
  induction indices as [|a rest IH]; intros Hdef Hp Hreg (index & f & Hin & Hf & Hcon).
  { by apply elem_of_nil in Hin. }
  destruct (Hdef a ltac:(by left)) as [h Hh].
  destruct (constructible h) eqn:Hch.
  - exists a, h. split; [by left|]. split; [done|]. split; [done|].
    destruct (Hreg a h ltac:(by left) Hh Hch) as [Hok Hsome].
    simpl. unfold bind.
    by rewrite (New_flag_panics t a h envFile st _ Hh Hch Hp
                  (flag_Var_redefined _ _ _ Hok Hsome)).
  - apply elem_of_cons in Hin as [->|Hin]; [congruence|].
    destruct IH as (k & e & Hk & He & Hce & Hpanic).
    { intros ? ?. apply Hdef. by right. }
    { done. }
    { intros ? ? ?. apply Hreg. by right. }
    { by exists index, f. }
    exists k, e. split; [by right|]. split; [done|]. split; [done|].
    simpl. unfold bind. by rewrite (New_fails t a h envFile st Hh Hch), Hpanic.
Qed.

(** X11: after a pass that ended normally without parsing the flags (no
    argument on the command line), a second pass panics: the first
    constructor to run finds its flag defined already.  The struct passed
    the second time plays no part. *)
Theorem Behold_again_panics t st st1 o :
  Behold t st = Ok (tt, st1) -> flag_Parsed st1 = false ->
  (exists index f, t !! index = Some f /\ constructible f = true) ->
  exists msg, Behold t (with_object o st1) = Panic msg.
Proof.
  intros HB Hp1 (index & f & Hf & Hcon).
  destruct (Behold_Ok _ _ _ HB) as (cs & s3 & Hcs & Happ).
  apply Behold_apply_Ok in Happ as ->.
  pose proof (Behold_envFile_run _ _ _ _ Hcs) as Henv.
  unfold Behold_containers in Hcs.
  apply bind_Ok in Hcs as (m & s0 & He & Hcs).
  apply Behold_envFile_Ok in He as [-> ->].
  apply bind_Ok in Hcs as (cs0 & s2 & Hs & Hcs).
  apply bind_Ok in Hcs as ([] & s3' & Hparse & Hret).
  apply ret_Ok in Hret as [E1 E2]. subst cs0 s3'.
  change (flag_Parsed s3 = false) in Hp1.
  pose proof (Behold_parse_unparsed _ _ Hparse Hp1) as Hs3. subst s3.
  pose proof (Behold_setup_run _ _ _ _ _ _ Hs) as Hrun.
  assert (flag_Parsed st = false) as Hp.
  { destruct (setup_run_same_process _ _ _ _ _ _ Hrun) as (_ & _ & _ & Hq & _).
    unfold flag_Parsed in *. congruence. }
  set (s := with_object o (with_object (apply_all cs s2 (object s2)) s2)).
  destruct (Behold_setup_redefined t (loaded (dotenv st)) (seq 0 (NumField t)) s)
    as (k & e & Hk & He & Hce & Hpanic).
  - intros i [_ Hi]%elem_of_seq. by apply lookup_lt_is_Some_2.
  - done.
  - intros i g Hi Hg Hcg. split.
    + by apply (Behold_setup_free _ _ _ _ _ _ Hs Hp i g).
    + destruct (list_elem_of_lookup_1 _ _ Hi) as [j Hj].
      destruct (seq_lookup_Some _ _ _ Hj) as [-> Hlt].
      assert (is_Some (cs !! j)) as [c Hc].
      { apply lookup_lt_is_Some. by rewrite (setup_run_length _ _ _ _ _ _ Hrun), length_seq. }
      destruct (setup_run_containers _ _ _ _ _ _ Hrun j j c Hj Hc) as (g' & Hg' & H).
      assert (g' = g) as -> by congruence. rewrite Hcg in H.
      destruct H as (Hn & Hb & _).
      pose proof (setup_run_registered _ _ _ _ _ _ Hrun Hp j c Hc Hn) as Hr.
      rewrite Hb in Hr. simpl in Hr. unfold flagNameOf. simpl. by rewrite Hr.
  - exists index, f. split; [|done]. apply elem_of_seq.
    apply lookup_lt_Some in Hf. unfold NumField. lia.
  - eexists. unfold Behold, bind.
    rewrite (Behold_envFile_again st (loaded (dotenv st)) s Henv);
      [|subst s; simpl;
        by destruct (setup_run_same_process _ _ _ _ _ _ Hrun) as (_ & _ & -> & _)].
    by rewrite Hpanic.
Qed.

(** ** The values the struct held before the pass *)

Lemma after_New_with_object c index o st :
  after_New c index (with_object o st)
  = with_object (match c with
                 | any_nil => o
                 | _ => <[index := any_GetDefaultValue c]> o
                 end) (after_New c index st).
Proof.
  destruct c; try done;
    unfold after_New, flag_Parsed; simpl; by destruct (parsed (CommandLine st)).
Qed.

Lemma New_with_object t index envFile st c err st' o :
  New t index envFile st = Ok ((c, err), st') ->
  exists o', New t index envFile (with_object o st) = Ok ((c, err), with_object o' st').
Proof.
  intros HN. destruct (New_Ok_closed _ _ _ _ _ _ _ HN) as (f & Hf & Hc & -> & Hfacts).
  destruct (constructible f) eqn:Hcon.
  - destruct (Hfacts eq_refl) as (Hn & -> & Hb & Hreg).
    destruct (New_constructs t index f envFile (with_object o st) Hf Hcon Hb Hreg)
      as [_ HN'].
    change (flag_Parsed (with_object o st)) with (flag_Parsed st) in HN'.
    rewrite <- Hc, after_New_with_object in HN'. by eexists.
  - subst c. rewrite (New_fails t index f envFile st Hf Hcon) in HN.
    assert (err = Some (New_error f)) as -> by congruence.
    exists o. by rewrite (New_fails t index f envFile _ Hf Hcon).
Qed.

Lemma Behold_setup_with_object t envFile indices st cs st' o :
  Behold_setup t envFile indices st = Ok (cs, st') ->
  exists o', Behold_setup t envFile indices (with_object o st)
             = Ok (cs, with_object o' st').
Proof.
  revert st cs st' o. induction indices as [|a rest IH]; intros st cs st' o Hs; simpl in *.
  - apply ret_Ok in Hs as [-> ->]. by exists o.
  - apply bind_Ok in Hs as ([c err] & s1 & HN & Hs).
    apply bind_Ok in Hs as (cs' & s2 & Hrest & Hret).
    apply ret_Ok in Hret as [-> ->].
    destruct (New_with_object _ _ _ _ _ _ _ o HN) as (o1 & HN1).
    destruct (IH _ _ _ o1 Hrest) as (o2 & Hrest2).
    exists o2. unfold bind. by rewrite HN1, Hrest2.
Qed.

Lemma Behold_parse_with_object st st' o :
  Behold_parse st = Ok (tt, st') ->
  Behold_parse (with_object o st) = Ok (tt, with_object o st').
Proof.
  unfold Behold_parse, bind, gets, flag_Parse. simpl.
  change (flag_Parsed (with_object o st)) with (flag_Parsed st).
  destruct ((1 <? Z.of_nat (length (os_Args st))) && negb (flag_Parsed st)).
  - destruct (FlagSet_Parse _ _) as [[e f]|msg|code]; try done.
    by intros [= <-].
  - by intros [_ ->]%ret_Ok.
Qed.

Lemma Behold_containers_with_object t st cs s3 o :
  Behold_containers t st = Ok (cs, s3) ->
  exists o', Behold_containers t (with_object o st) = Ok (cs, with_object o' s3).
Proof.
  intros Hcs. pose proof (Behold_envFile_run _ _ _ _ Hcs) as Henv.
  unfold Behold_containers in Hcs.
  apply bind_Ok in Hcs as (m & s0 & He & Hcs).
  apply Behold_envFile_Ok in He as [-> ->].
  apply bind_Ok in Hcs as (cs0 & s2 & Hs & Hcs).
  apply bind_Ok in Hcs as ([] & s3' & Hparse & Hret).
  apply ret_Ok in Hret as [E1 E2]. subst cs0 s3'.
  destruct (Behold_setup_with_object _ _ _ _ _ _ o Hs) as (o' & Hs').
  exists o'. unfold Behold_containers, bind.
  rewrite (Behold_envFile_again st (loaded (dotenv st)) (with_object o st) Henv) by done.
  by rewrite Hs', (Behold_parse_with_object _ _ o' Hparse).
Qed.

(** A pass on a struct that holds other values. *)
Lemma Behold_on_presets t st st1 o :
  Behold t st = Ok (tt, st1) ->
  length (object st) = NumField t -> length o = NumField t ->
  exists st2,
    Behold t (with_object o st) = Ok (tt, st2)
    /\ CommandLine st2 = CommandLine st1
    /\ forall index f, t !! index = Some f ->
         object st2 !! index
         = if constructible f then object st1 !! index else o !! index.
Proof.
  intros HB Hlen Hlo.
  destruct (Behold_Ok _ _ _ HB) as (cs & s3 & Hcs & Happ).
  destruct (Behold_containers_with_object _ _ _ _ o Hcs) as (o' & Hcs2).
  destruct (Behold_containers_Ok _ _ _ _ Hcs) as (s2 & Hrun & _).
  destruct (Behold_apply_run cs (with_object o' s3)) as (st2 & Happ2).
  { by eapply setup_containers_kinded. }
  pose proof (Behold_run _ _ _ _ _ Hcs2 Happ2) as HB2.
  exists st2. split; [done|].
  apply Behold_apply_Ok in Happ as E1. apply Behold_apply_Ok in Happ2 as E2.
  split; [by subst|].
  intros index f Hf. destruct (constructible f) eqn:Hcon.
  - destruct (Behold_field_resolved t st st1 index f Hlen HB Hf Hcon)
      as (cs1 & s1 & c1 & Hc1 & Hl1 & _ & _ & _ & ->).
    destruct (Behold_field_resolved t (with_object o st) st2 index f Hlo HB2 Hf Hcon)
      as (cs2' & s2' & c2 & Hc2 & Hl2 & _ & _ & _ & ->).
    assert (c2 = c1) as -> by congruence.
    f_equal. apply resolved_ext; by subst.
  - by rewrite (Behold_field_kept t (with_object o st) st2 index f HB2 Hf Hcon).
Qed.

(** X12: what a resolvable field held before the pass has no effect: on a
    struct with any other values the pass ends normally as well, leaves the
    flag set the same, and gives every constructible field the same value;
    the other fields keep the values they had. *)
Theorem Behold_overwrites_presets t st st1 o :
  Behold t st = Ok (tt, st1) ->
  length (object st) = NumField t -> length o = NumField t ->
  exists st2,
    Behold t (with_object o st) = Ok (tt, st2)
    /\ CommandLine st2 = CommandLine st1
    /\ forall index f, t !! index = Some f ->
         object st2 !! index
         = if constructible f then object st1 !! index else o !! index.
Proof. apply Behold_on_presets. Qed.

(** ** A flag given on the command line *)






(** ** The accessors on values that do not parse *)

Lemma GetEnvValue_empty c st :
  environ st !! envName (any_base c) = Some "" -> snd (any_GetEnvValue c st) = false.
Proof.
  intros E. destruct c; simpl in *; try done;
    unfold BoolContainer_GetEnvValue, IntContainer_GetEnvValue,
      Float64Container_GetEnvValue, StringContainer_GetEnvValue,
      TimeContainer_GetEnvValue, os_Getenv; by rewrite E.
Qed.

Lemma GetEnvValue_malformed c st v :
  environ st !! envName (any_base c) = Some v -> parse_fails c v ->
  snd (any_GetEnvValue c st) = false.
Proof.
  intros E Hv. destruct c; simpl in *; try done;
    unfold BoolContainer_GetEnvValue, IntContainer_GetEnvValue,
      Float64Container_GetEnvValue, os_Getenv; rewrite E; simpl;
    destruct (negb (String.eqb v "")); try done.
  - by destruct (strconv_ParseBool v) as [r [e|]].
  - by destruct (strconv_Atoi v) as [r [e|]].
  - by destruct (strconv_ParseFloat v) as [r [e|]].
Qed.

Lemma GetEnvFileValue_malformed c v :
  envFile (any_base c) !! envName (any_base c) = Some v -> parse_fails c v ->
  snd (any_GetEnvFileValue c) = false.
Proof.
  intros E Hv. destruct c; simpl in *; try done;
    unfold BoolContainer_GetEnvFileValue, IntContainer_GetEnvFileValue,
      Float64Container_GetEnvFileValue; rewrite E.
  - by destruct (strconv_ParseBool v) as [r [e|]].
  - by destruct (strconv_Atoi v) as [r [e|]].
  - by destruct (strconv_ParseFloat v) as [r [e|]].
Qed.

(** The field of a container whose three sources are absent holds the
    default. *)
Lemma field_default_when_absent t st st' cs st1 index c :
  length (object st) = NumField t ->
  Behold_containers t st = Ok (cs, st1) ->
  Behold t st = Ok (tt, st') ->
  cs !! index = Some c -> c <> any_nil ->
  snd (any_GetEnvValue c st) = false ->
  snd (any_GetEnvFileValue c) = false ->
  unmentioned (flagName (any_base c)) (tail (os_Args st)) = true
    \/ snd (any_GetFlagValue c st') = false ->
  object st' !! index = Some (any_GetDefaultValue c).
Proof.
  intros Hlen Hcs HB Hc Hn Henv Hfile Hflag.
  destruct (containers_of _ _ _ _ _ _ Hcs Hc) as (f & Hf & Hcon).
  destruct (constructible f) eqn:Hcf; [|done].
  destruct (Behold_field_resolved t st st' index f Hlen HB Hf Hcf)
    as (cs' & st1' & c' & Hcs' & Hc' & _ & _ & _ & Hres).
  assert (cs' = cs /\ st1' = st1) as [-> ->] by (split; congruence).
  assert (c' = c) as -> by congruence.
  rewrite Hres. f_equal. unfold resolved, byPrecedence.
  destruct (Behold_object _ _ _ HB) as (cs2 & st2 & Hcs2 & Hst').
  assert (cs2 = cs /\ st2 = st1) as [-> ->] by (split; congruence).
  destruct (containers_same_process _ _ _ _ Hcs) as (E1 & _).
  assert (environ st' = environ st) as Eenv by (subst st'; simpl; congruence).
  assert (CommandLine st' = CommandLine st1) as Ecl by (by subst st').
  rewrite Hfile, (any_GetEnvValue_ext c st' st Eenv), Henv.
  rewrite (any_GetFlagValue_ext c st' st1 Ecl) in Hflag |- *.
  destruct Hflag as [Hu|Hu].
  - destruct (unmentioned_flag _ _ _ _ _ _ Hcs Hc Hn Hu) as [_ [->| ->]]; [done|].
    by destruct (snd (any_GetFlagValue c st1)).
  - by rewrite Hu.
Qed.

(** X14: for a field [container.New] builds a container for, a value of
    the environment or of the env file that does not parse as the type of a
    bool, int or float64 field counts as not set, and so does an empty value
    of the environment for a field of any type: with no flag override, the
    field holds the parsed default after the pass. *)
Theorem Behold_ignores_malformed t st st' cs st1 index c :
  length (object st) = NumField t ->
  Behold_containers t st = Ok (cs, st1) ->
  Behold t st = Ok (tt, st') ->
  cs !! index = Some c -> c <> any_nil ->
  (environ st !! envName (any_base c) = None
   \/ environ st !! envName (any_base c) = Some ""
   \/ exists v, environ st !! envName (any_base c) = Some v /\ parse_fails c v) ->
  (envFile (any_base c) !! envName (any_base c) = None
   \/ exists v, envFile (any_base c) !! envName (any_base c) = Some v
                /\ parse_fails c v) ->
  unmentioned (flagName (any_base c)) (tail (os_Args st)) = true
    \/ snd (any_GetFlagValue c st') = false ->
  object st' !! index = Some (any_GetDefaultValue c).
Proof.
  intros Hlen Hcs HB Hc Hn Henv Hfile Hflag.
  apply (field_default_when_absent t st st' cs st1 index c); try done.
  - destruct Henv as [E|[E|(v & E & Hv)]].
    + by apply GetEnvValue_unset.
    + by apply GetEnvValue_empty.
    + by eapply GetEnvValue_malformed.
  - destruct Hfile as [E|(v & E & Hv)].
    + by apply GetEnvFileValue_missing.
    + by eapply GetEnvFileValue_malformed.
Qed.

(** ** The flag accessor of a boolean field *)

(** X3: a boolean flag can only flip the default: when [GetFlagValue]
    reports a value, it is the negation of the default; a boolean flag set
    to the default's own value is reported absent. *)
Theorem BoolContainer_flag_flips (c : BoolContainer) (st : State) :
  (snd (BoolContainer_GetFlagValue c st) = true ->
   fst (BoolContainer_GetFlagValue c st) = negb (BoolContainer_GetDefaultValue c))
  /\ (forall p, Bool_flagValue c = Some p ->
        load_bool p st = BoolContainer_GetDefaultValue c ->
        BoolContainer_GetFlagValue c st = (false, false)).
Proof.
  unfold BoolContainer_GetFlagValue. split.
  - destruct (Bool_flagValue c) as [p|]; [|done].
    by destruct (load_bool p st), (BoolContainer_GetDefaultValue c).
  - intros p -> ->. by destruct (BoolContainer_GetDefaultValue c).
Qed.

(** ** The writes of [applyValueWithPrecedence] *)

(** X4: [applyValueWithPrecedence], reached through the type switch of
    [Behold], changes nothing but the field of its container: the
    environment, the arguments, the env file, the flag set and every other
    field stay as they were; and when none of the three sources is present
    it writes nothing at all. *)
Theorem applyValueWithPrecedence_frame c st st' :
  Behold_switch c st = Ok (tt, st') ->
  environ st' = environ st /\ os_Args st' = os_Args st /\ dotenv st' = dotenv st
  /\ CommandLine st' = CommandLine st
  /\ length (object st') = length (object st)
  /\ (forall i, i <> fieldValue (any_base c) -> object st' !! i = object st !! i)
  /\ (snd (any_GetEnvValue c st) = false -> snd (any_GetEnvFileValue c) = false ->
      snd (any_GetFlagValue c st) = false -> st' = st).
Proof.
  intros ->%Behold_switch_Ok. repeat split; simpl.
  - apply writes_length.
  - intros i Hi. by apply writes_other.
  - intros E1 E2 E3. unfold writes. rewrite E1, E2, E3. by destruct st.
Qed.

(** ** The flag set after a pass *)

Lemma parseOne_dom f s next :
  match FlagSet_parseOne f s next with
  | parseOne_seen f' _ | parseOne_failed f' _ _ =>
      forall name, is_Some (formal f !! name) -> is_Some (formal f' !! name)
  | parseOne_stop => True
  end.
Proof.
  unfold FlagSet_parseOne.
  destruct (parseOne_syntax s) as [| |name value]; [done|done|].
  destruct (formal f !! name) as [cell|] eqn:E.
  - destruct (IsBoolFlag cell).
    + destruct (Value_Set cell _) as [cell' [e|]]; simpl; intros n Hn;
        apply lookup_insert_is_Some'; by right.
    + destruct value as [v|]; [|destruct next as [v|]; simpl; [|done]];
        destruct (Value_Set cell v) as [cell' [e|]]; simpl; intros n Hn;
        apply lookup_insert_is_Some'; by right.
  - by destruct (String.eqb name "help" || String.eqb name "h").
Qed.

Lemma parseLoop_dom args :
  forall f f' e, FlagSet_parseLoop f args = (f', e) ->
    forall name, is_Some (formal f !! name) -> is_Some (formal f' !! name).
Proof.
  remember (length args) as n eqn:Hlen. revert args Hlen.
  induction n as [n IH] using lt_wf_ind. intros args Hlen f f' e H name Hn.
  destruct args as [|s rest]; simpl in H.
  { by injection H as <- _. }
  pose proof (parseOne_dom f s (head rest)) as Hd.
  simpl in Hlen.
  destruct (FlagSet_parseOne f s (head rest)) as [f1 [|]| |f1 err help].
  - destruct rest as [|x rest'].
    + injection H as <- _. by apply Hd.
    + apply (IH (length rest') ltac:(simpl in Hlen; lia) rest' eq_refl _ _ _ H).
      by apply Hd.
  - apply (IH (length rest) ltac:(lia) rest eq_refl _ _ _ H). by apply Hd.
  - by injection H as <- _.
  - injection H as <- _. by apply Hd.
Qed.

Lemma Behold_parse_dom st st' :
  Behold_parse st = Ok (tt, st') ->
  forall name, is_Some (formal (CommandLine st) !! name) ->
               is_Some (formal (CommandLine st') !! name).
Proof.
  unfold Behold_parse, bind, gets.
  destruct ((1 <? Z.of_nat (length (os_Args st))) && negb (flag_Parsed st));
    [|by intros [_ ->]%ret_Ok].
  unfold flag_Parse, FlagSet_Parse.
  destruct (FlagSet_parseLoop _ _) as [f' e] eqn:Hloop.
  intros H name Hn.
  assert (is_Some (formal f' !! name)) as Hf'
    by (by apply (parseLoop_dom _ _ _ _ Hloop)).
  destruct e as [[err help]|].
  - destruct (errorHandling (CommandLine st)); try done. by injection H as <-.
  - by injection H as <-.
Qed.

(** X5: [Behold] parses the command line only when there are arguments and
    no parse happened before: afterwards [flag.Parsed()] holds exactly if it
    held before or an argument was given.  When the flags were parsed
    before, the pass leaves the flag set as it was: it registers nothing. *)
Theorem Behold_parses_once t st st' :
  Behold t st = Ok (tt, st') ->
  flag_Parsed st' = flag_Parsed st || (1 <? Z.of_nat (length (os_Args st)))
  /\ (flag_Parsed st = true -> CommandLine st' = CommandLine st).
Proof.
  intros (cs & st1 & Hcs & ->)%Behold_object.
  destruct (containers_same_process _ _ _ _ Hcs) as (_ & _ & _ & _ & Hp & _).
  split; [done|]. intros Hq. simpl. by apply (containers_parsed _ _ _ _ Hcs).
Qed.

(** X6: after a pass that began with the flags not parsed, the flag of every
    constructible field is defined on [flag.CommandLine]; the flags that
    were defined before the pass are still defined. *)
Theorem Behold_registers_flags t st st' :
  Behold t st = Ok (tt, st') ->
  (flag_Parsed st = false ->
   forall index f, t !! index = Some f -> constructible f = true ->
     is_Some (formal (CommandLine st') !! flagNameOf f))
  /\ (forall name, is_Some (formal (CommandLine st) !! name) ->
        is_Some (formal (CommandLine st') !! name)).
Proof.
  intros (cs & st1 & Hcs & ->)%Behold_object. simpl.
  destruct (Behold_containers_Ok _ _ _ _ Hcs) as (s2 & Hrun & Hparse).
  split.
  - intros Hp index f Hf Hcon.
    destruct (containers_constructible _ _ _ _ _ _ Hcs Hf) as (c & Hc & Hn).
    rewrite Hcon in Hn.
    destruct (containers_of _ _ _ _ _ _ Hcs Hc) as (f' & Hf' & H).
    assert (f' = f) as -> by congruence. rewrite Hcon in H.
    destruct H as (_ & Hb & _).
    apply (Behold_parse_dom _ _ Hparse).
    pose proof (setup_run_registered _ _ _ _ _ _ Hrun Hp index c Hc Hn) as Hr.
    rewrite Hb in Hr. simpl in Hr. unfold flagNameOf. by rewrite Hr.
  - intros name [v Hv]. apply (Behold_parse_dom _ _ Hparse).
    by rewrite (setup_run_formal _ _ _ _ _ _ Hrun name v Hv).
Qed.

(** ** The constructors: what a successful call leaves *)

(** X7: for a settable field of one of the five types that declares a flag
    name, [New] returns a container of the field's type and no error, and
    leaves the parsed default in the field and every other field as it was.
    When the flags were not parsed it registers the flag (the name must be
    accepted by [flag.Var] and free), with the parsed default as its value
    (for a timestamp the default string), and touches no other flag; when
    they were parsed it leaves the flag set alone and the container has no
    flag value. *)
Theorem New_builds t index f envFile st :
  t !! index = Some f -> constructible f = true -> basic (Type_ f) ->
  (index < length (object st))%nat ->
  (flag_Parsed st = false ->
     flag_name_ok (flagNameOf f) = true
     /\ formal (CommandLine st) !! flagNameOf f = None) ->
  exists c st',
    New t index envFile st = Ok ((c, None), st')
    /\ c <> any_nil /\ any_base c = baseOf f index envFile /\ any_kind c = Type_ f
    /\ object st' !! index = Some (any_GetDefaultValue c)
    /\ (forall i, i <> index -> object st' !! i = object st !! i)
    /\ environ st' = environ st /\ os_Args st' = os_Args st
    /\ flag_Parsed st' = flag_Parsed st
    /\ (if flag_Parsed st
        then any_flagValue c = None /\ CommandLine st' = CommandLine st
        else any_flagValue c = Some (flagNameOf f)
             /\ formal (CommandLine st') !! flagNameOf f = Some (any_cell c)
             /\ forall name, name <> flagNameOf f ->
                  formal (CommandLine st') !! name = formal (CommandLine st) !! name).
Proof.
  intros Hf Hcon Hb Hlt Hreg.
  destruct (New_constructs t index f envFile st Hf Hcon Hb Hreg) as [Hn HN].
  set (c := container_for f index envFile (flag_Parsed st)) in *.
  assert (any_base c = baseOf f index envFile) as Hbase
    by (subst c; unfold container_for; by destruct (Type_ f)).
  assert (flagName (any_base c) = flagNameOf f) as Hname by (by rewrite Hbase).
  exists c, (after_New c index st). split; [done|]. split; [done|]. split; [done|].
  split; [subst c; unfold container_for; by destruct (Type_ f)|].
  split; [by apply after_New_default|].
  split; [intros i Hi; by apply after_New_other|].
  destruct (after_New_same_process c index st) as (E1 & E2 & _).
  split; [done|]. split; [done|]. split; [apply after_New_unparsed|].
  destruct (flag_Parsed st) eqn:Hp.
  - split; [|by apply after_New_parsed].
    subst c; unfold container_for; by destruct (Type_ f).
  - split; [subst c; unfold container_for; by destruct (Type_ f)|].
    split; [rewrite <- Hname; by apply after_New_registered|].
    intros name Hne. rewrite <- Hname in Hne.
    unfold after_New. destruct c; try done; simpl in *; rewrite Hp; simpl;
      by rewrite lookup_insert_ne.
Qed.

(** ** A value of the environment or of the env file *)

Lemma GetEnvValue_reads c st v x :
  environ st !! envName (any_base c) = Some v -> v <> "" -> reads c v x ->
  any_GetEnvValue c st = (x, true).
Proof.
  intros E Hv Hr.
  assert (negb (String.eqb v "") = true) as Hnz.
  { apply negb_true_iff. by destruct (String.eqb_spec v ""). }
  destruct c; simpl in *; try done;
    unfold BoolContainer_GetEnvValue, IntContainer_GetEnvValue,
      Float64Container_GetEnvValue, StringContainer_GetEnvValue,
      TimeContainer_GetEnvValue, os_Getenv; rewrite E; simpl; rewrite Hnz.
  - destruct Hr as (b & -> & ->). done.
  - destruct Hr as (n & -> & ->). done.
  - destruct Hr as (r & -> & ->). done.
  - by subst x.
  - by destruct Hr as [_ ->].
Qed.

Lemma GetEnvFileValue_reads c v x :
  envFile (any_base c) !! envName (any_base c) = Some v -> reads c v x ->
  any_GetEnvFileValue c = (x, true).
Proof.
  intros E Hr.
  destruct c; simpl in *; try done;
    unfold BoolContainer_GetEnvFileValue, IntContainer_GetEnvFileValue,
      Float64Container_GetEnvFileValue, StringContainer_GetEnvFileValue,
      TimeContainer_GetEnvFileValue; rewrite E.
  - destruct Hr as (b & -> & ->). done.
  - destruct Hr as (n & -> & ->). done.
  - destruct Hr as (r & -> & ->). done.
  - by subst x.
  - by destruct Hr as [_ ->].
Qed.

(** X15: with no flag override, a value of the env file that the
    container's accessor reads is what the field holds after the pass,
    whatever the environment says; and when the env file has no entry, a
    non-empty value of the environment that the accessor reads is.  (No
    flag override: the flag value is absent, which is the case when the
    command line does not name the flag and the default is not NaN.) *)
Theorem Behold_reads_env t st st' cs st1 index c :
  length (object st) = NumField t ->
  Behold_containers t st = Ok (cs, st1) ->
  Behold t st = Ok (tt, st') ->
  cs !! index = Some c -> c <> any_nil ->
  (unmentioned (flagName (any_base c)) (tail (os_Args st)) = true
   /\ default_not_NaN c)
    \/ snd (any_GetFlagValue c st') = false ->
  (forall v x, envFile (any_base c) !! envName (any_base c) = Some v ->
     reads c v x -> object st' !! index = Some x)
  /\ (forall v x, envFile (any_base c) !! envName (any_base c) = None ->
        environ st !! envName (any_base c) = Some v -> v <> "" ->
        reads c v x -> object st' !! index = Some x).
Proof.
  intros Hlen Hcs HB Hc Hn Hflag.
  destruct (containers_of _ _ _ _ _ _ Hcs Hc) as (f & Hf & Hcon).
  destruct (constructible f) eqn:Hcf; [|done].
  destruct (Behold_field_resolved t st st' index f Hlen HB Hf Hcf)
    as (cs' & st1' & c' & Hcs' & Hc' & _ & _ & _ & Hres).
  assert (cs' = cs /\ st1' = st1) as [-> ->] by (split; congruence).
  assert (c' = c) as -> by congruence.
  destruct (Behold_object _ _ _ HB) as (cs2 & st2 & Hcs2 & Hst').
  assert (cs2 = cs /\ st2 = st1) as [-> ->] by (split; congruence).
  destruct (containers_same_process _ _ _ _ Hcs) as (E1 & _).
  assert (environ st' = environ st) as Eenv by (subst st'; simpl; congruence).
  assert (CommandLine st' = CommandLine st1) as Ecl by (by subst st').
  assert (snd (any_GetFlagValue c st') = false) as Habs.
  { destruct Hflag as [[Hu Hnan]|Hu]; [|done].
    rewrite (any_GetFlagValue_ext c st' st1 Ecl).
    destruct (unmentioned_flag _ _ _ _ _ _ Hcs Hc Hn Hu) as [H _]. by apply H. }
  rewrite Hres. unfold resolved, byPrecedence. rewrite Habs.
  split.
  - intros v x Efile Hr. by rewrite (GetEnvFileValue_reads c v x Efile Hr).
  - intros v x Efile Eenv' Hv Hr.
    rewrite (GetEnvFileValue_missing c Efile).
    rewrite (any_GetEnvValue_ext c st' st Eenv).
    by rewrite (GetEnvValue_reads c st v x Eenv' Hv Hr).
Qed.

(** ** A pass after the flags were parsed *)

Lemma State_eq (s1 s2 : State) :
  environ s1 = environ s2 -> os_Args s1 = os_Args s2 -> dotenv s1 = dotenv s2 ->
  CommandLine s1 = CommandLine s2 -> object s1 = object s2 -> s1 = s2.
Proof. destruct s1, s2; simpl; by intros -> -> -> -> ->. Qed.

(** X16: when the flags were parsed already before a pass began (by the
    application, or by an earlier pass), a second pass on the struct that
    pass has filled ends normally and changes nothing.  (A pass that parses
    the flags itself is not covered: its flag values are lost to the next
    one.) *)
Theorem Behold_idempotent_once_parsed t st st1 :
  flag_Parsed st = true ->
  length (object st) = NumField t ->
  Behold t st = Ok (tt, st1) ->
  Behold t st1 = Ok (tt, st1).
Proof.
  intros Hp Hlen HB.
  assert (length (object st1) = NumField t) as Hlen1.
  { destruct (Behold_object _ _ _ HB) as (cs & s3 & Hcs & ->). simpl.
    rewrite apply_all_length.
    by destruct (containers_same_process _ _ _ _ Hcs) as (_&_&_&_&_&->). }
  destruct (Behold_on_presets t st st1 (object st1) HB Hlen Hlen1)
    as (st2 & HB2 & Hcl & Hval).
  assert (st1 = with_object (object st1) st) as E1.
  { destruct (Behold_object _ _ _ HB) as (cs & s3 & Hcs & Hst1).
    destruct (containers_same_process _ _ _ _ Hcs) as (Ee & Ea & Ed & _).
    pose proof (containers_parsed _ _ _ _ Hcs Hp) as Ec.
    apply State_eq; subst st1; simpl; congruence. }
  rewrite <- E1 in HB2. rewrite HB2. do 2 f_equal.
  destruct (Behold_object _ _ _ HB2) as (cs & s3 & Hcs & Hst2).
  destruct (containers_same_process _ _ _ _ Hcs) as (Ee & Ea & Ed & _ & _ & Hl).
  apply State_eq.
  - subst st2. simpl. congruence.
  - subst st2. simpl. congruence.
  - subst st2. simpl. congruence.
  - done.
  - apply list_eq. intros i.
    destruct (t !! i) as [f|] eqn:Hf.
    + rewrite (Hval i f Hf). by destruct (constructible f).
    + apply lookup_ge_None in Hf.
      rewrite !(proj2 (lookup_ge_None _ _)); [done| |].
      * unfold NumField in Hlen1. lia.
      * subst st2. simpl. rewrite apply_all_length, Hl. unfold NumField in Hlen1. lia.
Qed.

(** ** A flag no field declares *)

Lemma after_New_formal_other c index st name :
  name <> flagName (any_base c) ->
  formal (CommandLine (after_New c index st)) !! name = formal (CommandLine st) !! name.
Proof.
  intros Hne. unfold after_New.
  destruct c; try done; simpl in *; destruct (flag_Parsed st); simpl; try done;
    by rewrite lookup_insert_ne.
Qed.

Lemma setup_run_formal_other t envFile indices st cs st' name :
  setup_run t envFile indices st cs st' ->
  (forall c, c ∈ cs -> c <> any_nil -> flagName (any_base c) <> name) ->
  formal (CommandLine st') !! name = formal (CommandLine st) !! name.
Proof.
  induction 1 as [|index rest st c cs st' Hc Hfree Hrun IH]; intros Hother; [done|].
  rewrite IH by (intros c' Hc'; apply Hother; by right).
  destruct (any_nil_dec c) as [->|Hn]; [done|].
  apply after_New_formal_other. intros E.
  by apply (Hother c ltac:(by left) Hn).
Qed.

Lemma setup_containers_declared t envFile st cs st' :
  setup_run t envFile (seq 0 (NumField t)) st cs st' ->
  forall c, c ∈ cs -> c <> any_nil -> flagName (any_base c) ∈ declared_flags t.
Proof.
  intros Hrun c [j Hj]%list_elem_of_lookup Hn.
  assert (is_Some (seq 0 (NumField t) !! j)) as [index Hi].
  { apply lookup_lt_is_Some. rewrite <- (setup_run_length _ _ _ _ _ _ Hrun).
    by eapply lookup_lt_Some. }
  destruct (setup_run_containers _ _ _ _ _ _ Hrun j index c Hi Hj) as (f & Hf & H).
  destruct (constructible f) eqn:Hcon; [|done].
  destruct H as (_ & Hb & _). rewrite Hb. simpl.
  by apply (declared_flags_elem t index f).
Qed.

(** X17: with [flag.CommandLine] in its default mode, a first argument that
    names a flag no field declares (and nobody defined) ends the process
    inside [Behold]: with status 0 when the name is "help" or "h", with
    status 2 otherwise.  No field receives its sources' values. *)
Theorem Behold_undefined_flag_exits t st prog arg rest name value :
  dotenv_ok (dotenv st) = true ->
  fields_typed t = true ->
  flag_Parsed st = false ->
  flags_registrable t (CommandLine st) = true ->
  errorHandling (CommandLine st) = ExitOnError ->
  os_Args st = prog :: arg :: rest ->
  parseOne_syntax arg = arg_flag name value ->
  name ∉ declared_flags t ->
  formal (CommandLine st) !! name = None ->
  Behold t st
  = Exit (if String.eqb name "help" || String.eqb name "h" then 0 else 2).
Proof.
  intros Henv Hty Hp Hreg He Hargs Hsyn Hnd Hfree.
  destruct (Behold_setup_returns t (loaded (dotenv st)) st Hty (fun _ => Hreg))
    as (cs & s2 & Hs).
  pose proof (Behold_setup_run _ _ _ _ _ _ Hs) as Hrun.
  destruct (setup_run_same_process _ _ _ _ _ _ Hrun) as (_ & Ha & _ & Hq & _ & He2).
  assert (formal (CommandLine s2) !! name = None) as Hfree2.
  { rewrite (setup_run_formal_other _ _ _ _ _ _ name Hrun); [done|].
    intros c Hc Hn E. apply Hnd. rewrite <- E.
    by apply (setup_containers_declared _ _ _ _ _ Hrun). }
  unfold Behold, bind. rewrite (Behold_envFile_ok st Henv), Hs.
  unfold Behold_parse, bind, gets, flag_Parsed. rewrite Hq, Ha, Hargs.
  unfold flag_Parsed in Hp. rewrite Hp.
  assert ((1 <? Z.of_nat (length (prog :: arg :: rest))) = true) as ->
    by (apply Z.ltb_lt; simpl length; lia).
  cbn [negb andb].
  unfold flag_Parse, FlagSet_Parse. rewrite Ha, Hargs. cbn [tail FlagSet_parseLoop].
  unfold FlagSet_parseOne. rewrite Hsyn. cbn [FlagSet_setParsed formal].
  rewrite Hfree2, He2, He.
  by destruct (String.eqb name "help" || String.eqb name "h").
Qed.

End Configinator.

(** * The examples: the model run with the library models of [GoLib] *)

Abbreviation go_Behold := (Behold GoLib.strconv_ParseFloat GoLib.time_Parse).
Abbreviation go_containers :=
  (Behold_containers GoLib.strconv_ParseFloat GoLib.time_Parse).
Abbreviation go_GetFlagValue :=
  (any_GetFlagValue GoLib.strconv_ParseFloat GoLib.time_Parse).
Abbreviation go_GetEnvValue :=
  (any_GetEnvValue GoLib.strconv_ParseFloat GoLib.time_Parse).
Abbreviation go_GetEnvFileValue :=
  (any_GetEnvFileValue GoLib.strconv_ParseFloat GoLib.time_Parse).
Abbreviation go_GetDefaultValue :=
  (any_GetDefaultValue GoLib.strconv_ParseFloat GoLib.time_Parse).
Abbreviation go_New := (New GoLib.strconv_ParseFloat GoLib.time_Parse).
Abbreviation go_switch := (Behold_switch GoLib.strconv_ParseFloat GoLib.time_Parse).
Abbreviation go_cell := (any_cell GoLib.strconv_ParseFloat).

(** Counterexample to C1 as stated: [retries] is a declared field of a
    supported type, with a flag name, an environment name and a default; it is
    not exported.  RETRIES is 5 in the environment and 6 in the env file, the
    declared default is 3.  After the pass the field holds 0: none of the
    values the sources and the default give.  [c] is the container [New] would
    have built had the field been settable. *)
Lemma Behold_precedence_counterexample :
  let st := Sample.retriesSet in
  let st' := stateOf (go_Behold Sample.Partial st) st in
  let f := mkField "retries" TInt (Sample.tags "retries" "RETRIES" "3" "Retries") false in
  let c := any_Int (mkInt (baseOf f 3 (loaded (dotenv st))) None) in
  go_Behold Sample.Partial st = Ok (tt, st')
  /\ Sample.Partial !! 3%nat = Some f
  /\ supported (Type_ f) = true
  /\ go_GetDefaultValue c = VInt 3
  /\ go_GetEnvValue c st' = (VInt 5, true)
  /\ go_GetEnvFileValue c = (VInt 6, true)
  /\ object st' !! 3%nat = Some (VInt 0).
Proof.
  cbv zeta.
  split; [vm_compute; reflexivity|]. split; [reflexivity|].
  split; [vm_compute; reflexivity|]. split; [vm_compute; reflexivity|].
  split; [vm_compute; reflexivity|]. split; [vm_compute; reflexivity|].
  vm_compute; reflexivity.
Qed.

(** Witness of [Behold_precedence] (C1, amended): flag, env file and
    environment all give HOST; the flag wins. *)
Lemma Behold_precedence_witness :
  let st := Sample.allSources in
  let st' := stateOf (go_Behold Sample.TestConfig st) st in
  go_Behold Sample.TestConfig st = Ok (tt, st')
  /\ object st' !! 0%nat = Some (VString "flag.com:4000")
  /\ exists cs st1 c v,
       go_containers Sample.TestConfig st = Ok (cs, st1)
       /\ cs !! 0%nat = Some c /\ c <> any_nil
       /\ any_base c
          = baseOf (mkField "Host" TString
                      (Sample.tags "host" "HOST" "localhost:8080"
                                   "Host and port to bind to") true)
                   0 (loaded (dotenv st))
       /\ any_kind c = TString
       /\ object st' !! 0%nat = Some v
       /\ (snd (go_GetFlagValue c st') = true -> v = fst (go_GetFlagValue c st'))
       /\ (snd (go_GetFlagValue c st') = false ->
           snd (go_GetEnvFileValue c) = true -> v = fst (go_GetEnvFileValue c))
       /\ (snd (go_GetFlagValue c st') = false ->
           snd (go_GetEnvFileValue c) = false ->
           snd (go_GetEnvValue c st') = true -> v = fst (go_GetEnvValue c st'))
       /\ (snd (go_GetFlagValue c st') = false ->
           snd (go_GetEnvFileValue c) = false ->
           snd (go_GetEnvValue c st') = false -> v = go_GetDefaultValue c).
Proof.
  split; [vm_compute; reflexivity|]. split; [vm_compute; reflexivity|].
  apply (Behold_precedence GoLib.strconv_ParseFloat GoLib.time_Parse
           Sample.TestConfig Sample.allSources
           (stateOf (go_Behold Sample.TestConfig Sample.allSources) Sample.allSources)
           0%nat);
    [reflexivity | vm_compute; reflexivity | reflexivity | reflexivity].
Defined.

(** Counterexample to C2 as stated: the flag [-start=2023-01-01] is
    supplied and [FlagValue] reports it present, yet its parsed value is the
    computed default: the default "2023-01-01T00:00:00Z" is the same
    instant.  The comparison is between the strings. *)
Lemma FlagValue_time_counterexample :
  exists cs st1 c,
    go_containers Sample.TestConfig Sample.sameInstant = Ok (cs, st1)
    /\ cs !! 4%nat = Some (any_Time c)
    /\ supplied (flagName c) (os_Args Sample.sameInstant)
    /\ TimeContainer_GetFlagValue GoLib.time_Parse c st1
       = (TimeContainer_GetDefaultValue GoLib.time_Parse c, true).
Proof.
  eexists _, _, _. split; [vm_compute; reflexivity|].
  split; [reflexivity|]. split; [|vm_compute; reflexivity].
  exists "-start=2023-01-01". split; [|vm_compute; reflexivity].
  simpl. apply list_elem_of_here.
Qed.

(** Witness of [FlagValue_present_only_if] (C2, amended): the flag
    [-host=flag.com:4000]. *)
Lemma FlagValue_present_only_if_witness :
  let st := Sample.allSources in
  let cs := valueOf (go_containers Sample.TestConfig st) [] in
  let st1 := stateOf (go_containers Sample.TestConfig st) st in
  let c := default any_nil (cs !! 0%nat) in
  go_containers Sample.TestConfig st = Ok (cs, st1)
  /\ cs !! 0%nat = Some c
  /\ go_GetFlagValue c st1 = (VString "flag.com:4000", true)
  /\ flag_Parsed st = false
  /\ flag_differs GoLib.strconv_ParseFloat GoLib.time_Parse c st1
  /\ (default_not_NaN GoLib.strconv_ParseFloat c ->
      supplied (flagName (any_base c)) (os_Args st)).
Proof.
  split; [vm_compute; reflexivity|]. split; [vm_compute; reflexivity|].
  split; [vm_compute; reflexivity|].
  apply (FlagValue_present_only_if GoLib.strconv_ParseFloat GoLib.time_Parse
           Sample.TestConfig Sample.allSources
           (valueOf (go_containers Sample.TestConfig Sample.allSources) [])
           (stateOf (go_containers Sample.TestConfig Sample.allSources)
                    Sample.allSources)
           0%nat);
    [vm_compute; reflexivity | vm_compute; reflexivity | vm_compute; reflexivity].
Defined.

(** C3, the code at a failing input: START_TIME is set to a string no
    layout accepts; [TimeContainer.GetEnvValue] reports it present, with the
    zero timestamp, and the pass stores the zero timestamp over the parsed
    default. *)
Lemma TimeContainer_malformed_env_is_present :
  exists cs st1 c st',
    go_containers Sample.TestConfig Sample.badTime = Ok (cs, st1)
    /\ cs !! 4%nat = Some (any_Time c)
    /\ os_Getenv (envName c) st1 = "not-a-time"
    /\ no_layout_parses GoLib.time_Parse timeFormats "not-a-time"
    /\ TimeContainer_GetEnvValue GoLib.time_Parse c st1 = (Time_zero, true)
    /\ TimeContainer_GetDefaultValue GoLib.time_Parse c = mkTime 63808128000 0 UTC
    /\ go_Behold Sample.TestConfig Sample.badTime = Ok (tt, st')
    /\ object st' !! 4%nat = Some (VTime Time_zero).
Proof.
  eexists _, _, _, _. split; [vm_compute; reflexivity|].
  split; [reflexivity|]. split; [vm_compute; reflexivity|].
  split.
  { intros f Hf. unfold timeFormats in Hf.
    repeat (apply elem_of_cons in Hf as [->|Hf]; [by vm_compute|]).
    by apply elem_of_nil in Hf. }
  split; [vm_compute; reflexivity|]. split; [vm_compute; reflexivity|].
  split; [vm_compute; reflexivity|]. vm_compute; reflexivity.
Qed.

(** Counterexample to C4 as stated: HOST is mapped to the empty value in
    the env file and set to the empty value in the environment;
    [EnvFileValue] reports it present, [EnvValue] absent. *)
Lemma EnvFileValue_empty_counterexample :
  exists cs st1 c,
    go_containers Sample.TestConfig Sample.emptyHost = Ok (cs, st1)
    /\ cs !! 0%nat = Some (any_String c)
    /\ envFile c !! envName c = Some ""
    /\ environ st1 !! envName c = Some ""
    /\ StringContainer_GetEnvFileValue c = ("", true)
    /\ StringContainer_GetEnvValue c st1 = ("", false).
Proof.
  eexists _, _, _. split; [vm_compute; reflexivity|].
  split; [reflexivity|]. repeat split; vm_compute; reflexivity.
Qed.

(** Witness of [EnvFileValue_rules] (C4, amended): PORT is 7777 in the env
    file and in the environment. *)
Lemma EnvFileValue_rules_witness :
  let file : gmap string string := list_to_map [("PORT", "7777")] in
  let st := Sample.process ["test"] [("PORT", "7777")] (Readable file) Sample.TestConfig in
  let c := any_Int (mkInt (baseOf (mkField "Port" TInt
                                     (Sample.tags "port" "PORT" "9000" "Port number") true)
                                  1 file) None) in
  envFile (any_base c) !! envName (any_base c) = Some "7777"
  /\ environ st !! envName (any_base c) = Some "7777"
  /\ any_GetEnvFileValue GoLib.strconv_ParseFloat GoLib.time_Parse c
     = any_GetEnvValue GoLib.strconv_ParseFloat GoLib.time_Parse c st
  /\ any_GetEnvFileValue GoLib.strconv_ParseFloat GoLib.time_Parse c = (VInt 7777, true).
Proof.
  split; [vm_compute; reflexivity|]. split; [vm_compute; reflexivity|].
  split; [|vm_compute; reflexivity].
  apply (proj1 (proj2 (EnvFileValue_rules GoLib.strconv_ParseFloat GoLib.time_Parse
                         _ _)) "7777");
    [vm_compute; reflexivity | discriminate | vm_compute; reflexivity].
Defined.

(** Counterexample to C5 as stated: a struct with a field without a flag
    name, a field of an unsupported type and a private field; the pass ends
    normally, no error reaches the caller, and the three fields are as they
    were. *)
Lemma Behold_completes_counterexample :
  exists st',
    go_Behold Sample.Partial (Sample.bare Sample.Partial) = Ok (tt, st')
    /\ Forall (fun f => constructible f = false) (drop 1 Sample.Partial)
    /\ object st' = [VString "localhost:8080"; VInt 0; VOpaque; VInt 0].
Proof.
  eexists. split; [vm_compute; reflexivity|].
  split; [|vm_compute; reflexivity].
  repeat constructor.
Qed.

(** Witness of [New_error_dropped] (C5, amended): the field without a flag
    name. *)
Lemma New_error_dropped_witness :
  let st := Sample.bare Sample.Partial in
  let f := mkField "Secret" TInt [("env", "SECRET"); ("default", "7")] true in
  Sample.Partial !! 1%nat = Some f /\ constructible f = false
  /\ New_error f = "no flag name"
  /\ New GoLib.strconv_ParseFloat GoLib.time_Parse Sample.Partial 1 ∅ st
     = Ok ((any_nil, Some (New_error f)), st)
  /\ Behold_setup GoLib.strconv_ParseFloat GoLib.time_Parse Sample.Partial ∅ [1%nat; 2%nat] st
     = (let* containers := Behold_setup GoLib.strconv_ParseFloat GoLib.time_Parse
                             Sample.Partial ∅ [2%nat] in
        ret (any_nil :: containers)) st.
Proof.
  split; [reflexivity|]. split; [reflexivity|]. split; [reflexivity|].
  apply (New_error_dropped GoLib.strconv_ParseFloat GoLib.time_Parse
           Sample.Partial 1%nat); reflexivity.
Defined.

(** Counterexample to C6 as stated: [Secret] is an exported int field with
    the default "7" and no flag name.  No environment variable is set, there
    is no env file and no flag; after the pass the field holds 0, not the
    parsed default 7.  [c] is the container [New] would have built had the
    field declared a flag name. *)
Lemma Behold_default_counterexample :
  let st := Sample.bare Sample.Partial in
  let st' := stateOf (go_Behold Sample.Partial st) st in
  let f := mkField "Secret" TInt [("env", "SECRET"); ("default", "7")] true in
  let c := any_Int (mkInt (baseOf f 1 (loaded (dotenv st))) None) in
  go_Behold Sample.Partial st = Ok (tt, st')
  /\ Sample.Partial !! 1%nat = Some f
  /\ supported (Type_ f) = true
  /\ environ st !! envName (any_base c) = None
  /\ dotenv st = NoFile
  /\ tail (os_Args st) = []
  /\ go_GetDefaultValue c = VInt 7
  /\ object st' !! 1%nat = Some (VInt 0).
Proof.
  cbv zeta.
  split; [vm_compute; reflexivity|]. split; [reflexivity|].
  split; [vm_compute; reflexivity|]. split; [vm_compute; reflexivity|].
  split; [reflexivity|]. split; [reflexivity|].
  split; [vm_compute; reflexivity|].
  vm_compute; reflexivity.
Qed.

(** Witness of [Behold_default] (C6, amended): no source is set; Port is
    the parsed default. *)
Lemma Behold_default_witness :
  let st := Sample.bare Sample.TestConfig in
  let cs := valueOf (go_containers Sample.TestConfig st) [] in
  let st1 := stateOf (go_containers Sample.TestConfig st) st in
  let st' := stateOf (go_Behold Sample.TestConfig st) st in
  let c := default any_nil (cs !! 1%nat) in
  go_Behold Sample.TestConfig st = Ok (tt, st')
  /\ environ st !! envName (any_base c) = None
  /\ envFile (any_base c) !! envName (any_base c) = None
  /\ unmentioned (flagName (any_base c)) (tail (os_Args st)) = true
  /\ go_GetDefaultValue c = VInt 9000
  /\ object st' !! 1%nat = Some (go_GetDefaultValue c).
Proof.
  split; [vm_compute; reflexivity|]. split; [vm_compute; reflexivity|].
  split; [vm_compute; reflexivity|]. split; [vm_compute; reflexivity|].
  split; [vm_compute; reflexivity|].
  apply (Behold_default GoLib.strconv_ParseFloat GoLib.time_Parse
           Sample.TestConfig (Sample.bare Sample.TestConfig)
           (stateOf (go_Behold Sample.TestConfig (Sample.bare Sample.TestConfig))
                    (Sample.bare Sample.TestConfig))
           (valueOf (go_containers Sample.TestConfig (Sample.bare Sample.TestConfig)) [])
           (stateOf (go_containers Sample.TestConfig (Sample.bare Sample.TestConfig))
                    (Sample.bare Sample.TestConfig))
           1%nat);
    [ reflexivity | vm_compute; reflexivity | vm_compute; reflexivity
    | vm_compute; reflexivity | vm_compute; discriminate | vm_compute; reflexivity
    | vm_compute; reflexivity | left; vm_compute; reflexivity ].
Defined.

(** Witness of [GetDefaultValue_parse_or_zero] (C7): a default that is not
    an integer. *)
Lemma GetDefaultValue_parse_or_zero_witness :
  let c := mkInt (mkBase "nine thousand" "Port number" ∅ "PORT"
                         (mkField "Port" TInt
                            (Sample.tags "port" "PORT" "nine thousand" "Port number") true)
                         "Port" 1 "port") None in
  snd (strconv_Atoi (defaultValue c)) <> None /\ IntContainer_GetDefaultValue c = 0.
Proof.
  split; [vm_compute; discriminate|].
  apply (proj2 (proj1 (proj2 (GetDefaultValue_parse_or_zero
                                GoLib.strconv_ParseFloat GoLib.time_Parse)) _)).
  vm_compute; discriminate.
Defined.

(** Witness of [parseTime_first_layout] (C8): the fourth layout is the
    first to accept "2023-01-01T00:00:00Z". *)
Lemma parseTime_first_layout_witness :
  let c := mkTimeC baseContainer_zero None in
  first_layout_parses GoLib.time_Parse timeFormats "2023-01-01T00:00:00Z"
    (mkTime 63808128000 0 UTC)
  /\ TimeContainer_parseTime GoLib.time_Parse c "2023-01-01T00:00:00Z"
     = mkTime 63808128000 0 UTC.
Proof.
  assert (first_layout_parses GoLib.time_Parse timeFormats "2023-01-01T00:00:00Z"
            (mkTime 63808128000 0 UTC)) as H.
  { exists ["2006-01-02"; "2006-01-02 15:04:05"; "2006-01-02T15:04:05"],
           "2006-01-02T15:04:05Z",
           ["2006-01-02T15:04:05 MST"; "2006-01-02T15:04:05-0700"].
    split; [reflexivity|]. split; [|vm_compute; reflexivity].
    intros g Hg.
    repeat (apply elem_of_cons in Hg as [->|Hg]; [by vm_compute|]).
    by apply elem_of_nil in Hg. }
  split; [exact H|].
  exact (proj1 (proj2 (parseTime_first_layout GoLib.time_Parse
                         (mkTimeC baseContainer_zero None) "2023-01-01T00:00:00Z"))
               _ H).
Defined.

(** Counterexample to C9 as stated: same environment, env file and command
    line, a fresh struct each time; the first pass resolves Host to the flag
    value, the second to the env-file value. *)
Lemma Behold_twice_counterexample :
  exists st1 st2,
    go_Behold Sample.TestConfig Sample.allSources = Ok (tt, st1)
    /\ go_Behold Sample.TestConfig (with_object (zeroStruct Sample.TestConfig) st1)
       = Ok (tt, st2)
    /\ object Sample.allSources = zeroStruct Sample.TestConfig
    /\ object st1 !! 0%nat = Some (VString "flag.com:4000")
    /\ object st2 !! 0%nat = Some (VString "envfile.com:3000").
Proof.
  eexists _, _. split; [vm_compute; reflexivity|].
  split; [vm_compute; reflexivity|]. repeat split; vm_compute; reflexivity.
Qed.

(** Without arguments on the command line the first pass parses no flag, and
    a second pass panics where it registers the first flag again. *)
Example Behold_twice_without_arguments :
  let st := Sample.bare Sample.TestConfig in
  let st1 := stateOf (go_Behold Sample.TestConfig st) st in
  go_Behold Sample.TestConfig st = Ok (tt, st1)
  /\ flag_Parsed st1 = false
  /\ go_Behold Sample.TestConfig (with_object (zeroStruct Sample.TestConfig) st1)
     = Panic "flag redefined: host".
Proof. repeat split; vm_compute; reflexivity. Qed.

(** Witness of [Behold_twice] (C9, amended): Port has no flag value in the
    first pass and is 8080, from the environment, in both. *)
Lemma Behold_twice_witness :
  let st := Sample.allSources in
  let cs := valueOf (go_containers Sample.TestConfig st) [] in
  let st1 := stateOf (go_Behold Sample.TestConfig st) st in
  object st = zeroStruct Sample.TestConfig
  /\ go_Behold Sample.TestConfig st = Ok (tt, st1)
  /\ flag_Parsed st1 = true
  /\ exists st2,
       go_Behold Sample.TestConfig (with_object (zeroStruct Sample.TestConfig) st1)
       = Ok (tt, st2)
       /\ object st2 !! 1%nat = object st1 !! 1%nat
       /\ object st1 !! 1%nat = Some (VInt 8080).
Proof.
  split; [reflexivity|]. split; [vm_compute; reflexivity|].
  split; [vm_compute; reflexivity|].
  destruct (Behold_twice GoLib.strconv_ParseFloat GoLib.time_Parse
              Sample.TestConfig Sample.allSources
              (valueOf (go_containers Sample.TestConfig Sample.allSources) [])
              (stateOf (go_containers Sample.TestConfig Sample.allSources)
                       Sample.allSources)
              (stateOf (go_Behold Sample.TestConfig Sample.allSources) Sample.allSources))
    as (st2 & H2 & _ & Hsame);
    [reflexivity | vm_compute; reflexivity | vm_compute; reflexivity
    | vm_compute; reflexivity |].
  exists st2. split; [exact H2|]. split; [|vm_compute; reflexivity].
  apply (Hsame 1%nat
           (default any_nil
              (valueOf (go_containers Sample.TestConfig Sample.allSources) [] !! 1%nat)));
    vm_compute; reflexivity.
Defined.

(** Witness of [Behold_untouched] (C10): the [time.Duration] field. *)
Lemma Behold_untouched_witness :
  let st := Sample.bare Sample.Partial in
  let st' := stateOf (go_Behold Sample.Partial st) st in
  let f := mkField "Duration" (TNamed "time.Duration")
             (Sample.tags "d" "DURATION" "34s" "Duration defaults to 34s") true in
  go_Behold Sample.Partial st = Ok (tt, st')
  /\ Sample.Partial !! 2%nat = Some f /\ constructible f = false
  /\ object st' !! 2%nat = object st !! 2%nat
  /\ (object st = zeroStruct Sample.Partial ->
      object st' !! 2%nat = Some (zeroValue (Type_ f))).
Proof.
  split; [vm_compute; reflexivity|]. split; [reflexivity|]. split; [reflexivity|].
  apply (Behold_untouched GoLib.strconv_ParseFloat GoLib.time_Parse
           Sample.Partial (Sample.bare Sample.Partial)
           (stateOf (go_Behold Sample.Partial (Sample.bare Sample.Partial))
                    (Sample.bare Sample.Partial)) 2%nat);
    [vm_compute; reflexivity | reflexivity | reflexivity].
Defined.

(** Witness of [applyValueWithPrecedence_frame] (X4): the container of Port
    where the second loop starts; PORT is 8080 in the environment. *)
Lemma applyValueWithPrecedence_frame_witness :
  let st := stateOf (go_containers Sample.TestConfig Sample.allSources)
                    Sample.allSources in
  let c := default any_nil
             (valueOf (go_containers Sample.TestConfig Sample.allSources) []
                !! 1%nat) in
  let st' := stateOf (go_switch c st) st in
  go_switch c st = Ok (tt, st')
  /\ object st' !! 1%nat = Some (VInt 8080)
  /\ environ st' = environ st /\ os_Args st' = os_Args st /\ dotenv st' = dotenv st
  /\ CommandLine st' = CommandLine st
  /\ length (object st') = length (object st)
  /\ (forall i, i <> fieldValue (any_base c) -> object st' !! i = object st !! i)
  /\ (snd (go_GetEnvValue c st) = false -> snd (go_GetEnvFileValue c) = false ->
      snd (go_GetFlagValue c st) = false -> st' = st).
Proof.
  split; [vm_compute; reflexivity|]. split; [vm_compute; reflexivity|].
  apply (applyValueWithPrecedence_frame GoLib.strconv_ParseFloat GoLib.time_Parse).
  vm_compute; reflexivity.
Defined.

(** Witness of [Behold_parses_once] (X5): a command line with a flag. *)
Lemma Behold_parses_once_witness :
  let st := Sample.allSources in
  let st' := stateOf (go_Behold Sample.TestConfig st) st in
  go_Behold Sample.TestConfig st = Ok (tt, st')
  /\ flag_Parsed st = false /\ flag_Parsed st' = true
  /\ flag_Parsed st' = flag_Parsed st || (1 <? Z.of_nat (length (os_Args st)))
  /\ (flag_Parsed st = true -> CommandLine st' = CommandLine st).
Proof.
  split; [vm_compute; reflexivity|]. split; [reflexivity|].
  split; [vm_compute; reflexivity|].
  apply (Behold_parses_once GoLib.strconv_ParseFloat GoLib.time_Parse
           Sample.TestConfig).
  vm_compute; reflexivity.
Defined.

(** Witness of [Behold_registers_flags] (X6): the five flags of
    [TestConfig] are defined after the pass. *)
Lemma Behold_registers_flags_witness :
  let st := Sample.bare Sample.TestConfig in
  let st' := stateOf (go_Behold Sample.TestConfig st) st in
  go_Behold Sample.TestConfig st = Ok (tt, st')
  /\ (flag_Parsed st = false ->
      forall index f, Sample.TestConfig !! index = Some f -> constructible f = true ->
        is_Some (formal (CommandLine st') !! flagNameOf f))
  /\ (forall name, is_Some (formal (CommandLine st) !! name) ->
        is_Some (formal (CommandLine st') !! name)).
Proof.
  split; [vm_compute; reflexivity|].
  apply (Behold_registers_flags GoLib.strconv_ParseFloat GoLib.time_Parse
           Sample.TestConfig).
  vm_compute; reflexivity.
Defined.

(** Witness of [New_builds] (X7): the constructor of Port in a process at
    its start. *)
Lemma New_builds_witness :
  let st := Sample.bare Sample.TestConfig in
  let f := mkField "Port" TInt (Sample.tags "port" "PORT" "9000" "Port number") true in
  exists c st',
    go_New Sample.TestConfig 1 ∅ st = Ok ((c, None), st')
    /\ c <> any_nil /\ any_base c = baseOf f 1 ∅ /\ any_kind c = Type_ f
    /\ object st' !! 1%nat = Some (go_GetDefaultValue c)
    /\ (forall i, i <> 1%nat -> object st' !! i = object st !! i)
    /\ environ st' = environ st /\ os_Args st' = os_Args st
    /\ flag_Parsed st' = flag_Parsed st
    /\ (if flag_Parsed st
        then any_flagValue c = None /\ CommandLine st' = CommandLine st
        else any_flagValue c = Some (flagNameOf f)
             /\ formal (CommandLine st') !! flagNameOf f = Some (go_cell c)
             /\ forall name, name <> flagNameOf f ->
                  formal (CommandLine st') !! name = formal (CommandLine st) !! name).
Proof.
  apply (New_builds GoLib.strconv_ParseFloat GoLib.time_Parse Sample.TestConfig 1%nat
           (mkField "Port" TInt (Sample.tags "port" "PORT" "9000" "Port number") true)
           ∅ (Sample.bare Sample.TestConfig));
    [ reflexivity | reflexivity | exact I | vm_compute; lia
    | intros _; split; vm_compute; reflexivity ].
Defined.

(** Witness of [Behold_returns] (X8): [TestConfig] in a process at its
    start, without arguments. *)
Lemma Behold_returns_witness :
  let st := Sample.bare Sample.TestConfig in
  dotenv_ok (dotenv st) = true
  /\ fields_typed Sample.TestConfig = true
  /\ flags_registrable Sample.TestConfig (CommandLine st) = true
  /\ (length (os_Args st) <= 1)%nat
  /\ exists st', go_Behold Sample.TestConfig st = Ok (tt, st').
Proof.
  split; [reflexivity|]. split; [reflexivity|]. split; [vm_compute; reflexivity|].
  split; [vm_compute; lia|].
  apply (Behold_returns GoLib.strconv_ParseFloat GoLib.time_Parse);
    [ reflexivity | reflexivity | intros _; vm_compute; reflexivity
    | right; vm_compute; lia ].
Defined.

(** Witness of [Behold_never_panics] (X9): a command line with a flag, in
    the default mode of [flag.CommandLine]. *)
Lemma Behold_never_panics_witness :
  let st := Sample.allSources in
  errorHandling (CommandLine st) = ExitOnError
  /\ ((exists st', go_Behold Sample.TestConfig st = Ok (tt, st'))
      \/ go_Behold Sample.TestConfig st = Exit 0
      \/ go_Behold Sample.TestConfig st = Exit 2).
Proof.
  split; [reflexivity|].
  apply (Behold_never_panics GoLib.strconv_ParseFloat GoLib.time_Parse);
    [ reflexivity | reflexivity | intros _; vm_compute; reflexivity | reflexivity ].
Defined.

(** Witness of [Behold_duplicate_flag_panics] (X10): Host and Alias both
    declare the flag "host". *)
Lemma Behold_duplicate_flag_panics_witness :
  let st := Sample.bare Sample.Duplicate in
  flag_Parsed st = false
  /\ exists msg, go_Behold Sample.Duplicate st = Panic msg.
Proof.
  split; [reflexivity|].
  apply (Behold_duplicate_flag_panics GoLib.strconv_ParseFloat GoLib.time_Parse
           Sample.Duplicate (Sample.bare Sample.Duplicate) 0%nat 1%nat
           (mkField "Host" TString
              (Sample.tags "host" "HOST" "localhost:8080" "Host and port to bind to")
              true)
           (mkField "Alias" TString
              (Sample.tags "host" "ALIAS" "" "Another name of the host") true));
    [ reflexivity | reflexivity | reflexivity | lia | reflexivity | reflexivity
    | reflexivity ].
Defined.

(** Witness of [Behold_again_panics] (X11): a second pass in a process
    without arguments. *)
Lemma Behold_again_panics_witness :
  let st := Sample.bare Sample.TestConfig in
  let st1 := stateOf (go_Behold Sample.TestConfig st) st in
  go_Behold Sample.TestConfig st = Ok (tt, st1)
  /\ flag_Parsed st1 = false
  /\ exists msg, go_Behold Sample.TestConfig
                   (with_object (zeroStruct Sample.TestConfig) st1)
                 = Panic msg.
Proof.
  split; [vm_compute; reflexivity|]. split; [vm_compute; reflexivity|].
  apply (Behold_again_panics GoLib.strconv_ParseFloat GoLib.time_Parse
           Sample.TestConfig (Sample.bare Sample.TestConfig));
    [ vm_compute; reflexivity | vm_compute; reflexivity | ].
  exists 0%nat. eexists. split; reflexivity.
Defined.

(** Witness of [Behold_overwrites_presets] (X12): the pass on a struct
    that holds values already. *)
Lemma Behold_overwrites_presets_witness :
  let st := Sample.allSources in
  let st1 := stateOf (go_Behold Sample.TestConfig st) st in
  go_Behold Sample.TestConfig st = Ok (tt, st1)
  /\ exists st2,
       go_Behold Sample.TestConfig (with_object Sample.preset st) = Ok (tt, st2)
       /\ CommandLine st2 = CommandLine st1
       /\ forall index f, Sample.TestConfig !! index = Some f ->
            object st2 !! index
            = if constructible f then object st1 !! index
              else Sample.preset !! index.
Proof.
  split; [vm_compute; reflexivity|].
  apply (Behold_overwrites_presets GoLib.strconv_ParseFloat GoLib.time_Parse
           Sample.TestConfig Sample.allSources);
    [ vm_compute; reflexivity | reflexivity | reflexivity ].
Defined.


(** Witness of [Behold_ignores_malformed] (X14): PORT is no number in the
    environment and in the env file; Port keeps its default. *)
Lemma Behold_ignores_malformed_witness :
  let st := Sample.badPort in
  let st' := stateOf (go_Behold Sample.TestConfig st) st in
  let c := default any_nil
             (valueOf (go_containers Sample.TestConfig st) [] !! 1%nat) in
  go_Behold Sample.TestConfig st = Ok (tt, st')
  /\ environ st !! envName (any_base c) = Some "abc"
  /\ envFile (any_base c) !! envName (any_base c) = Some "eighty"
  /\ go_GetDefaultValue c = VInt 9000
  /\ object st' !! 1%nat = Some (go_GetDefaultValue c).
Proof.
  split; [vm_compute; reflexivity|]. split; [vm_compute; reflexivity|].
  split; [vm_compute; reflexivity|]. split; [vm_compute; reflexivity|].
  apply (Behold_ignores_malformed GoLib.strconv_ParseFloat GoLib.time_Parse
           Sample.TestConfig Sample.badPort
           (stateOf (go_Behold Sample.TestConfig Sample.badPort) Sample.badPort)
           (valueOf (go_containers Sample.TestConfig Sample.badPort) [])
           (stateOf (go_containers Sample.TestConfig Sample.badPort) Sample.badPort)
           1%nat);
    [ reflexivity | vm_compute; reflexivity | vm_compute; reflexivity
    | vm_compute; reflexivity | vm_compute; discriminate
    | right; right; exists "abc"; split; [vm_compute; reflexivity|vm_compute; discriminate]
    | right; exists "eighty"; split; [vm_compute; reflexivity|vm_compute; discriminate]
    | left; vm_compute; reflexivity ].
Defined.

(** Witness of [Behold_reads_env] (X15): HOST is in the env file and in the
    environment, PORT in the environment only. *)
Lemma Behold_reads_env_witness :
  let st := Sample.noFlag in
  let st' := stateOf (go_Behold Sample.TestConfig st) st in
  go_Behold Sample.TestConfig st = Ok (tt, st')
  /\ object st' !! 0%nat = Some (VString "envfile.com:3000")
  /\ object st' !! 1%nat = Some (VInt 8080).
Proof.
  split; [vm_compute; reflexivity|].
  pose (st := Sample.noFlag).
  pose (cs := valueOf (go_containers Sample.TestConfig st) []).
  pose (st1 := stateOf (go_containers Sample.TestConfig st) st).
  pose (st' := stateOf (go_Behold Sample.TestConfig st) st).
  split.
  - apply (proj1 (Behold_reads_env GoLib.strconv_ParseFloat GoLib.time_Parse
             Sample.TestConfig st st' cs st1 0%nat (default any_nil (cs !! 0%nat))
             ltac:(reflexivity) ltac:(vm_compute; reflexivity)
             ltac:(vm_compute; reflexivity) ltac:(vm_compute; reflexivity)
             ltac:(vm_compute; discriminate)
             ltac:(right; vm_compute; reflexivity)) "envfile.com:3000");
      vm_compute; reflexivity.
  - apply (proj2 (Behold_reads_env GoLib.strconv_ParseFloat GoLib.time_Parse
             Sample.TestConfig st st' cs st1 1%nat (default any_nil (cs !! 1%nat))
             ltac:(reflexivity) ltac:(vm_compute; reflexivity)
             ltac:(vm_compute; reflexivity) ltac:(vm_compute; reflexivity)
             ltac:(vm_compute; discriminate)
             ltac:(right; vm_compute; reflexivity)) "8080");
      [ vm_compute; reflexivity | vm_compute; reflexivity | discriminate
      | exists 8080; split; vm_compute; reflexivity ].
Defined.

(** Witness of [Behold_idempotent_once_parsed] (X16): the application
    parsed the flags itself. *)
Lemma Behold_idempotent_once_parsed_witness :
  let st := Sample.parsedBefore in
  let st1 := stateOf (go_Behold Sample.TestConfig st) st in
  flag_Parsed st = true
  /\ go_Behold Sample.TestConfig st = Ok (tt, st1)
  /\ object st1 !! 0%nat = Some (VString "env.com:2000")
  /\ go_Behold Sample.TestConfig st1 = Ok (tt, st1).
Proof.
  split; [reflexivity|]. split; [vm_compute; reflexivity|].
  split; [vm_compute; reflexivity|].
  apply (Behold_idempotent_once_parsed GoLib.strconv_ParseFloat GoLib.time_Parse
           Sample.TestConfig Sample.parsedBefore);
    [ reflexivity | reflexivity | vm_compute; reflexivity ].
Defined.

(** Witness of [Behold_undefined_flag_exits] (X17): [-verbose] is no flag
    of [TestConfig]. *)
Lemma Behold_undefined_flag_exits_witness :
  go_Behold Sample.TestConfig Sample.unknownFlag = Exit 2.
Proof.
  apply (Behold_undefined_flag_exits GoLib.strconv_ParseFloat GoLib.time_Parse
           Sample.TestConfig Sample.unknownFlag "test" "-verbose" ["-port=4000"]
           "verbose" None);
    [ reflexivity | reflexivity | reflexivity | vm_compute; reflexivity
    | reflexivity | reflexivity | vm_compute; reflexivity
    | vm_compute; intros H; repeat (apply elem_of_cons in H as [H|H]; [discriminate|]);
      by apply elem_of_nil in H
    | vm_compute; reflexivity ].
Defined.
